(** * dsmpartsfinder: the site clients (Kleinanzeigen, SchadeAutos, eBay)

    A shallow embedding of the three [SiteClient] implementations and of the
    contract file they share, with the properties of their fetch loops,
    their date parsing and their image inlining.

    Go strings are byte strings ([string] of [ascii]); Go [int] is [Z] (no
    arithmetic of the clients comes near the 64-bit range); a call that
    returns [(T, error)] returns a [result T]; the network, the wall clock, the
    log and standard output are an explicit history of events threaded through
    every call. *)

From Stdlib Require Import ZArith List Bool Ascii String Lia.
From Stdlib Require Import Numbers.DecimalString.
Import ListNotations.

Open Scope string_scope.
Open Scope Z_scope.

(* ================================================================== *)
(** ** Go library functions the clients call *)
(* ================================================================== *)

(** A string given by its bytes. *)
Definition bytes_of (codes : list nat) : string :=
  string_of_list_ascii (map ascii_of_nat codes).

Fixpoint drop (n : nat) (s : string) : string :=
  match n, s with
  | O, _ => s
  | S _, EmptyString => EmptyString
  | S n', String _ s' => drop n' s'
  end.

Definition is_digit (c : ascii) : bool :=
  let n := nat_of_ascii c in (48 <=? n)%nat && (n <=? 57)%nat.

Definition digit_val (c : ascii) : Z := Z.of_nat (nat_of_ascii c) - 48.

Module fmt.

(** [fmt.Sprintf("%d", n)]. *)
Definition itoa (n : Z) : string := NilZero.string_of_int (Z.to_int n).

End fmt.

Module strings.

(** [strings.HasPrefix(s, p)]. *)
Definition HasPrefix (s p : string) : bool := String.prefix p s.

(** [strings.TrimPrefix(s, p)]. *)
Definition TrimPrefix (s p : string) : string :=
  if HasPrefix s p then drop (String.length p) s else s.

(** [strings.Contains(s, sub)]. *)
Definition Contains (s sub : string) : bool :=
  match String.index 0 sub s with Some _ => true | None => false end.

(** The UTF-8 encodings of the code points [unicode.IsSpace] accepts:
    tab to carriage return, space, U+0085, U+00A0, U+1680, U+2000 to
    U+200A, U+2028, U+2029, U+202F, U+205F and U+3000. *)
Definition white_space : list string :=
  map bytes_of
    (app [ [9]; [10]; [11]; [12]; [13]; [32]; [194; 133]; [194; 160];
           [225; 154; 128] ]
       (app (map (fun k => [226; 128; k])
               [128; 129; 130; 131; 132; 133; 134; 135; 136; 137; 138])
          [ [226; 128; 168]; [226; 128; 169]; [226; 128; 175];
            [226; 129; 159]; [227; 128; 128] ]))%nat.

Definition rev_string (s : string) : string :=
  string_of_list_ascii (rev (list_ascii_of_string s)).

(** One white-space code point removed from the front of [s], when [s]
    starts with one. *)
Definition strip_one (spaces : list string) (s : string) : option string :=
  match find (fun sp => String.prefix sp s) spaces with
  | Some sp => Some (drop (String.length sp) s)
  | None => None
  end.

Fixpoint strip (spaces : list string) (fuel : nat) (s : string) : string :=
  match fuel with
  | O => s
  | S fuel' =>
      match strip_one spaces s with
      | Some s' => strip spaces fuel' s'
      | None => s
      end
  end.

Definition TrimLeft (s : string) : string :=
  strip white_space (String.length s) s.

Definition TrimRight (s : string) : string :=
  rev_string (strip (map rev_string white_space) (String.length s) (rev_string s)).

(** [strings.TrimSpace(s)]: leading and trailing white space removed. *)
Definition TrimSpace (s : string) : string := TrimRight (TrimLeft s).

End strings.

Module base64.

Definition alphabet : string :=
  "ABCDEFGHIJKLMNOPQRSTUVWXYZabcdefghijklmnopqrstuvwxyz0123456789+/".

Definition sextet (n : nat) : ascii :=
  match String.get n alphabet with Some c => c | None => "="%char end.

Fixpoint encode (bs : list nat) : string :=
  match bs with
  | [] => ""
  | [a] =>
      String (sextet (a / 4)) (String (sextet (a mod 4 * 16)) "==")
  | [a; b] =>
      String (sextet (a / 4))
        (String (sextet (a mod 4 * 16 + b / 16))
           (String (sextet (b mod 16 * 4)) "="))
  | a :: b :: c :: rest =>
      String (sextet (a / 4))
        (String (sextet (a mod 4 * 16 + b / 16))
           (String (sextet (b mod 16 * 4 + c / 64))
              (String (sextet (c mod 64)) (encode rest))))
  end%nat.

(** [base64.StdEncoding.EncodeToString(data)]. *)
Definition EncodeToString (data : string) : string :=
  encode (map nat_of_ascii (list_ascii_of_string data)).

End base64.

Module url.

Definition hex_digit (n : nat) : ascii :=
  match String.get n "0123456789ABCDEF" with Some c => c | None => "0"%char end.

Definition unreserved (c : ascii) : bool :=
  let n := nat_of_ascii c in
  ((48 <=? n) && (n <=? 57) || (65 <=? n) && (n <=? 90) || (97 <=? n) && (n <=? 122)
   || (n =? 45) || (n =? 95) || (n =? 46) || (n =? 126))%nat.

(** [url.QueryEscape(s)]. *)
Fixpoint QueryEscape (s : string) : string :=
  match s with
  | EmptyString => EmptyString
  | String c s' =>
      let n := nat_of_ascii c in
      if unreserved c then String c (QueryEscape s')
      else if (n =? 32)%nat then String "+" (QueryEscape s')
      else String "%" (String (hex_digit (n / 16)) (String (hex_digit (n mod 16)) (QueryEscape s')))
  end.

(** [url.Values] with one value per key, which is all [Set] produces. *)
Definition Values : Type := list (string * string).

(** [v.Set(key, value)]. *)
Fixpoint Set_ (v : Values) (key value : string) : Values :=
  match v with
  | [] => [(key, value)]
  | (k, x) :: v' => if String.eqb k key then (k, value) :: v' else (k, x) :: Set_ v' key value
  end.

Fixpoint insert_sorted (kv : string * string) (v : Values) : Values :=
  match v with
  | [] => [kv]
  | kv' :: v' => if String.leb (fst kv) (fst kv') then kv :: v else kv' :: insert_sorted kv v'
  end.

Definition sort_keys (v : Values) : Values := fold_right insert_sorted [] v.

Fixpoint join_pairs (v : Values) : string :=
  match v with
  | [] => ""
  | [(k, x)] => QueryEscape k ++ "=" ++ QueryEscape x
  | (k, x) :: v' => QueryEscape k ++ "=" ++ QueryEscape x ++ "&" ++ join_pairs v'
  end.

(** [v.Encode()]: the pairs sorted by key, escaped, joined by ampersands. *)
Definition Encode (v : Values) : string := join_pairs (sort_keys v).

End url.

Module time.

(** A location, reduced to its name and the offset (seconds east of UTC)
    in force at the instants considered. *)
Record Location := { locName : string; locOffset : Z }.

Definition UTC : Location := {| locName := "UTC"; locOffset := 0 |}.

(** [time.Time], by its calendar fields in its location. *)
Record Time := {
  Year : Z; Month : Z; Day : Z;
  Hour : Z; Minute : Z; Second : Z; Nanosecond : Z;
  Loc : Location
}.

(** [time.Date(year, month, day, hour, min, sec, nsec, loc)], for arguments
    in calendar range, which is what every caller below passes: fields
    read off a [Time], and an hour and a minute that [Parse] accepted. *)
Definition Date (year month day hour min sec nsec : Z) (loc : Location) : Time :=
  {| Year := year; Month := month; Day := day;
     Hour := hour; Minute := min; Second := sec; Nanosecond := nsec;
     Loc := loc |}.

(** The zero value [time.Time{}]: January 1, year 1, 00:00:00 UTC. *)
Definition zero : Time := Date 1 1 1 0 0 0 0 UTC.

Definition isLeap (year : Z) : bool :=
  (year mod 4 =? 0) && (negb (year mod 100 =? 0) || (year mod 400 =? 0)).

Definition daysBefore (month : Z) : Z :=
  nth (Z.to_nat (month - 1)) [0; 31; 59; 90; 120; 151; 181; 212; 243; 273; 304; 334] 365.

Definition daysIn (month year : Z) : Z :=
  if (month =? 2) && isLeap year then 29
  else daysBefore (month + 1) - daysBefore month.

(** Days from January 1 of year 1 to the given date. *)
Definition daysSinceEpoch (year month day : Z) : Z :=
  let y := year - 1 in
  365 * y + y / 4 - y / 100 + y / 400
  + daysBefore month + (if (3 <=? month) && isLeap year then 1 else 0)
  + (day - 1).

(** Seconds from the zero instant to [t]. *)
Definition absSeconds (t : Time) : Z :=
  daysSinceEpoch (Year t) (Month t) (Day t) * 86400
  + Hour t * 3600 + Minute t * 60 + Second t - locOffset (Loc t).

(** [t.IsZero()]: [t] is the instant January 1, year 1, 00:00:00 UTC. *)
Definition IsZero (t : Time) : bool :=
  (absSeconds t =? 0) && (Nanosecond t =? 0).

(** [t.AddDate(0, 0, -1)]: the same wall-clock reading one day earlier. *)
Definition dayBefore (t : Time) : Time :=
  let '(y, m, d) :=
    if 1 <? Day t then (Year t, Month t, Day t - 1)
    else if 1 <? Month t then (Year t, Month t - 1, daysIn (Month t - 1) (Year t))
    else (Year t - 1, 12, 31) in
  Date y m d (Hour t) (Minute t) (Second t) (Nanosecond t) (Loc t).

(** *** [time.Parse]

    The layouts of the clients are made of the elements [2006], [01], [1],
    [02], [2], [15], [04] and [05] and of literal text; the layout scanner
    and the value parser are modelled on these elements. *)

Inductive std :=
| stdLongYear | stdZeroMonth | stdNumMonth | stdZeroDay | stdDay
| stdHour | stdZeroMinute | stdZeroSecond.

(** The element a layout starts with, and the layout after it. *)
Definition stdAt (layout : string) : option (std * string) :=
  if String.prefix "01" layout then Some (stdZeroMonth, drop 2 layout)
  else if String.prefix "02" layout then Some (stdZeroDay, drop 2 layout)
  else if String.prefix "04" layout then Some (stdZeroMinute, drop 2 layout)
  else if String.prefix "05" layout then Some (stdZeroSecond, drop 2 layout)
  else if String.prefix "15" layout then Some (stdHour, drop 2 layout)
  else if String.prefix "1" layout then Some (stdNumMonth, drop 1 layout)
  else if String.prefix "2006" layout then Some (stdLongYear, drop 4 layout)
  else if String.prefix "2" layout then Some (stdDay, drop 1 layout)
  else None.

(** [nextStdChunk(layout)]: the literal text before the first element,
    the element (if any) and the layout after it. *)
Fixpoint nextStdChunk (layout : string) : string * option std * string :=
  match layout with
  | EmptyString => ("", None, "")
  | String c rest =>
      match stdAt layout with
      | Some (e, suffix) => ("", Some e, suffix)
      | None =>
          let '(prefix, e, suffix) := nextStdChunk rest in
          (String c prefix, e, suffix)
      end
  end.

Fixpoint cutspace (s : string) : string :=
  match s with
  | String " " s' => cutspace s'
  | _ => s
  end.

(** [skip(value, prefix)]: [value] after the literal [prefix]; a run of
    spaces in the layout matches any run of spaces in the value. *)
Fixpoint skip (fuel : nat) (value prefix : string) : option string :=
  match fuel, prefix with
  | _, EmptyString => Some value
  | O, _ => None
  | S fuel', String p prefix' =>
      if Ascii.eqb p " " then
        match value with
        | String v _ =>
            if Ascii.eqb v " " then skip fuel' (cutspace value) (cutspace prefix)
            else None
        | EmptyString => skip fuel' (cutspace value) (cutspace prefix)
        end
      else
        match value with
        | String v value' => if Ascii.eqb v p then skip fuel' value' prefix' else None
        | EmptyString => None
        end
  end.

(** [getnum(s, fixed)]: a number of one or two digits, of exactly two when
    [fixed]. *)
Definition getnum (s : string) (fixed : bool) : option (Z * string) :=
  match s with
  | String a s1 =>
      if is_digit a then
        match s1 with
        | String b s2 =>
            if is_digit b then Some (digit_val a * 10 + digit_val b, s2)
            else if fixed then None else Some (digit_val a, s1)
        | EmptyString => if fixed then None else Some (digit_val a, s1)
        end
      else None
  | EmptyString => None
  end.

Fixpoint digits_prefix (s : string) : list ascii :=
  match s with
  | String c s' => if is_digit c then c :: digits_prefix s' else []
  | EmptyString => []
  end.

Definition atoi_digits (ds : list ascii) : Z :=
  fold_left (fun acc c => acc * 10 + digit_val c) ds 0.

(** The four digits of a year. *)
Definition getyear (s : string) : option (Z * string) :=
  let ds := digits_prefix s in
  if (4 <=? List.length ds)%nat then Some (atoi_digits (firstn 4 ds), drop 4 s)
  else None.

(** A fraction of a second after the seconds, which [Parse] accepts in
    the value when the layout has none: separator and digits are
    consumed, the first nine digits count. *)
Definition fraction (value : string) : Z * string :=
  match value with
  | String sep rest =>
      let ds := digits_prefix rest in
      if (Ascii.eqb sep "." || Ascii.eqb sep ",") && negb (Nat.eqb (List.length ds) 0) then
        let used := firstn 9 ds in
        (atoi_digits used * 10 ^ Z.of_nat (9 - List.length used),
         drop (S (List.length ds)) value)
      else (0, value)
  | EmptyString => (0, value)
  end.

Record fields := {
  f_year : Z; f_month : Z; f_day : Z;
  f_hour : Z; f_min : Z; f_sec : Z; f_nsec : Z
}.

Definition no_fields : fields :=
  {| f_year := 0; f_month := -1; f_day := -1;
     f_hour := 0; f_min := 0; f_sec := 0; f_nsec := 0 |}.

(** One element read from the front of the value. *)
Definition parse_std (e : std) (value : string) (f : fields) : option (fields * string) :=
  match e with
  | stdLongYear =>
      match getyear value with
      | Some (y, v) => Some ({| f_year := y; f_month := f_month f; f_day := f_day f;
                               f_hour := f_hour f; f_min := f_min f; f_sec := f_sec f;
                               f_nsec := f_nsec f |}, v)
      | None => None
      end
  | stdZeroMonth | stdNumMonth =>
      match getnum value (match e with stdZeroMonth => true | _ => false end) with
      | Some (m, v) =>
          if (m <=? 0) || (12 <? m) then None
          else Some ({| f_year := f_year f; f_month := m; f_day := f_day f;
                        f_hour := f_hour f; f_min := f_min f; f_sec := f_sec f;
                        f_nsec := f_nsec f |}, v)
      | None => None
      end
  | stdZeroDay | stdDay =>
      match getnum value (match e with stdZeroDay => true | _ => false end) with
      | Some (d, v) => Some ({| f_year := f_year f; f_month := f_month f; f_day := d;
                               f_hour := f_hour f; f_min := f_min f; f_sec := f_sec f;
                               f_nsec := f_nsec f |}, v)
      | None => None
      end
  | stdHour =>
      match getnum value false with
      | Some (h, v) =>
          if (h <? 0) || (24 <=? h) then None
          else Some ({| f_year := f_year f; f_month := f_month f; f_day := f_day f;
                        f_hour := h; f_min := f_min f; f_sec := f_sec f;
                        f_nsec := f_nsec f |}, v)
      | None => None
      end
  | stdZeroMinute =>
      match getnum value true with
      | Some (m, v) =>
          if (m <? 0) || (60 <=? m) then None
          else Some ({| f_year := f_year f; f_month := f_month f; f_day := f_day f;
                        f_hour := f_hour f; f_min := m; f_sec := f_sec f;
                        f_nsec := f_nsec f |}, v)
      | None => None
      end
  | stdZeroSecond =>
      match getnum value true with
      | Some (s, v) =>
          if (s <? 0) || (60 <=? s) then None
          else
            let '(ns, v') := fraction v in
            Some ({| f_year := f_year f; f_month := f_month f; f_day := f_day f;
                     f_hour := f_hour f; f_min := f_min f; f_sec := s;
                     f_nsec := ns |}, v')
      | None => None
      end
  end.

(** The loop of [Parse]: literal text, then an element, until the layout
    ends; text left in the value is an error. Each round shortens the
    layout, so [S (length layout)] rounds are enough. *)
Fixpoint parse_loop (fuel : nat) (layout value : string) (f : fields) : option fields :=
  match fuel with
  | O => None
  | S fuel' =>
      let '(prefix, e, suffix) := nextStdChunk layout in
      match skip (String.length prefix) value prefix with
      | None => None
      | Some value1 =>
          match e with
          | None => if String.eqb value1 "" then Some f else None
          | Some e =>
              match parse_std e value1 f with
              | Some (f', value2) => parse_loop fuel' suffix value2 f'
              | None => None
              end
          end
      end
  end.

(** [time.Parse(layout, value)]: the time, or [None] where Go returns an
    error. A missing month or day is 1, the day must exist in its month,
    the location is UTC. *)
Definition Parse (layout value : string) : option Time :=
  match parse_loop (S (String.length layout)) layout value no_fields with
  | None => None
  | Some f =>
      let month := if f_month f <? 0 then 1 else f_month f in
      let day := if f_day f <? 0 then 1 else f_day f in
      if (day <? 1) || (daysIn month (f_year f) <? day) then None
      else Some (Date (f_year f) month day (f_hour f) (f_min f) (f_sec f) (f_nsec f) UTC)
  end.

(** The first layout of the list that parses the value, as the loops
    [for _, layout := range layouts] of the clients find it. *)
Fixpoint first_parse (layouts : list string) (value : string) : option Time :=
  match layouts with
  | [] => None
  | layout :: rest =>
      match Parse layout value with
      | Some t => Some t
      | None => first_parse rest value
      end
  end.

End time.

(** [len(l)]. *)
Definition len {A} (l : list A) : Z := Z.of_nat (List.length l).

(* ================================================================== *)
(** ** The contract: [Part], [SearchParams], [SiteClient] *)
(* ================================================================== *)

(** Go's [error], by its message. *)
Definition error : Type := string.

(** What a Go function of type [(T, error)] returns. *)
Inductive result (A : Type) : Type :=
| Ok (a : A)
| Err (e : error).
Arguments Ok {A} a.
Arguments Err {A} e.

(** What a call of [FetchParts] comes to: it returns, it panics, or the loop
    is still running after the rounds allowed to it. *)
Inductive outcome (A : Type) : Type :=
| Returns (r : result A)
| Panics (v : string)
| OutOfFuel.
Arguments Returns {A} r.
Arguments Panics {A} v.
Arguments OutOfFuel {A}.

Module Part.

(** [Part] represents a car part from any site client. *)
Record Part := {
  ID : string;
  Description : string;
  TypeName : string;
  Name : string;
  ImageBase64 : string;
  URL : string;
  SiteID : Z;
  Price : string;
  CreationDate : time.Time
}.

Definition set_ID (p : Part) (v : string) : Part :=
  {| ID := v; Description := Description p; TypeName := TypeName p; Name := Name p;
     ImageBase64 := ImageBase64 p; URL := URL p; SiteID := SiteID p; Price := Price p;
     CreationDate := CreationDate p |}.
Definition set_Description (p : Part) (v : string) : Part :=
  {| ID := ID p; Description := v; TypeName := TypeName p; Name := Name p;
     ImageBase64 := ImageBase64 p; URL := URL p; SiteID := SiteID p; Price := Price p;
     CreationDate := CreationDate p |}.
Definition set_Name (p : Part) (v : string) : Part :=
  {| ID := ID p; Description := Description p; TypeName := TypeName p; Name := v;
     ImageBase64 := ImageBase64 p; URL := URL p; SiteID := SiteID p; Price := Price p;
     CreationDate := CreationDate p |}.
Definition set_ImageBase64 (p : Part) (v : string) : Part :=
  {| ID := ID p; Description := Description p; TypeName := TypeName p; Name := Name p;
     ImageBase64 := v; URL := URL p; SiteID := SiteID p; Price := Price p;
     CreationDate := CreationDate p |}.
Definition set_URL (p : Part) (v : string) : Part :=
  {| ID := ID p; Description := Description p; TypeName := TypeName p; Name := Name p;
     ImageBase64 := ImageBase64 p; URL := v; SiteID := SiteID p; Price := Price p;
     CreationDate := CreationDate p |}.
Definition set_Price (p : Part) (v : string) : Part :=
  {| ID := ID p; Description := Description p; TypeName := TypeName p; Name := Name p;
     ImageBase64 := ImageBase64 p; URL := URL p; SiteID := SiteID p; Price := v;
     CreationDate := CreationDate p |}.
Definition set_CreationDate (p : Part) (v : time.Time) : Part :=
  {| ID := ID p; Description := Description p; TypeName := TypeName p; Name := Name p;
     ImageBase64 := ImageBase64 p; URL := URL p; SiteID := SiteID p; Price := Price p;
     CreationDate := v |}.

End Part.

Module SearchParams.

(** [SearchParams] represents the search parameters for finding parts. *)
Record SearchParams := {
  VehicleType : string;
  Make : string;
  BaseModel : string;
  Model : string;
  YearFrom : Z;
  YearTo : Z;
  Offset : Z;
  Limit : Z
}.

(** [fmt.Sprintf("%+v", params)]. *)
Definition format (p : SearchParams) : string :=
  "{VehicleType:" ++ VehicleType p ++ " Make:" ++ Make p
  ++ " BaseModel:" ++ BaseModel p ++ " Model:" ++ Model p
  ++ " YearFrom:" ++ fmt.itoa (YearFrom p) ++ " YearTo:" ++ fmt.itoa (YearTo p)
  ++ " Offset:" ++ fmt.itoa (Offset p) ++ " Limit:" ++ fmt.itoa (Limit p) ++ "}".

End SearchParams.

(* ================================================================== *)
(** ** What the servers send, as the clients decode it *)
(* ================================================================== *)

(** One [article.aditem] element of a Kleinanzeigen result page, by what
    [extractPart] reads off the selection. *)
Module Article.
Record Article := {
  date_text : string;            (* Find(".aditem-main--top--right").Text() *)
  data_adid : option string;     (* Attr("data-adid") *)
  data_href : option string;     (* Attr("data-href") *)
  title_text : string;           (* Find("h2 a.ellipsis").Text() *)
  description_text : string;     (* Find("p.aditem-main--middle--description").Text() *)
  price_text : string;           (* Find("p.aditem-main--middle--price-shipping--price").Text() *)
  img_src : option string        (* Find(".imagebox img").Attr("src") *)
}.
End Article.

(** [stockPart], the fields of one part of a SchadeAutos response; the
    numeric and untyped fields ([year], [priceExcl], [nos]) are never read. *)
Module stockPart.
Record stockPart := {
  Prefix : string;
  Code : string;
  Descr : string;
  EnterDate : string;
  Name : string;
  Picture : string;
  MakeName : string;
  BaseModelName : string;
  ModelName : string;
  EngineName : string;
  Price : string
}.
End stockPart.

(** [schadeAutosResponse.Result]. [StockParts] is a Go map: the list holds
    its entries in the order the [range] loop of this run visits them. *)
Module schadeAutosResponse.
Record schadeAutosResponse := {
  Limited : bool;
  Descr : string;
  StockParts : list (string * stockPart.stockPart)
}.
End schadeAutosResponse.

Module TokenResponse.
Record TokenResponse := {
  AccessToken : string;
  ExpiresIn : Z;
  TokenType : string
}.
End TokenResponse.

Module EbayItem.
Record EbayItem := {
  ItemID : string;
  Title : string;
  Price_Value : string;
  Price_Currency : string;
  Condition : string;
  ItemWebURL : string;
  ItemOriginDate : time.Time;
  ThumbnailImages : list string      (* the [imageUrl] of each entry *)
}.
End EbayItem.

Module EbayBrowseResponse.
Record EbayBrowseResponse := {
  Total : Z;
  ItemSummaries : list EbayItem.EbayItem;
  Limit : Z;
  Offset : Z
}.
End EbayBrowseResponse.

(** [ebayAPIError.Errors], by the two fields the client reads. *)
Module ebayAPIError.
Record entry := { Message : string; LongMessage : string }.
Record ebayAPIError := { Errors : list entry }.
End ebayAPIError.

(* ================================================================== *)
(** ** The network, the clock and the history of a run *)
(* ================================================================== *)

Module http.

Record Request := {
  Method : string;
  URL : string;
  Header : list (string * string);
  Form : string                      (* the request body *)
}.

(** A response body, by what each reader the clients apply to it makes of
    it. The readers (io.ReadAll, goquery, encoding/json) are library code:
    the world supplies their results together with the body. *)
Record Body := {
  ReadAll : result string;
  articles : result (list Article.Article);
  as_schadeAutosResponse : result schadeAutosResponse.schadeAutosResponse;
  as_TokenResponse : result TokenResponse.TokenResponse;
  as_EbayBrowseResponse : result EbayBrowseResponse.EbayBrowseResponse;
  as_ebayAPIError : result ebayAPIError.ebayAPIError
}.

Record Response := { StatusCode : Z; body : Body }.

(** Building a request and handing it to [Client.Do]. *)
Inductive Outcome :=
| NewRequestError (e : error)        (* http.NewRequest refused the URL *)
| DoError (e : error)                (* no response: connection, cancelled context, ... *)
| Responds (r : Response).

Definition StatusOK : Z := 200.

End http.

(** What a run does that can be seen from outside, in order. *)
Inductive Event :=
| Sent (req : http.Request)            (* a request built and handed to Client.Do *)
| Logged (line : string)               (* log.Printf, log.Println *)
| Printed (text : string).             (* fmt.Printf *)

Definition History := list Event.

(** The world a client runs in: the answer to each request and the reading
    of the clock, both of which may depend on everything that happened
    before. *)
Record World := {
  roundTrip : History -> http.Request -> http.Outcome;
  clock : History -> time.Time
}.

(** Computations that extend the history. *)
Definition M (A : Type) : Type := History -> A * History.

Definition ret {A} (a : A) : M A := fun h => (a, h).

Definition bind {A B} (m : M A) (k : A -> M B) : M B :=
  fun h => let '(a, h') := m h in k a h'.

Notation "x <- m ;; k" := (bind m (fun x => k))
  (at level 61, m at next level, right associativity).
Notation "m ;;; k" := (bind m (fun _ => k))
  (at level 61, right associativity).

Definition emit (e : Event) : M unit := fun h => (tt, h ++ [e])%list.

Definition log_Printf (line : string) : M unit := emit (Logged line).
Definition fmt_Printf (text : string) : M unit := emit (Printed text).

(** [client.Do(req)], request construction included. *)
Definition Do (w : World) (req : http.Request) : M http.Outcome :=
  fun h => (roundTrip w h req, h ++ [Sent req])%list.

(** [time.Now()]. *)
Definition Now (w : World) : M time.Time := fun h => (clock w h, h).

(** The requests of a history, in order. *)
Definition requests (h : History) : list http.Request :=
  flat_map (fun e => match e with Sent r => [r] | _ => [] end) h.

(** The contract every site client implements. [FetchParts c w fuel params h]
    runs the client in world [w] after history [h], with [fuel] bounding the
    rounds of a loop that has no bound of its own; it gives the outcome, the
    history at the end, and the client with the fields the call assigned. *)
Class SiteClient (C : Type) := {
  GetName : C -> string;
  GetSiteID : C -> Z;
  FetchParts : C -> World -> nat -> SearchParams.SearchParams -> History ->
               outcome (list Part.Part) * History * C
}.

(* ================================================================== *)
(** ** The Kleinanzeigen client (package scrapers) *)
(* ================================================================== *)

Module Kleinanzeigen.

(** [KleinanzeigenClient]; its [httpClient] is the world's [roundTrip]. *)
Record KleinanzeigenClient := {
  baseURL : string;
  siteID : Z
}.

Definition NewKleinanzeigenClient (siteID : Z) : KleinanzeigenClient :=
  {| baseURL := "https://www.kleinanzeigen.de"; siteID := siteID |}.

Definition GetName (c : KleinanzeigenClient) : string := "Kleinanzeigen".

Definition GetSiteID (c : KleinanzeigenClient) : Z := siteID c.

Definition maxPages : Z := 100.
Definition itemsPerPage : Z := 25.

(** The layouts tried on a date with a dot, in this order. *)
Definition layouts : list string :=
  [ "02.01.2006"; "2.1.2006"; "02.01.2006, 15:04"; "2.1.2006, 15:04" ].

(** The variable [creationDate] of [extractPart] after the three date
    branches, for a non-empty [dateText] and the clock reading [now]; it
    is the zero time when nothing parsed. *)
Definition creationDateOf (now : time.Time) (dateText : string) : time.Time :=
  if strings.HasPrefix dateText "Heute, " then
    let timeStr := strings.TrimPrefix dateText "Heute, " in
    match time.Parse "15:04" timeStr with
    | Some t =>
        time.Date (time.Year now) (time.Month now) (time.Day now)
          (time.Hour t) (time.Minute t) 0 0 (time.Loc now)
    | None => time.zero
    end
  else if strings.HasPrefix dateText "Gestern, " then
    let timeStr := strings.TrimPrefix dateText "Gestern, " in
    match time.Parse "15:04" timeStr with
    | Some t =>
        let yesterday := time.dayBefore now in
        time.Date (time.Year yesterday) (time.Month yesterday) (time.Day yesterday)
          (time.Hour t) (time.Minute t) 0 0 (time.Loc now)
    | None => time.zero
    end
  else if strings.Contains dateText "." then
    match time.first_parse layouts dateText with
    | Some t => t
    | None => time.zero
    end
  else time.zero.

(** The field [CreationDate] that [extractPart] leaves in the part for a
    date container with text [raw]: the parsed date, or the zero time. *)
Definition CreationDate_for (now : time.Time) (raw : string) : time.Time :=
  let dateText := strings.TrimSpace raw in
  if String.eqb dateText "" then time.zero
  else
    let creationDate := creationDateOf now dateText in
    if negb (time.IsZero creationDate) then creationDate else time.zero.

Section Run.

Variable w : World.
Variable c : KleinanzeigenClient.

(** [fetchImageAsBase64] fetches an image and returns it as base64. *)
Definition fetchImageAsBase64 (imageURL : string) : M (result string) :=
  let imageURL :=
    if strings.HasPrefix imageURL "//" then "https:" ++ imageURL else imageURL in
  out <- Do w {| http.Method := "GET"; http.URL := imageURL;
                 http.Header := [("User-Agent", "Mozilla/5.0 (X11; Linux x86_64; rv:143.0) Gecko/20100101 Firefox/143.0")];
                 http.Form := "" |} ;;
  match out with
  | http.NewRequestError e => ret (Err ("failed to create image request: " ++ e))
  | http.DoError e => ret (Err ("failed to fetch image: " ++ e))
  | http.Responds resp =>
      if negb (http.StatusCode resp =? http.StatusOK) then
        ret (Err ("unexpected status code for image: " ++ fmt.itoa (http.StatusCode resp)))
      else
        match http.ReadAll (http.body resp) with
        | Err e => ret (Err ("failed to read image data: " ++ e))
        | Ok imageData => ret (Ok (base64.EncodeToString imageData))
        end
  end.

(** [extractPart] extracts part information from an article element. *)
Definition extractPart (s : Article.Article) : M (result Part.Part) :=
  let part :=
    {| Part.ID := ""; Part.Description := ""; Part.TypeName := ""; Part.Name := "";
       Part.ImageBase64 := ""; Part.URL := ""; Part.SiteID := siteID c;
       Part.Price := ""; Part.CreationDate := time.zero |} in
  let dateText := strings.TrimSpace (Article.date_text s) in
  part <-
    (if negb (String.eqb dateText "") then
       now <- Now w ;;
       let creationDate := creationDateOf now dateText in
       if negb (time.IsZero creationDate) then
         ret (Part.set_CreationDate part creationDate)
       else
         log_Printf ("[KleinanzeigenClient] WARNING: Could not parse date text '"
                     ++ dateText ++ "'") ;;;
         ret part
     else
       log_Printf "[KleinanzeigenClient] WARNING: No date text found" ;;;
       ret part) ;;
  match Article.data_adid s with
  | None => ret (Err "missing data-adid")
  | Some adID =>
      if String.eqb adID "" then ret (Err "missing data-adid")
      else
        let part := Part.set_ID part adID in
        match Article.data_href s with
        | None => ret (Err "missing data-href")
        | Some relativeURL =>
            if String.eqb relativeURL "" then ret (Err "missing data-href")
            else
              let part := Part.set_URL part (baseURL c ++ relativeURL) in
              let title := strings.TrimSpace (Article.title_text s) in
              if String.eqb title "" then ret (Err "missing title")
              else
                let part := Part.set_Name part title in
                let description := strings.TrimSpace (Article.description_text s) in
                let part := Part.set_Description part description in
                let price := strings.TrimSpace (Article.price_text s) in
                let part := Part.set_Price part price in
                match Article.img_src s with
                | None => ret (Ok part)
                | Some imgSrc =>
                    if String.eqb imgSrc "" then ret (Ok part)
                    else
                      r <- fetchImageAsBase64 imgSrc ;;
                      match r with
                      | Err err =>
                          log_Printf ("[KleinanzeigenClient] Warning: failed to fetch image for part "
                                      ++ adID ++ ": " ++ err) ;;;
                          ret (Ok part)
                      | Ok imageBase64 => ret (Ok (Part.set_ImageBase64 part imageBase64))
                      end
                end
        end
  end.

(** The callback of [doc.Find(selector).Each] run over the selection:
    an article that fails extraction is logged and left out. *)
Fixpoint each (i : Z) (selection : list Article.Article) (parts : list Part.Part)
  : M (list Part.Part) :=
  match selection with
  | [] => ret parts
  | s :: rest =>
      r <- extractPart s ;;
      match r with
      | Err err =>
          log_Printf ("[KleinanzeigenClient] Warning: failed to extract part "
                      ++ fmt.itoa i ++ ": " ++ err) ;;;
          each (i + 1) rest parts
      | Ok part => each (i + 1) rest (parts ++ [part])%list
      end
  end.

(** [fetchSinglePage] fetches and parses a single page. *)
Definition fetchSinglePage (searchURL : string) : M (result (list Part.Part)) :=
  out <- Do w {| http.Method := "GET"; http.URL := searchURL;
                 http.Header :=
                   [("User-Agent", "Mozilla/5.0 (Windows NT 10.0; Win64; x64) AppleWebKit/537.36 (KHTML, like Gecko) Chrome/118.0.0.0 Safari/537.36");
                    ("Accept", "text/html,application/xhtml+xml,application/xml;q=0.9,image/webp,*/*;q=0.8")];
                 http.Form := "" |} ;;
  match out with
  | http.NewRequestError e => ret (Err ("failed to create request: " ++ e))
  | http.DoError e => ret (Err ("failed to execute request: " ++ e))
  | http.Responds resp =>
      if negb (http.StatusCode resp =? http.StatusOK) then
        ret (Err ("unexpected status code: " ++ fmt.itoa (http.StatusCode resp)))
      else
        match http.ReadAll (http.body resp) with
        | Err e => ret (Err ("failed to read response body: " ++ e))
        | Ok _ =>
            match http.articles (http.body resp) with
            | Err e => ret (Err ("failed to parse HTML: " ++ e))
            | Ok selection =>
                if len selection =? 0 then ret (Ok [])
                else
                  parts <- each 0 selection [] ;;
                  log_Printf ("[KleinanzeigenClient] Extracted "
                              ++ fmt.itoa (len parts) ++ " parts from page") ;;;
                  ret (Ok parts)
            end
        end
  end.

(** [buildSearchURLWithPage] constructs the search URL with parameters
    and page number. *)
Definition buildSearchURLWithPage (params : SearchParams.SearchParams) (page : Z) : result string :=
  let keywords := "Mitsubishi Eclipse D30" in
  let queryParams : url.Values := [] in
  let queryParams := url.Set_ queryParams "categoryId" "223" in
  let queryParams := url.Set_ queryParams "keywords" keywords in
  let queryParams := url.Set_ queryParams "locationStr" "Deutschland" in
  let queryParams := url.Set_ queryParams "radius" "0" in
  let queryParams := url.Set_ queryParams "sortingField" "" in
  let queryParams := url.Set_ queryParams "adType" "" in
  let queryParams := url.Set_ queryParams "posterType" "" in
  let queryParams := url.Set_ queryParams "maxPrice" "" in
  let queryParams := url.Set_ queryParams "minPrice" "" in
  let queryParams := url.Set_ queryParams "buyNowEnabled" "false" in
  let queryParams := url.Set_ queryParams "shippingCarrier" "" in
  let queryParams := url.Set_ queryParams "shipping" "" in
  let queryParams :=
    if 1 <? page then url.Set_ queryParams "pageNum" (fmt.itoa page) else queryParams in
  Ok (baseURL c ++ "/s-suchanfrage.html?" ++ url.Encode queryParams).

(** The code after the loop of [FetchParts]. *)
Definition finish (allParts : list Part.Part) (page : Z) : M (result (list Part.Part)) :=
  log_Printf ("[KleinanzeigenClient] Finished fetching. Total parts: "
              ++ fmt.itoa (len allParts) ++ " from " ++ fmt.itoa page ++ " page(s)") ;;;
  ret (Ok allParts).

(** The loop [for page <= maxPages] of [FetchParts]. [page] starts at 1
    and grows by one each round, so [left], the number of rounds that
    remain, is [maxPages + 1 - page]: [left = 0] is the loop condition
    failing. *)
Fixpoint pageLoop (params : SearchParams.SearchParams) (left : nat) (page : Z)
  (allParts : list Part.Part) : M (result (list Part.Part)) :=
  match left with
  | O => finish allParts page
  | S left' =>
      log_Printf ("[KleinanzeigenClient] Fetching page " ++ fmt.itoa page ++ "...") ;;;
      match buildSearchURLWithPage params page with
      | Err err => ret (Err ("failed to build search URL: " ++ err))
      | Ok searchURL =>
          log_Printf ("[KleinanzeigenClient] Page " ++ fmt.itoa page
                      ++ " URL: " ++ searchURL) ;;;
          r <- fetchSinglePage searchURL ;;
          match r with
          | Err err =>
              ret (Err ("failed to fetch page " ++ fmt.itoa page ++ ": " ++ err))
          | Ok pageParts =>
              log_Printf ("[KleinanzeigenClient] Page " ++ fmt.itoa page ++ ": got "
                          ++ fmt.itoa (len pageParts) ++ " parts") ;;;
              if len pageParts =? 0 then
                log_Printf ("[KleinanzeigenClient] No more parts found on page "
                            ++ fmt.itoa page ++ ", stopping") ;;;
                finish allParts page
              else
                let allParts := (allParts ++ pageParts)%list in
                if len pageParts <? itemsPerPage then
                  log_Printf ("[KleinanzeigenClient] Got less than full page ("
                              ++ fmt.itoa (len pageParts) ++ " < "
                              ++ fmt.itoa itemsPerPage ++ "), this is the last page") ;;;
                  finish allParts page
                else if (0 <? SearchParams.Limit params)
                        && (SearchParams.Limit params <=? len allParts) then
                  log_Printf ("[KleinanzeigenClient] Reached limit of "
                              ++ fmt.itoa (SearchParams.Limit params) ++ " parts, stopping") ;;;
                  let allParts := firstn (Z.to_nat (SearchParams.Limit params)) allParts in
                  finish allParts page
                else pageLoop params left' (page + 1) allParts
          end
      end
  end.

(** [FetchParts] fetches parts from Kleinanzeigen based on search
    parameters; it fetches all pages until no more results are found. *)
Definition FetchParts (params : SearchParams.SearchParams) : M (result (list Part.Part)) :=
  log_Printf ("[KleinanzeigenClient] Starting fetch with params: "
              ++ SearchParams.format params) ;;;
  pageLoop params (Z.to_nat maxPages) 1 [].

End Run.

End Kleinanzeigen.

#[export] Instance KleinanzeigenSiteClient : SiteClient Kleinanzeigen.KleinanzeigenClient := {
  GetName := Kleinanzeigen.GetName;
  GetSiteID := Kleinanzeigen.GetSiteID;
  FetchParts c w _ params h :=
    let '(r, h') := Kleinanzeigen.FetchParts w c params h in (Returns r, h', c)
}.

(* ================================================================== *)
(** ** The SchadeAutos client (package siteclients) *)
(* ================================================================== *)

Module SchadeAutos.

Definition layouts : list string :=
  [ "2006-01-02"; "2006-01-02 15:04:05"; "02-01-2006"; "02/01/2006" ].

(** [parseEnterDate] converts the enterDate string to a [*time.Time];
    [None] is the nil pointer. *)
Definition parseEnterDate (dateStr : string) : option time.Time :=
  if String.eqb dateStr "" then None
  else time.first_parse layouts dateStr.

Record SchadeAutosClient := {
  baseURL : string;
  siteID : Z
}.

Definition NewSchadeAutosClient (siteID : Z) : SchadeAutosClient :=
  {| baseURL := "https://www.schadeautos.nl"; siteID := siteID |}.

Definition GetName (c : SchadeAutosClient) : string := "SchadeAutos".

Definition GetSiteID (c : SchadeAutosClient) : Z := siteID c.

Definition nil_dereference : string :=
  "runtime error: invalid memory address or nil pointer dereference".

(** The bytes the source has before the price. *)
Definition price_prefix : string := "â‚¬ ".

Section Run.

Variable w : World.
Variable c : SchadeAutosClient.

(** [buildPartURL] constructs the URL for a specific part. *)
Definition buildPartURL (partID : string) (part : stockPart.stockPart) : string :=
  baseURL c ++ "/parts/eng/part/" ++ partID.

(** [fetchImageAsBase64] fetches an image from a URL and returns it as a
    base64 string. *)
Definition fetchImageAsBase64 (imageURL : string) : M (result string) :=
  let imageURL :=
    if strings.HasPrefix imageURL "//" then "https:" ++ imageURL
    else if strings.HasPrefix imageURL "/" then baseURL c ++ imageURL
    else imageURL in
  out <- Do w {| http.Method := "GET"; http.URL := imageURL;
                 http.Header := [("User-Agent", "Mozilla/5.0 (X11; Linux x86_64; rv:143.0) Gecko/20100101 Firefox/143.0")];
                 http.Form := "" |} ;;
  match out with
  | http.NewRequestError e => ret (Err ("failed to create image request: " ++ e))
  | http.DoError e => ret (Err ("failed to fetch image: " ++ e))
  | http.Responds resp =>
      if negb (http.StatusCode resp =? http.StatusOK) then
        ret (Err ("unexpected status code for image: " ++ fmt.itoa (http.StatusCode resp)))
      else
        match http.ReadAll (http.body resp) with
        | Err e => ret (Err ("failed to read image data: " ++ e))
        | Ok imageData => ret (Ok (base64.EncodeToString imageData))
        end
  end.

(** The loop [for partID, stockPart := range StockParts]: each entry
    becomes a part; the composite literal dereferences the pointer
    [parseEnterDate] returns. *)
Fixpoint convert (entries : list (string * stockPart.stockPart)) (parts : list Part.Part)
  : M (outcome (list Part.Part)) :=
  match entries with
  | [] => ret (Returns (Ok parts))
  | (partID, sp) :: rest =>
      match parseEnterDate (stockPart.EnterDate sp) with
      | None => ret (Panics nil_dereference)
      | Some enterDate =>
          let part :=
            {| Part.ID := partID;
               Part.Description := stockPart.Descr sp;
               Part.TypeName := "";
               Part.Name := stockPart.Name sp;
               Part.ImageBase64 := "";
               Part.URL := buildPartURL partID sp;
               Part.SiteID := siteID c;
               Part.Price := price_prefix ++ stockPart.Price sp;
               Part.CreationDate := enterDate |} in
          part <-
            (if negb (String.eqb (stockPart.Picture sp) "") then
               r <- fetchImageAsBase64 (stockPart.Picture sp) ;;
               match r with
               | Err fetchErr =>
                   fmt_Printf ("Warning: failed to fetch image for part " ++ partID
                               ++ ": " ++ fetchErr ++ bytes_of [10%nat]) ;;;
                   ret part
               | Ok imageBase64 => ret (Part.set_ImageBase64 part imageBase64)
               end
             else ret part) ;;
          convert rest (parts ++ [part])%list
      end
  end.

(** The form [FetchParts] posts: the fixed vehicle, the year range, offset
    and limit with their defaults. *)
Definition formData (params : SearchParams.SearchParams) : url.Values :=
  let formData : url.Values := [] in
  let formData := url.Set_ formData "widget[vehicleType]" "P" in
  let formData := url.Set_ formData "widget[make]" "A0001E2D" in
  let formData := url.Set_ formData "widget[baseModel]" "A0001FHK" in
  let formData := url.Set_ formData "widget[model]" "A0001FHL" in
  let formData := url.Set_ formData "widget[type]" "" in
  let formData := url.Set_ formData "widget[vehicle]" "" in
  let yearFrom := SearchParams.YearFrom params in
  let yearFrom := if yearFrom =? 0 then 1995 else yearFrom in
  let formData := url.Set_ formData "widget[yearFrom]" (fmt.itoa yearFrom) in
  let yearTo := SearchParams.YearTo params in
  let yearTo := if yearTo =? 0 then 2000 else yearTo in
  let formData := url.Set_ formData "widget[yearTo]" (fmt.itoa yearTo) in
  let formData := url.Set_ formData "widget[category]" "" in
  let formData := url.Set_ formData "widget[part]" "" in
  let formData := url.Set_ formData "widget[priceMax]" "" in
  let formData := url.Set_ formData "widget[query]" "" in
  let offset := SearchParams.Offset params in
  let offset := if offset =? 0 then 0 else offset in
  let formData := url.Set_ formData "offset" (fmt.itoa offset) in
  let limit := SearchParams.Limit params in
  let limit := if limit =? 0 then 3000 else limit in
  let formData := url.Set_ formData "limit" (fmt.itoa limit) in
  let formData := url.Set_ formData "order" "" in
  let formData := url.Set_ formData "shop" "" in
  let formData := url.Set_ formData "screenWidth" "2560" in
  url.Set_ formData "action" "search".

Definition fmt_bool (b : bool) : string := if b then "true" else "false".

(** The request of [FetchParts]: the form, posted to the search endpoint. *)
Definition searchRequest (params : SearchParams.SearchParams) : http.Request :=
  let apiURL := baseURL c ++ "/parts/eng/search.json" in
  {| http.Method := "POST"; http.URL := apiURL;
     http.Header :=
       [("User-Agent", "Mozilla/5.0 (X11; Linux x86_64; rv:143.0) Gecko/20100101 Firefox/143.0");
        ("Accept", "application/json, text/javascript, */*; q=0.01");
        ("Accept-Language", "en-US,en;q=0.5");
        ("Content-Type", "application/x-www-form-urlencoded; charset=UTF-8");
        ("X-Requested-With", "XMLHttpRequest");
        ("Origin", baseURL c);
        ("Referer", baseURL c ++ "/parts/eng/car-parts")];
     http.Form := url.Encode (formData params) |}.

(** [FetchParts] fetches parts from SchadeAutos based on search
    parameters. *)
Definition FetchParts (params : SearchParams.SearchParams) : M (outcome (list Part.Part)) :=
  out <- Do w (searchRequest params) ;;
  match out with
  | http.NewRequestError e => ret (Returns (Err ("failed to create request: " ++ e)))
  | http.DoError e => ret (Returns (Err ("failed to execute request: " ++ e)))
  | http.Responds resp =>
      if negb (http.StatusCode resp =? http.StatusOK) then
        ret (Returns (Err ("unexpected status code: " ++ fmt.itoa (http.StatusCode resp))))
      else
        match http.as_schadeAutosResponse (http.body resp) with
        | Err e => ret (Returns (Err ("failed to decode response: " ++ e)))
        | Ok apiResponse =>
            fmt_Printf ("Response parsed. Limited: "
                        ++ fmt_bool (schadeAutosResponse.Limited apiResponse)
                        ++ ", Descr: " ++ schadeAutosResponse.Descr apiResponse
                        ++ ", Parts count: "
                        ++ fmt.itoa (len (schadeAutosResponse.StockParts apiResponse))
                        ++ bytes_of [10%nat]) ;;;
            convert (schadeAutosResponse.StockParts apiResponse) []
        end
  end.

End Run.

End SchadeAutos.

#[export] Instance SchadeAutosSiteClient : SiteClient SchadeAutos.SchadeAutosClient := {
  GetName := SchadeAutos.GetName;
  GetSiteID := SchadeAutos.GetSiteID;
  FetchParts c w _ params h :=
    let '(r, h') := SchadeAutos.FetchParts w c params h in (r, h', c)
}.

(* ================================================================== *)
(** ** The eBay client (package siteclients) *)
(* ================================================================== *)

Module Ebay.

Definition sandboxTokenURL : string := "https://api.sandbox.ebay.com/identity/v1/oauth2/token".
Definition sandboxSearchURL : string := "https://api.sandbox.ebay.com/buy/browse/v1/item_summary/search".
Definition prodTokenURL : string := "https://api.ebay.com/identity/v1/oauth2/token".
Definition prodSearchURL : string := "https://api.ebay.com/buy/browse/v1/item_summary/search".

Record EbayClient := {
  baseURL : string;
  siteID : Z;
  accessToken : string;
  clientID : string;
  clientSecret : string;
  isSandbox : bool
}.

Definition NewEbayClient (siteID : Z) (appID clientSecret : string) (isSandbox : bool)
  : EbayClient :=
  {| baseURL := "https://svcs.ebay.com/services/search/FindingService/v1";
     siteID := siteID;
     accessToken := "";
     clientID := appID;
     clientSecret := clientSecret;
     isSandbox := isSandbox |}.

Definition set_accessToken (c : EbayClient) (token : string) : EbayClient :=
  {| baseURL := baseURL c; siteID := siteID c; accessToken := token;
     clientID := clientID c; clientSecret := clientSecret c; isSandbox := isSandbox c |}.

Definition getTokenURL (c : EbayClient) : string :=
  if isSandbox c then sandboxTokenURL else prodTokenURL.

Definition GetName (c : EbayClient) : string := "eBay".

Definition GetSiteID (c : EbayClient) : Z := siteID c.

Definition pageSize : Z := 200.

Section Run.

Variable w : World.

(** [GetAccessToken] retrieves an OAuth 2.0 access token: the error it
    returns ([None] is nil) and the client, with the token stored on
    success. *)
Definition GetAccessToken (c : EbayClient) : M (option error * EbayClient) :=
  let auth := base64.EncodeToString (clientID c ++ ":" ++ clientSecret c) in
  let data : url.Values := [] in
  let data := url.Set_ data "grant_type" "client_credentials" in
  let data := url.Set_ data "scope" "https://api.ebay.com/oauth/api_scope" in
  out <- Do w {| http.Method := "POST"; http.URL := getTokenURL c;
                 http.Header := [("Content-Type", "application/x-www-form-urlencoded");
                                 ("Authorization", "Basic " ++ auth)];
                 http.Form := url.Encode data |} ;;
  match out with
  | http.NewRequestError e => ret (Some ("failed to create token request: " ++ e), c)
  | http.DoError e => ret (Some ("failed to get token: " ++ e), c)
  | http.Responds resp =>
      match http.ReadAll (http.body resp) with
      | Err e => ret (Some ("failed to read response: " ++ e), c)
      | Ok body =>
          if negb (http.StatusCode resp =? http.StatusOK) then
            ret (Some ("token request failed with status "
                       ++ fmt.itoa (http.StatusCode resp) ++ ": " ++ body), c)
          else
            match http.as_TokenResponse (http.body resp) with
            | Err e => ret (Some ("failed to parse token response: " ++ e), c)
            | Ok tokenResp =>
                ret (None, set_accessToken c (TokenResponse.AccessToken tokenResp))
            end
      end
  end.

(** [fetchImageAsBase64] fetches an image from a URL and returns it as a
    base64 string. *)
Definition fetchImageAsBase64 (imageURL : string) : M (result string) :=
  out <- Do w {| http.Method := "GET"; http.URL := imageURL;
                 http.Header := []; http.Form := "" |} ;;
  match out with
  | http.NewRequestError e => ret (Err ("failed to create image request: " ++ e))
  | http.DoError e => ret (Err ("failed to fetch image: " ++ e))
  | http.Responds resp =>
      if negb (http.StatusCode resp =? http.StatusOK) then
        ret (Err ("unexpected status code for image: " ++ fmt.itoa (http.StatusCode resp)))
      else
        match http.ReadAll (http.body resp) with
        | Err e => ret (Err ("failed to read image data: " ++ e))
        | Ok imageData => ret (Ok (base64.EncodeToString imageData))
        end
  end.

(** The loop [for _, item := range apiResponse.ItemSummaries]. *)
Fixpoint convert (c : EbayClient) (items : list EbayItem.EbayItem) (parts : list Part.Part)
  : M (list Part.Part) :=
  match items with
  | [] => ret parts
  | item :: rest =>
      let part :=
        {| Part.ID := EbayItem.ItemID item;
           Part.Description := EbayItem.Title item;
           Part.TypeName := "";
           Part.Name := EbayItem.Title item;
           Part.ImageBase64 := "";
           Part.URL := EbayItem.ItemWebURL item;
           Part.SiteID := siteID c;
           Part.Price := SchadeAutos.price_prefix ++ EbayItem.Price_Value item;
           Part.CreationDate := EbayItem.ItemOriginDate item |} in
      part <-
        (match EbayItem.ThumbnailImages item with
         | imageURL :: _ =>
             if negb (String.eqb imageURL "") then
               r <- fetchImageAsBase64 imageURL ;;
               match r with
               | Ok imageBase64 => ret (Part.set_ImageBase64 part imageBase64)
               | Err _ => ret part
               end
             else ret part
         | [] => ret part
         end) ;;
      convert c rest (parts ++ [part])%list
  end.

(** The message of the error for a response that is not 200: the first
    entry of the error envelope when the body decodes to one, the body
    itself otherwise. (The source passes the message to [fmt.Errorf] as
    the format; the model takes it literally.) *)
Definition status_error (resp : http.Response) : error :=
  let body := match http.ReadAll (http.body resp) with Ok b => b | Err _ => "" end in
  let msg := "unexpected status code: " ++ fmt.itoa (http.StatusCode resp) in
  if (0 <? String.length body)%nat then
    match http.as_ebayAPIError (http.body resp) with
    | Ok {| ebayAPIError.Errors := first :: _ |} =>
        let msg := msg ++ ": " ++ ebayAPIError.Message first in
        if negb (String.eqb (ebayAPIError.LongMessage first) "") then
          msg ++ " (" ++ ebayAPIError.LongMessage first ++ ")"
        else msg
    | _ => msg ++ ": " ++ body
    end
  else msg.

Definition searchQuery (offset : Z) : url.Values :=
  let query : url.Values := [] in
  let query := url.Set_ query "sort" "newlyListed" in
  let query := url.Set_ query "limit" "200" in
  let query := url.Set_ query "offset" (fmt.itoa offset) in
  let query := url.Set_ query "q" "(Mitsubishi Eclipse 2g, D32A)" in
  url.Set_ query "category_ids" "6030".

Definition searchRequest (c : EbayClient) (offset : Z) : http.Request :=
  {| http.Method := "GET";
     http.URL := "https://api.ebay.com/buy/browse/v1/item_summary/search?"
                 ++ url.Encode (searchQuery offset);
     http.Header := [("Authorization", "Bearer " ++ accessToken c)];
     http.Form := "" |}.

(** The unbounded loop [for { ... }] of [FetchParts]; [fuel] rounds are
    run. *)
Fixpoint searchLoop (c : EbayClient) (fuel : nat) (offset : Z) (allParts : list Part.Part)
  : M (outcome (list Part.Part)) :=
  match fuel with
  | O => ret OutOfFuel
  | S fuel' =>
      out <- Do w (searchRequest c offset) ;;
      match out with
      | http.NewRequestError e => ret (Returns (Err ("failed to create request: " ++ e)))
      | http.DoError e => ret (Returns (Err ("failed to execute request: " ++ e)))
      | http.Responds resp =>
          if negb (http.StatusCode resp =? http.StatusOK) then
            ret (Returns (Err (status_error resp)))
          else
            match http.as_EbayBrowseResponse (http.body resp) with
            | Err e => ret (Returns (Err ("failed to decode response: " ++ e)))
            | Ok apiResponse =>
                parts <- convert c (EbayBrowseResponse.ItemSummaries apiResponse) [] ;;
                let allParts := (allParts ++ parts)%list in
                if len parts <? pageSize then ret (Returns (Ok allParts))
                else searchLoop c fuel' (offset + pageSize) allParts
            end
      end
  end.

(** [FetchParts] fetches parts from eBay based on search parameters. The
    value [GetAccessToken] returns is dropped, as in the source. *)
Definition FetchParts (c : EbayClient) (fuel : nat) (params : SearchParams.SearchParams)
  : M (outcome (list Part.Part) * EbayClient) :=
  log_Printf "Fetching parts from eBay" ;;;
  tok <- GetAccessToken c ;;
  let c := snd tok in
  log_Printf "Access token retrieved" ;;;
  r <- searchLoop c fuel 0 [] ;;
  ret (r, c).

End Run.

End Ebay.

#[export] Instance EbaySiteClient : SiteClient Ebay.EbayClient := {
  GetName := Ebay.GetName;
  GetSiteID := Ebay.GetSiteID;
  FetchParts c w fuel params h :=
    let '(r, c', h') := Ebay.FetchParts w c fuel params h in (r, h', c')
}.

(* ================================================================== *)
(** ** What the statements below speak of *)
(* ================================================================== *)

(** A request for a result page of Kleinanzeigen: the only requests of that
    client that carry an [Accept] header. *)
Definition is_page_request (r : http.Request) : bool :=
  existsb (fun kv => String.eqb (fst kv) "Accept") (http.Header r).

(** The URLs of the result pages requested in a history, in order. *)
Definition page_requests (h : History) : list string :=
  flat_map (fun e =>
              match e with
              | Sent r => if is_page_request r then [http.URL r] else []
              | _ => []
              end) h.

(** The method and URL of each request of a history, in order. *)
Definition requested (h : History) : list (string * string) :=
  map (fun r => (http.Method r, http.URL r)) (requests h).

(** The URL of result page [page], as [buildSearchURLWithPage] builds it. *)
Definition page_url (c : Kleinanzeigen.KleinanzeigenClient) (params : SearchParams.SearchParams)
  (page : Z) : string :=
  match Kleinanzeigen.buildSearchURLWithPage c params page with
  | Ok searchURL => searchURL
  | Err _ => ""
  end.

(** The history holds the warning of [fetchSinglePage] for the article at
    index [i] of a page. *)
Definition warned (h : History) (i : Z) : Prop :=
  exists err,
    In (Logged ("[KleinanzeigenClient] Warning: failed to extract part "
                ++ fmt.itoa i ++ ": " ++ err)) h.

(** The request [fetchSinglePage] sends for a result page. *)
Definition page_request (searchURL : string) : http.Request :=
  {| http.Method := "GET"; http.URL := searchURL;
     http.Header :=
       [("User-Agent", "Mozilla/5.0 (Windows NT 10.0; Win64; x64) AppleWebKit/537.36 (KHTML, like Gecko) Chrome/118.0.0.0 Safari/537.36");
        ("Accept", "text/html,application/xhtml+xml,application/xml;q=0.9,image/webp,*/*;q=0.8")];
     http.Form := "" |}.

(** An article [extractPart] accepts: identity, link and title are there. *)
Definition extractable (s : Article.Article) : bool :=
  match Article.data_adid s, Article.data_href s with
  | Some adID, Some relativeURL =>
      negb (String.eqb adID "") && negb (String.eqb relativeURL "")
      && negb (String.eqb (strings.TrimSpace (Article.title_text s)) "")
  | _, _ => false
  end.

(** The world answers the page request for [searchURL], whenever it comes,
    with status 200 and a readable page whose articles are [selection]. *)
Definition shows (w : World) (searchURL : string) (selection : list Article.Article) (h : History)
  : Prop :=
  exists resp bytes,
    roundTrip w h (page_request searchURL) = http.Responds resp
    /\ http.StatusCode resp = http.StatusOK
    /\ http.ReadAll (http.body resp) = Ok bytes
    /\ http.articles (http.body resp) = Ok selection.

(** The source serves [n] well-formed items on the page at [searchURL], at
    whatever point of a run it is asked. *)
Definition serves (w : World) (searchURL : string) (n : nat) : Prop :=
  forall h, exists selection,
    shows w searchURL selection h /\ List.length (filter extractable selection) = n.

(** Every result page the client can ask for is shown, with some articles. *)
Definition healthy (w : World) (c : Kleinanzeigen.KleinanzeigenClient)
  (params : SearchParams.SearchParams) : Prop :=
  forall page h, exists selection, shows w (page_url c params page) selection h.

(** The part [extractPart] makes of an accepted article, the image apart. *)
Definition extracted_from (c : Kleinanzeigen.KleinanzeigenClient)
  (s : Article.Article) (p : Part.Part) : Prop :=
  Article.data_adid s = Some (Part.ID p)
  /\ (exists relativeURL, Article.data_href s = Some relativeURL
                          /\ Part.URL p = Kleinanzeigen.baseURL c ++ relativeURL)
  /\ Part.Name p = strings.TrimSpace (Article.title_text s)
  /\ Part.Description p = strings.TrimSpace (Article.description_text s)
  /\ Part.Price p = strings.TrimSpace (Article.price_text s)
  /\ Part.SiteID p = Kleinanzeigen.siteID c.

(** [p] was extracted from some article that [extractPart] accepts. *)
Definition from_article (c : Kleinanzeigen.KleinanzeigenClient) (p : Part.Part) : Prop :=
  exists s, extractable s = true /\ extracted_from c s p.

(** A search request of the eBay client: the only [GET] requests of that
    client that carry an [Authorization] header. *)
Definition is_search_request (r : http.Request) : bool :=
  String.eqb (http.Method r) "GET"
  && existsb (fun kv => String.eqb (fst kv) "Authorization") (http.Header r).

(** The URLs of the eBay searches requested in a history, in order. *)
Definition search_requests (h : History) : list string :=
  flat_map (fun e =>
              match e with
              | Sent r => if is_search_request r then [http.URL r] else []
              | _ => []
              end) h.

(** The URL of the eBay search at [offset]. *)
Definition search_url (offset : Z) : string :=
  "https://api.ebay.com/buy/browse/v1/item_summary/search?"
  ++ url.Encode (Ebay.searchQuery offset).

(** The eBay source serves client [c] with [n] items on the page at
    [offset], at whatever point of a run it is asked. *)
Definition serves_items (w : World) (c : Ebay.EbayClient) (offset : Z) (n : nat) : Prop :=
  forall h, exists resp apiResponse,
    roundTrip w h (Ebay.searchRequest c offset) = http.Responds resp
    /\ http.StatusCode resp = http.StatusOK
    /\ http.as_EbayBrowseResponse (http.body resp) = Ok apiResponse
    /\ List.length (EbayBrowseResponse.ItemSummaries apiResponse) = n.

(** The entry of a SchadeAutos response carries no date that
    [parseEnterDate] can read. *)
Definition undated (entry : string * stockPart.stockPart) : Prop :=
  SchadeAutos.parseEnterDate (stockPart.EnterDate (snd entry)) = None.

(** The world answers the search of the SchadeAutos client with status 200
    and a body that decodes to [apiResponse]. *)
Definition answers (w : World) (c : SchadeAutos.SchadeAutosClient)
  (params : SearchParams.SearchParams) (h : History)
  (apiResponse : schadeAutosResponse.schadeAutosResponse) : Prop :=
  exists resp,
    roundTrip w h (SchadeAutos.searchRequest c params) = http.Responds resp
    /\ http.StatusCode resp = http.StatusOK
    /\ http.as_schadeAutosResponse (http.body resp) = Ok apiResponse.

(** Every part a successful [FetchParts] of the client type [C] returns
    carries the site ID of the client. *)
Definition echoes_site_id (C : Type) `{SiteClient C} : Prop :=
  forall (c c' : C) (w : World) (fuel : nat) (params : SearchParams.SearchParams)
         (h h' : History) (parts : list Part.Part),
    FetchParts c w fuel params h = (Returns (Ok parts), h', c') ->
    Forall (fun p => Part.SiteID p = GetSiteID c) parts.


(** The page numbers [first], [first + 1], ..., [n] of them. *)
Definition page_numbers (first : Z) (n : nat) : list Z :=
  map (fun i => first + Z.of_nat i) (seq 0 n).

(** The world answers the page request for [searchURL], whenever it comes,
    with the given status. *)
Definition refuses (w : World) (searchURL : string) (status : Z) : Prop :=
  forall h, exists resp,
    roundTrip w h (page_request searchURL) = http.Responds resp
    /\ http.StatusCode resp = status.

(** What an image inliner makes of the answer to its request: the base64
    text of the body when the status is 200 and the body can be read. *)
Definition image_of (o : http.Outcome) : option string :=
  match o with
  | http.Responds resp =>
      if http.StatusCode resp =? http.StatusOK then
        match http.ReadAll (http.body resp) with
        | Ok imageData => Some (base64.EncodeToString imageData)
        | Err _ => None
        end
      else None
  | _ => None
  end.

(** The request the image inliner of the Kleinanzeigen client sends for
    [imageURL]. *)
Definition Kleinanzeigen_image_request (imageURL : string) : http.Request :=
  {| http.Method := "GET";
     http.URL := if strings.HasPrefix imageURL "//" then "https:" ++ imageURL else imageURL;
     http.Header := [("User-Agent", "Mozilla/5.0 (X11; Linux x86_64; rv:143.0) Gecko/20100101 Firefox/143.0")];
     http.Form := "" |}.

(** The request the image inliner of the SchadeAutos client sends. *)
Definition SchadeAutos_image_request (c : SchadeAutos.SchadeAutosClient) (imageURL : string)
  : http.Request :=
  {| http.Method := "GET";
     http.URL := if strings.HasPrefix imageURL "//" then "https:" ++ imageURL
                 else if strings.HasPrefix imageURL "/" then SchadeAutos.baseURL c ++ imageURL
                 else imageURL;
     http.Header := [("User-Agent", "Mozilla/5.0 (X11; Linux x86_64; rv:143.0) Gecko/20100101 Firefox/143.0")];
     http.Form := "" |}.

(** The request the image inliner of the eBay client sends. *)
Definition Ebay_image_request (imageURL : string) : http.Request :=
  {| http.Method := "GET"; http.URL := imageURL; http.Header := []; http.Form := "" |}.

(** The part the SchadeAutos client makes of an entry of the response, the
    image of an entry with a picture apart. *)
Definition stocked (c : SchadeAutos.SchadeAutosClient) (entry : string * stockPart.stockPart)
  (p : Part.Part) : Prop :=
  Part.ID p = fst entry
  /\ Part.Description p = stockPart.Descr (snd entry)
  /\ Part.TypeName p = ""
  /\ Part.Name p = stockPart.Name (snd entry)
  /\ Part.URL p = SchadeAutos.baseURL c ++ "/parts/eng/part/" ++ fst entry
  /\ Part.SiteID p = SchadeAutos.siteID c
  /\ Part.Price p = SchadeAutos.price_prefix ++ stockPart.Price (snd entry)
  /\ SchadeAutos.parseEnterDate (stockPart.EnterDate (snd entry)) = Some (Part.CreationDate p)
  /\ (stockPart.Picture (snd entry) = "" -> Part.ImageBase64 p = "").

(** The parameters with the defaults of the SchadeAutos form filled in and
    the fields the form never reads blanked. *)
Definition with_defaults (params : SearchParams.SearchParams) : SearchParams.SearchParams :=
  {| SearchParams.VehicleType := "";
     SearchParams.Make := "";
     SearchParams.BaseModel := "";
     SearchParams.Model := "";
     SearchParams.YearFrom :=
       if SearchParams.YearFrom params =? 0 then 1995 else SearchParams.YearFrom params;
     SearchParams.YearTo :=
       if SearchParams.YearTo params =? 0 then 2000 else SearchParams.YearTo params;
     SearchParams.Offset := SearchParams.Offset params;
     SearchParams.Limit :=
       if SearchParams.Limit params =? 0 then 3000 else SearchParams.Limit params |}.

(** The request [GetAccessToken] sends. *)
Definition Ebay_token_request (c : Ebay.EbayClient) : http.Request :=
  {| http.Method := "POST"; http.URL := Ebay.getTokenURL c;
     http.Header :=
       [("Content-Type", "application/x-www-form-urlencoded");
        ("Authorization",
         "Basic " ++ base64.EncodeToString (Ebay.clientID c ++ ":" ++ Ebay.clientSecret c))];
     http.Form :=
       url.Encode (url.Set_ (url.Set_ [] "grant_type" "client_credentials")
                     "scope" "https://api.ebay.com/oauth/api_scope") |}.

(** The token endpoint answers with status 200 and a readable body that
    decodes to [tokenResp]. *)
Definition issues (o : http.Outcome) (tokenResp : TokenResponse.TokenResponse) : Prop :=
  exists resp body,
    o = http.Responds resp
    /\ http.StatusCode resp = http.StatusOK
    /\ http.ReadAll (http.body resp) = Ok body
    /\ http.as_TokenResponse (http.body resp) = Ok tokenResp.

(** The eBay searches of a history, in order. *)
Definition searches (h : History) : list http.Request :=
  filter is_search_request (requests h).

(** The offsets [first], [first + 200], ..., [n] of them. *)
Definition offsets (first : Z) (n : nat) : list Z :=
  map (fun i => first + Ebay.pageSize * Z.of_nat i) (seq 0 n).

(** The part the eBay client makes of an item, the image of an item with
    a thumbnail apart. *)
Definition listed (c : Ebay.EbayClient) (item : EbayItem.EbayItem) (p : Part.Part) : Prop :=
  Part.ID p = EbayItem.ItemID item
  /\ Part.Description p = EbayItem.Title item
  /\ Part.TypeName p = ""
  /\ Part.Name p = EbayItem.Title item
  /\ Part.URL p = EbayItem.ItemWebURL item
  /\ Part.SiteID p = Ebay.siteID c
  /\ Part.Price p = SchadeAutos.price_prefix ++ EbayItem.Price_Value item
  /\ Part.CreationDate p = EbayItem.ItemOriginDate item
  /\ (EbayItem.ThumbnailImages item = [] -> Part.ImageBase64 p = "").


(** The fields [Parse] has read so far are in range: a month, once read,
    is 1 to 12; hour, minute and second are clock readings. *)
Definition fields_in_range (f : time.fields) : Prop :=
  (time.f_month f = -1 \/ 1 <= time.f_month f <= 12)
  /\ 0 <= time.f_hour f < 24
  /\ 0 <= time.f_min f < 60
  /\ 0 <= time.f_sec f < 60.

(** A time whose fields name a day of the calendar and a reading of the
    clock. *)
Definition calendar_time (t : time.Time) : Prop :=
  1 <= time.Month t <= 12
  /\ 1 <= time.Day t <= time.daysIn (time.Month t) (time.Year t)
  /\ 0 <= time.Hour t < 24
  /\ 0 <= time.Minute t < 60
  /\ 0 <= time.Second t < 60.

(* ================================================================== *)
(** ** Example worlds *)
(* ================================================================== *)

Module Example.

Definition not_json : error := "invalid character '<' looking for beginning of value".

(** The body of a result page with the given articles. *)
Definition html_page (selection : list Article.Article) : http.Body :=
  {| http.ReadAll := Ok "<!DOCTYPE html>";
     http.articles := Ok selection;
     http.as_schadeAutosResponse := Err not_json;
     http.as_TokenResponse := Err not_json;
     http.as_EbayBrowseResponse := Err not_json;
     http.as_ebayAPIError := Err not_json |}.

(** A body of plain bytes: an image, or an error text. *)
Definition plain (data : string) : http.Body :=
  {| http.ReadAll := Ok data;
     http.articles := Ok [];
     http.as_schadeAutosResponse := Err not_json;
     http.as_TokenResponse := Err not_json;
     http.as_EbayBrowseResponse := Err not_json;
     http.as_ebayAPIError := Err not_json |}.

Definition stock_json (r : schadeAutosResponse.schadeAutosResponse) : http.Body :=
  {| http.ReadAll := Ok "{}";
     http.articles := Ok [];
     http.as_schadeAutosResponse := Ok r;
     http.as_TokenResponse := Err not_json;
     http.as_EbayBrowseResponse := Err not_json;
     http.as_ebayAPIError := Err not_json |}.

Definition browse_json (r : EbayBrowseResponse.EbayBrowseResponse) : http.Body :=
  {| http.ReadAll := Ok "{}";
     http.articles := Ok [];
     http.as_schadeAutosResponse := Err not_json;
     http.as_TokenResponse := Err not_json;
     http.as_EbayBrowseResponse := Ok r;
     http.as_ebayAPIError := Ok {| ebayAPIError.Errors := [] |} |}.

Definition token_json (r : TokenResponse.TokenResponse) : http.Body :=
  {| http.ReadAll := Ok "{}";
     http.articles := Ok [];
     http.as_schadeAutosResponse := Err not_json;
     http.as_TokenResponse := Ok r;
     http.as_EbayBrowseResponse := Err not_json;
     http.as_ebayAPIError := Ok {| ebayAPIError.Errors := [] |} |}.

Definition ok (b : http.Body) : http.Outcome :=
  http.Responds {| http.StatusCode := 200; http.body := b |}.

Definition not_found : http.Outcome :=
  http.Responds {| http.StatusCode := 404; http.body := plain "not found" |}.

Definition berlin : time.Location :=
  {| time.locName := "Europe/Berlin"; time.locOffset := 7200 |}.

(** Friday, 17 May 2024, 09:30 in Berlin. *)
Definition now : time.Time := time.Date 2024 5 17 9 30 0 0 berlin.

(** A well-formed listing, number [n], with the given date text. *)
Definition listing_dated (date : string) (n : nat) : Article.Article :=
  let id := fmt.itoa (Z.of_nat n) in
  {| Article.date_text := date;
     Article.data_adid := Some id;
     Article.data_href := Some ("/s-anzeige/teil/" ++ id);
     Article.title_text := "  Mitsubishi Eclipse Teil " ++ id ++ " ";
     Article.description_text := "Gebraucht";
     Article.price_text := "25 VB";
     Article.img_src := None |}.

Definition listing : nat -> Article.Article := listing_dated "Heute, 14:05".

(** A listing without its [data-adid] attribute. *)
Definition broken : Article.Article :=
  {| Article.date_text := "";
     Article.data_adid := None;
     Article.data_href := Some "/s-anzeige/teil/0";
     Article.title_text := "Ohne Nummer";
     Article.description_text := "";
     Article.price_text := "";
     Article.img_src := Some "//img.example/x.jpg" |}.

Definition client : Kleinanzeigen.KleinanzeigenClient :=
  Kleinanzeigen.NewKleinanzeigenClient 7.

Definition no_params : SearchParams.SearchParams :=
  {| SearchParams.VehicleType := ""; SearchParams.Make := ""; SearchParams.BaseModel := "";
     SearchParams.Model := ""; SearchParams.YearFrom := 0; SearchParams.YearTo := 0;
     SearchParams.Offset := 0; SearchParams.Limit := 0 |}.

Definition limit (n : Z) : SearchParams.SearchParams :=
  {| SearchParams.VehicleType := ""; SearchParams.Make := ""; SearchParams.BaseModel := "";
     SearchParams.Model := ""; SearchParams.YearFrom := 0; SearchParams.YearTo := 0;
     SearchParams.Offset := 0; SearchParams.Limit := n |}.

(** The page number a URL asks for, among the first [n] pages. *)
Definition page_of (n : nat) (u : string) : option nat :=
  find (fun p => String.eqb u (page_url client no_params (Z.of_nat p))) (seq 1 n).

(** A Kleinanzeigen site with the given result pages, in order; anything
    else is not found. The clock stands at [now]. *)
Definition site (pages : list (list Article.Article)) : World :=
  {| roundTrip _ req :=
       match page_of (List.length pages) (http.URL req) with
       | Some p => ok (html_page (nth (p - 1) pages []))
       | None => not_found
       end;
     clock _ := now |}.

(** [count] listings numbered from [first]. *)
Definition listings (first count : nat) : list Article.Article :=
  map listing (seq first count).

(** Nothing answers. *)
Definition offline : World :=
  {| roundTrip _ _ := http.DoError "dial tcp: connect: network is unreachable";
     clock _ := now |}.

Definition stock (enterDate : string) : stockPart.stockPart :=
  {| stockPart.Prefix := ""; stockPart.Code := "MR"; stockPart.Descr := "Headlight left";
     stockPart.EnterDate := enterDate; stockPart.Name := "Headlight";
     stockPart.Picture := ""; stockPart.MakeName := "Mitsubishi";
     stockPart.BaseModelName := "Eclipse"; stockPart.ModelName := "Eclipse (D3)";
     stockPart.EngineName := ""; stockPart.Price := "45,00" |}.

(** A SchadeAutos shop that answers every request with the given parts. *)
Definition shop (entries : list (string * stockPart.stockPart)) : World :=
  {| roundTrip _ _ :=
       ok (stock_json {| schadeAutosResponse.Limited := false;
                         schadeAutosResponse.Descr := "";
                         schadeAutosResponse.StockParts := entries |});
     clock _ := now |}.

Definition item (n : nat) : EbayItem.EbayItem :=
  let id := fmt.itoa (Z.of_nat n) in
  {| EbayItem.ItemID := "v1|" ++ id ++ "|0";
     EbayItem.Title := "Mitsubishi Eclipse 2G part " ++ id;
     EbayItem.Price_Value := "19.99";
     EbayItem.Price_Currency := "USD";
     EbayItem.Condition := "Used";
     EbayItem.ItemWebURL := "https://www.ebay.com/itm/" ++ id;
     EbayItem.ItemOriginDate := time.Date 2024 5 1 12 0 0 0 time.UTC;
     EbayItem.ThumbnailImages := [] |}.

Definition browse_response (offset : Z) (count : nat) : EbayBrowseResponse.EbayBrowseResponse :=
  {| EbayBrowseResponse.Total := 0;
     EbayBrowseResponse.ItemSummaries := map item (seq (Z.to_nat offset) count);
     EbayBrowseResponse.Limit := 200;
     EbayBrowseResponse.Offset := offset |}.

Definition browse (offset : Z) (count : nat) : http.Body :=
  browse_json (browse_response offset count).

(** The search page an eBay URL asks for, among pages of the given sizes:
    its offset and its size. *)
Fixpoint search_page (offset : Z) (sizes : list nat) (u : string) : option (Z * nat) :=
  match sizes with
  | [] => None
  | n :: rest =>
      if String.eqb u (search_url offset) then Some (offset, n)
      else search_page (offset + Ebay.pageSize) rest u
  end.

(** An eBay that issues the token [fresh] and serves search pages of the
    given sizes to any bearer. *)
Definition market (sizes : list nat) : World :=
  {| roundTrip _ req :=
       if String.eqb (http.URL req) Ebay.prodTokenURL then
         ok (token_json {| TokenResponse.AccessToken := "fresh";
                           TokenResponse.ExpiresIn := 7200;
                           TokenResponse.TokenType := "Application Access Token" |})
       else
         match search_page 0 sizes (http.URL req) with
         | Some (offset, n) => ok (browse offset n)
         | None => not_found
         end;
     clock _ := now |}.

(** An eBay whose token endpoint is unreachable, and whose search still
    honours the token [stale] issued earlier. *)
Definition token_outage : World :=
  {| roundTrip _ req :=
       if String.eqb (http.URL req) Ebay.prodTokenURL then
         http.DoError "Post https://api.ebay.com/identity/v1/oauth2/token: context deadline exceeded"
       else if String.eqb (http.URL req) (search_url 0)
               && existsb (fun kv => String.eqb (snd kv) "Bearer stale") (http.Header req) then
         ok (browse 0 2)
       else
         http.Responds {| http.StatusCode := 401; http.body := plain "Unauthorized" |};
     clock _ := now |}.

(** A client that holds the token of an earlier fetch. *)
Definition returning_client : Ebay.EbayClient :=
  Ebay.set_accessToken (Ebay.NewEbayClient 9 "app" "secret" false) "stale".

(** A Kleinanzeigen site that has 25 listings on every result page. *)
Definition endless : World :=
  {| roundTrip _ req :=
       if is_page_request req then ok (html_page (listings 1 25)) else not_found;
     clock _ := now |}.

(** A Kleinanzeigen site with the given result pages, whose next page is
    out of service. *)
Definition failing_after (pages : list (list Article.Article)) : World :=
  {| roundTrip _ req :=
       match page_of (S (List.length pages)) (http.URL req) with
       | Some p =>
           if (p <=? List.length pages)%nat then ok (html_page (nth (p - 1) pages []))
           else http.Responds {| http.StatusCode := 503;
                                 http.body := plain "Service Unavailable" |}
       | None => not_found
       end;
     clock _ := now |}.

(** A listing with a thumbnail. *)
Definition pictured (n : nat) : Article.Article :=
  let id := fmt.itoa (Z.of_nat n) in
  {| Article.date_text := "gerade eben";
     Article.data_adid := Some id;
     Article.data_href := Some ("/s-anzeige/teil/" ++ id);
     Article.title_text := "Teil " ++ id;
     Article.description_text := "";
     Article.price_text := "VB";
     Article.img_src := Some "//img.example/x.jpg" |}.

(** A world in which every request is answered with the three bytes "Man". *)
Definition gallery : World :=
  {| roundTrip _ _ := ok (plain "Man"); clock _ := now |}.

(** An eBay whose every search page is full. *)
Definition bottomless : World :=
  {| roundTrip _ req :=
       if is_search_request req then ok (browse 0 200) else not_found;
     clock _ := now |}.

(** A client for the sandbox. *)
Definition sandbox_client : Ebay.EbayClient := Ebay.NewEbayClient 9 "app" "secret" true.

End Example.

(* ================================================================== *)
(** ** Histories *)
(* ================================================================== *)

Lemma page_requests_app (h1 h2 : History) :
  page_requests (h1 ++ h2)%list = (page_requests h1 ++ page_requests h2)%list.
Proof. unfold page_requests. apply flat_map_app. Qed.

Lemma requests_app (h1 h2 : History) :
  requests (h1 ++ h2)%list = (requests h1 ++ requests h2)%list.
Proof. unfold requests. apply flat_map_app. Qed.

#[global] Arguments String.append : simpl never.

Lemma prefix_append (a b : string) : String.prefix a (a ++ b) = true.
Proof.
  induction a as [|x a IH].
  - now destruct b.
  - change (String x a ++ b) with (String x (a ++ b)). cbn [String.prefix].
    rewrite IH. now destruct (Ascii.ascii_dec x x).
Qed.

Lemma HasPrefix_append (a b : string) : strings.HasPrefix (a ++ b) a = true.
Proof. apply prefix_append. Qed.

Ltac inv H := inversion H; subst; clear H.

(** *** The rounds allowed to the loops of the library model are enough *)

Lemma prefix_length (a : string) :
  forall s, String.prefix a s = true -> (String.length a <= String.length s)%nat.
Proof.
  induction a as [|x a IH]; intros [|c s] H; cbn in *; try lia; try discriminate.
  destruct (Ascii.ascii_dec x c); [|discriminate].
  apply IH in H. lia.
Qed.

Lemma drop_length (n : nat) (s : string) : String.length (drop n s) = (String.length s - n)%nat.
Proof.
  revert s. induction n as [|n IH]; intros [|c s]; cbn; trivial.
Qed.

Lemma strip_one_shorter (spaces : list string) (s s' : string) :
  Forall (fun sp => sp <> "") spaces ->
  strings.strip_one spaces s = Some s' ->
  (String.length s' < String.length s)%nat.
Proof.
  unfold strings.strip_one. intros Hne H.
  destruct (find (fun sp => String.prefix sp s) spaces) as [sp|] eqn:Hf; [|discriminate].
  inv H. apply find_some in Hf. destruct Hf as (Hin & Hp).
  rewrite Forall_forall in Hne. specialize (Hne sp Hin).
  apply prefix_length in Hp. rewrite drop_length.
  destruct sp; [contradiction|]. cbn [String.length] in *. lia.
Qed.

(** [strip] does the same with any fuel that covers the string: the fuel
    [TrimLeft] and [TrimRight] give it never runs out. *)
Lemma strip_fuel (spaces : list string) (n : nat) :
  Forall (fun sp => sp <> "") spaces ->
  forall (m : nat) (s : string),
    (String.length s <= n)%nat -> (String.length s <= m)%nat ->
    strings.strip spaces n s = strings.strip spaces m s.
Proof.
  intros Hne. induction n as [|n IH]; intros m s Hn Hm.
  - destruct s; [|cbn in Hn; lia]. destruct m; [reflexivity|].
    cbn [strings.strip].
    destruct (strings.strip_one spaces "") as [s'|] eqn:H1; [|reflexivity].
    apply strip_one_shorter in H1; [cbn in H1; lia | exact Hne].
  - destruct m as [|m].
    + destruct s; [|cbn in Hm; lia]. cbn [strings.strip].
      destruct (strings.strip_one spaces "") as [s'|] eqn:H1; [|reflexivity].
      apply strip_one_shorter in H1; [cbn in H1; lia | exact Hne].
    + cbn [strings.strip].
      destruct (strings.strip_one spaces s) as [s'|] eqn:H1; [|reflexivity].
      apply strip_one_shorter in H1; [|exact Hne]. apply IH; lia.
Qed.

Lemma white_space_nonempty :
  Forall (fun sp => sp <> "") strings.white_space
  /\ Forall (fun sp => sp <> "") (map strings.rev_string strings.white_space).
Proof. split; vm_compute; repeat constructor; discriminate. Qed.

Lemma cutspace_length (s : string) : (String.length (time.cutspace s) <= String.length s)%nat.
Proof.
  induction s as [|c s IH]; cbn; [lia|].
  destruct c as [[] [] [] [] [] [] [] []]; cbn; lia.
Qed.

(** [skip] does the same with any fuel that covers the literal text. *)
Lemma skip_fuel (n : nat) :
  forall (m : nat) (value prefix : string),
    (String.length prefix <= n)%nat -> (String.length prefix <= m)%nat ->
    time.skip n value prefix = time.skip m value prefix.
Proof.
  induction n as [|n IH]; intros m value prefix Hn Hm.
  - destruct prefix; [|cbn in Hn; lia]. now destruct m.
  - destruct prefix as [|p prefix]; [now destruct m|].
    destruct m as [|m]; [cbn in Hm; lia|].
    cbn [String.length] in Hn, Hm. cbn [time.skip].
    destruct (Ascii.eqb p " ") eqn:Hp.
    + apply Ascii.eqb_eq in Hp. subst p.
      assert (Hcut : (String.length (time.cutspace (String " " prefix))
                      <= String.length prefix)%nat).
      { change (time.cutspace (String " " prefix)) with (time.cutspace prefix).
        apply cutspace_length. }
      destruct value as [|v value]; [apply IH; lia|].
      destruct (Ascii.eqb v " "); [apply IH; lia | reflexivity].
    + destruct value as [|v value]; [reflexivity|].
      destruct (Ascii.eqb v p); [apply IH; lia | reflexivity].
Qed.

(** Each element found shortens the layout. *)
Lemma stdAt_shorter (layout suffix : string) (e : time.std) :
  time.stdAt layout = Some (e, suffix) ->
  (String.length suffix < String.length layout)%nat.
Proof.
  unfold time.stdAt. intros H.
  repeat match type of H with
         | (if String.prefix ?a layout then _ else _) = _ =>
             destruct (String.prefix a layout) eqn:?
         end; try discriminate.
  all: match type of H with
       | Some (_, ?d) = _ => assert (Hs : suffix = d) by congruence
       end; rewrite Hs, drop_length;
  match goal with
  | Hp : String.prefix _ _ = true |- _ =>
      apply prefix_length in Hp; cbn in Hp; lia
  end.
Qed.

Lemma nextStdChunk_shorter (layout : string) :
  forall (prefix suffix : string) (e : time.std),
    time.nextStdChunk layout = (prefix, Some e, suffix) ->
    (String.length suffix < String.length layout)%nat.
Proof.
  induction layout as [|c layout IH]; intros prefix suffix e H.
  - discriminate.
  - cbn [time.nextStdChunk] in H.
    destruct (time.stdAt (String c layout)) as [[e' suffix']|] eqn:Hat.
    + inv H. now apply stdAt_shorter in Hat.
    + destruct (time.nextStdChunk layout) as [[p' e'] s'] eqn:Hn. inv H.
      specialize (IH _ _ _ eq_refl). cbn [String.length]. lia.
Qed.

(** [parse_loop] does the same with any fuel above the length of the
    layout: the fuel [Parse] gives it never runs out. *)
Lemma parse_loop_fuel (n : nat) :
  forall (m : nat) (layout value : string) (f : time.fields),
    (String.length layout < n)%nat -> (String.length layout < m)%nat ->
    time.parse_loop n layout value f = time.parse_loop m layout value f.
Proof.
  induction n as [|n IH]; intros m layout value f Hn Hm; [lia|].
  destruct m as [|m]; [lia|].
  cbn [time.parse_loop].
  destruct (time.nextStdChunk layout) as [[prefix e] suffix] eqn:Hchunk.
  destruct (time.skip (String.length prefix) value prefix) as [value1|]; [|reflexivity].
  destruct e as [e|]; [|reflexivity].
  destruct (time.parse_std e value1 f) as [[f' value2]|]; [|reflexivity].
  apply nextStdChunk_shorter in Hchunk. apply IH; lia.
Qed.

Lemma daysBefore_nonneg (month : Z) : 1 <= month <= 12 -> 0 <= time.daysBefore month.
Proof.
  intros Hm.
  assert (Hcases : month = 1 \/ month = 2 \/ month = 3 \/ month = 4 \/ month = 5
                   \/ month = 6 \/ month = 7 \/ month = 8 \/ month = 9
                   \/ month = 10 \/ month = 11 \/ month = 12) by lia.
  repeat (destruct Hcases as [-> | Hcases]; [vm_compute; discriminate|]).
  subst month. vm_compute. discriminate.
Qed.

(** A wall-clock reading after year 1 is not the zero instant. *)
Lemma wall_clock_not_zero (t : time.Time) :
  2 <= time.Year t -> 1 <= time.Month t <= 12 -> 1 <= time.Day t ->
  0 <= time.Hour t -> 0 <= time.Minute t -> 0 <= time.Second t ->
  time.locOffset (time.Loc t) < 365 * 86400 ->
  time.IsZero t = false.
Proof.
  intros Hy Hm Hd Hh Hmi Hs Ho.
  unfold time.IsZero. apply andb_false_iff. left. apply Z.eqb_neq.
  unfold time.absSeconds, time.daysSinceEpoch.
  assert (H100 : (time.Year t - 1) / 100 <= (time.Year t - 1) / 4)
    by (apply Z.div_le_compat_l; lia).
  assert (H400 : 0 <= (time.Year t - 1) / 400) by (apply Z.div_pos; lia).
  pose proof (daysBefore_nonneg (time.Month t) Hm) as Hb.
  destruct ((3 <=? time.Month t) && time.isLeap (time.Year t)); lia.
Qed.

(** The library functions stay folded in the proofs about the clients;
    the examples evaluate them with [vm_compute]. *)
Opaque strings.TrimSpace strings.HasPrefix strings.Contains strings.TrimPrefix
  time.Parse time.IsZero time.first_parse Kleinanzeigen.creationDateOf
  fmt.itoa base64.EncodeToString url.Encode String.append SearchParams.format.

Lemma Forall_firstn {A : Type} (P : A -> Prop) (n : nat) (l : list A) :
  Forall P l -> Forall P (firstn n l).
Proof.
  intros H. rewrite <- (firstn_skipn n l) in H. now apply Forall_app in H.
Qed.


(** Unfolds the plumbing of [M] in the goal and in the hypotheses. *)
Ltac run :=
  cbv beta iota zeta delta [bind ret log_Printf fmt_Printf emit Do Now fst snd] in *.

(** Splits the goal on the next test or match of the code. *)
Ltac branch :=
  match goal with
  | H : context [match ?x with _ => _ end] |- _ =>
      lazymatch x with
      | context [match _ with _ => _ end] => fail
      | _ => destruct x eqn:?
      end
  end.

(** Rewrites with the tests the case analysis has decided. *)
Ltac bools :=
  repeat match goal with
    | E : negb _ = true |- _ => apply negb_true_iff in E
    | E : negb _ = false |- _ => apply negb_false_iff in E
    end;
  repeat match goal with
    | E : ?x = true |- context [?x] => rewrite E
    | E : ?x = false |- context [?x] => rewrite E
    end.

Section KleinanzeigenFacts.

Variable w : World.
Variable c : Kleinanzeigen.KleinanzeigenClient.

Lemma K_fetchImage_history (imageURL : string) (h h' : History) (r : result string) :
  Kleinanzeigen.fetchImageAsBase64 w imageURL h = (r, h') ->
  exists req, h' = (h ++ [Sent req])%list /\ is_page_request req = false
              /\ http.Method req = "GET"
              /\ http.URL req = (if strings.HasPrefix imageURL "//" then "https:" ++ imageURL else imageURL).
Proof.
  unfold Kleinanzeigen.fetchImageAsBase64. intros H.
  destruct (strings.HasPrefix imageURL "//"); run;
    (eexists; split; [ repeat branch; inv H; reflexivity | repeat split; reflexivity ]).
Qed.

Lemma K_extractPart_spec (s : Article.Article) (h h' : History) (r : result Part.Part) :
  Kleinanzeigen.extractPart w c s h = (r, h') ->
  page_requests h' = page_requests h
  /\ (exists evs, h' = (h ++ evs)%list)
  /\ match r with
     | Ok p =>
         extractable s = true /\ extracted_from c s p
         /\ Part.CreationDate p
            = Kleinanzeigen.CreationDate_for (clock w h) (Article.date_text s)
     | Err e => extractable s = false /\ requests h' = requests h
     end.
Proof.
  unfold Kleinanzeigen.extractPart, Kleinanzeigen.CreationDate_for, extractable, extracted_from.
  intros H. run.
  repeat branch; inv H.
  all: repeat match goal with
         | E : Kleinanzeigen.fetchImageAsBase64 _ _ _ = _ |- _ =>
             apply K_fetchImage_history in E; destruct E as (req & -> & Hreq & _)
         end.
  all: rewrite ?page_requests_app, ?requests_app.
  all: cbn [page_requests requests flat_map app]; rewrite ?Hreq, ?app_nil_r.
  all: bools.
  all: cbn [negb andb Part.ID Part.URL Part.Name Part.Description Part.Price Part.SiteID
              Part.CreationDate Part.set_ID Part.set_URL Part.set_Name Part.set_Description
              Part.set_Price Part.set_CreationDate Part.set_ImageBase64].
  all: repeat split; eauto.
  all: try (destruct (Article.data_href s); reflexivity).
  all: try (eexists; rewrite <- ?app_assoc; reflexivity).
  all: exists []; rewrite app_nil_r; reflexivity.
Qed.

Lemma K_build_ok (params : SearchParams.SearchParams) (page : Z) :
  Kleinanzeigen.buildSearchURLWithPage c params page = Ok (page_url c params page).
Proof. reflexivity. Qed.

Lemma K_each_spec (selection : list Article.Article) :
  forall (i : Z) (parts parts' : list Part.Part) (h h' : History),
    Kleinanzeigen.each w c i selection parts h = (parts', h') ->
    page_requests h' = page_requests h
    /\ (exists evs, h' = (h ++ evs)%list)
    /\ (exists ps, parts' = (parts ++ ps)%list
                   /\ Forall2 (extracted_from c) (filter extractable selection) ps)
    /\ (forall j s, nth_error selection j = Some s -> extractable s = false ->
                    warned h' (i + Z.of_nat j)).
Proof.
  induction selection as [|s rest IH]; intros i parts parts' h h' H.
  - cbn [Kleinanzeigen.each] in H. run. inv H.
    repeat split.
    + exists []. now rewrite app_nil_r.
    + exists []. rewrite app_nil_r. split; [reflexivity | constructor].
    + intros [|j] s H; discriminate.
  - cbn [Kleinanzeigen.each] in H. run.
    destruct (Kleinanzeigen.extractPart w c s h) as [[part|err] h1] eqn:E;
      apply K_extractPart_spec in E; destruct E as (Hp & (evs & ->) & Hs).
    + destruct Hs as (Hx & Hfrom & _).
      apply IH in H. destruct H as (Hp' & (evs' & ->) & (ps & -> & Hps) & Hw).
      repeat split.
      * congruence.
      * exists (evs ++ evs')%list. now rewrite app_assoc.
      * exists (part :: ps). rewrite <- app_assoc. split; [reflexivity|].
        cbn [filter]. rewrite Hx. now constructor.
      * intros [|j] s' Hn Hs'; cbn [nth_error] in Hn.
        -- inv Hn. congruence.
        -- replace (i + Z.of_nat (S j)) with (i + 1 + Z.of_nat j) by lia. eauto.
    + destruct Hs as (Hx & _).
      apply IH in H. destruct H as (Hp' & (evs' & ->) & (ps & -> & Hps) & Hw).
      repeat split.
      * rewrite Hp', page_requests_app. cbn. now rewrite app_nil_r.
      * eexists. rewrite <- !app_assoc. reflexivity.
      * exists ps. split; [reflexivity|]. cbn [filter]. now rewrite Hx.
      * intros [|j] s' Hn Hs'; cbn [nth_error] in Hn.
        -- inv Hn. exists err. rewrite Z.add_0_r.
           apply in_or_app. left. apply in_or_app. right. now left.
        -- replace (i + Z.of_nat (S j)) with (i + 1 + Z.of_nat j) by lia. eauto.
Qed.

Lemma K_fetchSinglePage_spec (searchURL : string) (h h' : History) (r : result (list Part.Part)) :
  Kleinanzeigen.fetchSinglePage w c searchURL h = (r, h') ->
  page_requests h' = (page_requests h ++ [searchURL])%list
  /\ (exists evs, h' = (h ++ evs)%list)
  /\ match r with
     | Ok parts =>
         exists selection,
           shows w searchURL selection h
           /\ Forall2 (extracted_from c) (filter extractable selection) parts
           /\ (forall j s, nth_error selection j = Some s -> extractable s = false ->
                           warned h' (Z.of_nat j))
     | Err _ => forall selection, ~ shows w searchURL selection h
     end.
Proof.
  unfold Kleinanzeigen.fetchSinglePage, shows. fold (page_request searchURL).
  intros H. run.
  destruct (roundTrip w h (page_request searchURL)) as [e|e|resp] eqn:Hrt.
  1, 2: inv H; rewrite page_requests_app; repeat split; eauto;
        intros sel (resp & b & Hr & _); discriminate.
  destruct (negb (http.StatusCode resp =? http.StatusOK)) eqn:Hst.
  { inv H. rewrite page_requests_app. repeat split; eauto.
    intros sel (resp' & b & Hr & Hs & _). inv Hr.
    rewrite Hs in Hst. discriminate. }
  apply negb_false_iff, Z.eqb_eq in Hst.
  destruct (http.ReadAll (http.body resp)) as [bytes|e] eqn:Hread.
  2: { inv H. rewrite page_requests_app. repeat split; eauto.
       intros sel (resp' & b & Hr & _ & Hb & _). inv Hr. congruence. }
  destruct (http.articles (http.body resp)) as [selection|e] eqn:Hart.
  2: { inv H. rewrite page_requests_app. repeat split; eauto.
       intros sel (resp' & b & Hr & _ & _ & Ha). inv Hr. congruence. }
  destruct (len selection =? 0) eqn:Hlen.
  - inv H. rewrite page_requests_app. repeat split; eauto.
    exists selection. split; [eauto 10|].
    apply Z.eqb_eq in Hlen. unfold len in Hlen.
    destruct selection; [|discriminate]. split; [constructor|].
    intros [|j] s Hn; discriminate.
  - destruct (Kleinanzeigen.each w c 0 selection [] (h ++ [Sent (page_request searchURL)])%list)
      as [parts h1] eqn:E.
    apply K_each_spec in E. destruct E as (Hp & (evs & ->) & (ps & -> & Hps) & Hw).
    inv H. rewrite !page_requests_app in *. cbn in Hp |- *. rewrite Hp.
    repeat split.
    + now rewrite !app_nil_r.
    + eexists. rewrite <- !app_assoc. reflexivity.
    + exists selection. split; [eauto 10|]. split; [exact Hps|].
      intros j s Hn Hx. destruct (Hw j s Hn Hx) as (err & Hin).
      exists err. apply in_or_app. now left.
Qed.

(** [fetchSinglePage] returns, whatever the world does. *)
Lemma K_fetchSinglePage_shown (searchURL : string) (selection : list Article.Article) (h : History) :
  shows w searchURL selection h ->
  exists parts h',
    Kleinanzeigen.fetchSinglePage w c searchURL h = (Ok parts, h')
    /\ Forall2 (extracted_from c) (filter extractable selection) parts
    /\ page_requests h' = (page_requests h ++ [searchURL])%list
    /\ (forall j s, nth_error selection j = Some s -> extractable s = false ->
                    warned h' (Z.of_nat j)).
Proof.
  intros Hshow.
  destruct (Kleinanzeigen.fetchSinglePage w c searchURL h) as [[parts|e] h'] eqn:E;
    apply K_fetchSinglePage_spec in E; destruct E as (Hp & _ & Hr).
  - destruct Hr as (sel & Hsel & Hps & Hw).
    assert (sel = selection) as ->.
    { destruct Hshow as (r1 & b1 & H1 & _ & _ & A1), Hsel as (r2 & b2 & H2 & _ & _ & A2).
      congruence. }
    eauto 10.
  - exfalso. eapply Hr, Hshow.
Qed.

Lemma K_fetchSinglePage_serves (searchURL : string) (n : nat) (h : History) :
  serves w searchURL n ->
  exists parts h',
    Kleinanzeigen.fetchSinglePage w c searchURL h = (Ok parts, h')
    /\ List.length parts = n
    /\ page_requests h' = (page_requests h ++ [searchURL])%list.
Proof.
  intros Hs. destruct (Hs h) as (sel & Hshow & Hn).
  destruct (K_fetchSinglePage_shown _ _ _ Hshow) as (parts & h' & E & Hps & Hp & _).
  exists parts, h'. repeat split; trivial.
  apply Forall2_length in Hps. congruence.
Qed.

Lemma Forall2_from_article (selection : list Article.Article) (parts : list Part.Part) :
  Forall2 (extracted_from c) (filter extractable selection) parts ->
  Forall (from_article c) parts.
Proof.
  intros H.
  assert (Hsel : Forall (fun s => extractable s = true) (filter extractable selection)).
  { apply Forall_forall. intros s Hs. now apply filter_In in Hs. }
  induction H as [|s p sel ps Hsp _ IH]; constructor.
  - exists s. split; [now inv Hsel | exact Hsp].
  - apply IH. now inv Hsel.
Qed.

Variable params : SearchParams.SearchParams.

(** One round of the loop of [FetchParts], entered with the goal in the form
    [pageLoop ... (S left) ...]: up to the result of [fetchSinglePage]. *)
Ltac loop_round :=
  cbn [Kleinanzeigen.pageLoop]; rewrite K_build_ok;
  unfold Kleinanzeigen.finish;
  cbv beta iota zeta delta [bind ret log_Printf emit fst snd].

Lemma K_pageLoop_last (left : nat) (page : Z) (allParts : list Part.Part) (h : History) (k : nat) :
  serves w (page_url c params page) k ->
  Z.of_nat k < Kleinanzeigen.itemsPerPage ->
  exists pageParts h',
    List.length pageParts = k
    /\ Kleinanzeigen.pageLoop w c params (S left) page allParts h
       = (Ok (allParts ++ pageParts)%list, h')
    /\ page_requests h' = (page_requests h ++ [page_url c params page])%list.
Proof.
  intros Hs Hk. loop_round.
  match goal with
  | |- context [Kleinanzeigen.fetchSinglePage w c ?u ?hh] =>
      destruct (K_fetchSinglePage_serves u k hh Hs) as (pp & h2 & E & Hl & Hp)
  end.
  rewrite E. exists pp. unfold len. rewrite Hl.
  rewrite !page_requests_app in Hp. cbn [page_requests flat_map app] in Hp.
  rewrite !app_nil_r in Hp.
  destruct (Z.of_nat k =? 0) eqn:H0.
  - eexists. split; [reflexivity|]. split.
    + apply Z.eqb_eq in H0. assert (k = 0%nat) by lia. subst k.
      destruct pp; [|discriminate]. rewrite app_nil_r. reflexivity.
    + rewrite !page_requests_app. cbn [page_requests flat_map app]. now rewrite !app_nil_r.
  - apply Z.ltb_lt in Hk. rewrite Hk.
    eexists. split; [reflexivity|]. split; [reflexivity|].
    rewrite !page_requests_app. cbn [page_requests flat_map app]. now rewrite !app_nil_r.
Qed.

Lemma K_pageLoop_full (left : nat) (page : Z) (allParts : list Part.Part) (h : History) :
  serves w (page_url c params page) (Z.to_nat Kleinanzeigen.itemsPerPage) ->
  SearchParams.Limit params <= 0
  \/ len allParts + Kleinanzeigen.itemsPerPage < SearchParams.Limit params ->
  exists pageParts h1,
    len pageParts = Kleinanzeigen.itemsPerPage
    /\ Kleinanzeigen.pageLoop w c params (S left) page allParts h
       = Kleinanzeigen.pageLoop w c params left (page + 1) (allParts ++ pageParts)%list h1
    /\ page_requests h1 = (page_requests h ++ [page_url c params page])%list.
Proof.
  intros Hs Hlim. loop_round.
  match goal with
  | |- context [Kleinanzeigen.fetchSinglePage w c ?u ?hh] =>
      destruct (K_fetchSinglePage_serves u _ hh Hs) as (pp & h2 & E & Hl & Hp)
  end.
  rewrite E. exists pp.
  rewrite !page_requests_app in Hp. cbn [page_requests flat_map app] in Hp.
  rewrite !app_nil_r in Hp.
  assert (Hlen : len pp = Kleinanzeigen.itemsPerPage).
  { unfold len. rewrite Hl. reflexivity. }
  rewrite Hlen. change (Kleinanzeigen.itemsPerPage =? 0) with false.
  rewrite Z.ltb_irrefl. cbv iota.
  assert (Hno : (0 <? SearchParams.Limit params)
                && (SearchParams.Limit params <=? len (allParts ++ pp)%list) = false).
  { unfold len in *. rewrite length_app, Nat2Z.inj_add, Hlen.
    destruct Hlim as [Hl0|Hl1].
    - replace (0 <? SearchParams.Limit params) with false; [reflexivity|].
      symmetry. apply Z.ltb_ge. exact Hl0.
    - apply andb_false_iff. right. apply Z.leb_gt. exact Hl1. }
  rewrite Hno. eexists. split; [reflexivity|]. split; [reflexivity|].
  rewrite !page_requests_app. cbn [page_requests flat_map app]. now rewrite !app_nil_r.
Qed.

Lemma K_pageLoop_parts (left : nat) :
  forall (page : Z) (allParts parts : list Part.Part) (h h' : History),
    Kleinanzeigen.pageLoop w c params left page allParts h = (Ok parts, h') ->
    Forall (from_article c) allParts ->
    Forall (from_article c) parts.
Proof.
  induction left as [|left IH]; intros page allParts parts h h' H Hall.
  - cbn [Kleinanzeigen.pageLoop] in H. unfold Kleinanzeigen.finish in H. run. now inv H.
  - revert H. loop_round.
    match goal with
    | |- context [Kleinanzeigen.fetchSinglePage w c ?u ?hh] =>
        destruct (Kleinanzeigen.fetchSinglePage w c u hh) as [[pp|e] h2] eqn:E
    end; [|discriminate].
    apply K_fetchSinglePage_spec in E. destruct E as (_ & _ & sel & _ & Hps & _).
    apply Forall2_from_article in Hps.
    assert (Hboth : Forall (from_article c) (allParts ++ pp)%list).
    { apply Forall_app. now split. }
    destruct (len pp =? 0); [intros H; now inv H|].
    destruct (len pp <? Kleinanzeigen.itemsPerPage); [intros H; now inv H|].
    destruct ((0 <? SearchParams.Limit params)
              && (SearchParams.Limit params <=? len (allParts ++ pp)%list)).
    + intros H. inv H. now apply Forall_firstn.
    + intros H. eapply IH; eauto.
Qed.

Lemma K_pageLoop_healthy (left : nat) :
  healthy w c params ->
  forall (page : Z) (allParts : list Part.Part) (h : History),
  exists parts h',
    Kleinanzeigen.pageLoop w c params left page allParts h = (Ok parts, h').
Proof.
  intros Hw. induction left as [|left IH]; intros page allParts h.
  - cbn [Kleinanzeigen.pageLoop]. unfold Kleinanzeigen.finish. run. eauto.
  - loop_round.
    match goal with
    | |- context [Kleinanzeigen.fetchSinglePage w c ?u ?hh] =>
        destruct (Hw page hh) as (sel & Hshow);
        destruct (K_fetchSinglePage_shown u sel hh Hshow) as (pp & h2 & E & _)
    end.
    rewrite E.
    destruct (len pp =? 0); [eauto|].
    destruct (len pp <? Kleinanzeigen.itemsPerPage); [eauto|].
    destruct ((0 <? SearchParams.Limit params)
              && (SearchParams.Limit params <=? len (allParts ++ pp)%list)); eauto.
Qed.

End KleinanzeigenFacts.

Section SchadeAutosFacts.

Variable w : World.
Variable c : SchadeAutos.SchadeAutosClient.

Lemma S_fetchImage_history (imageURL : string) (h h' : History) (r : result string) :
  SchadeAutos.fetchImageAsBase64 w c imageURL h = (r, h') ->
  exists req, h' = (h ++ [Sent req])%list
              /\ http.Method req = "GET"
              /\ http.URL req
                 = (if strings.HasPrefix imageURL "//" then "https:" ++ imageURL
                    else if strings.HasPrefix imageURL "/" then SchadeAutos.baseURL c ++ imageURL
                    else imageURL).
Proof.
  unfold SchadeAutos.fetchImageAsBase64. intros H.
  destruct (strings.HasPrefix imageURL "//"); [|destruct (strings.HasPrefix imageURL "/")];
    run; (eexists; split; [ repeat branch; inv H; reflexivity | split; reflexivity ]).
Qed.

(** The loop over the entries: it returns the parts of all entries, each
    with the site of the client, or it panics at an entry without a date. *)
Lemma S_convert_spec (entries : list (string * stockPart.stockPart)) :
  forall (parts : list Part.Part) (h h' : History) (r : outcome (list Part.Part)),
    SchadeAutos.convert w c entries parts h = (r, h') ->
    match r with
    | Returns (Ok parts') =>
        Forall (fun e => ~ undated e) entries
        /\ exists ps, parts' = (parts ++ ps)%list
                      /\ List.length ps = List.length entries
                      /\ Forall (fun p => Part.SiteID p = SchadeAutos.siteID c) ps
    | Panics v => v = SchadeAutos.nil_dereference /\ Exists undated entries
    | _ => False
    end.
Proof.
  induction entries as [|[partID sp] rest IH]; intros parts h h' r H.
  - cbn [SchadeAutos.convert] in H. run. inv H. split; [constructor|].
    exists []. rewrite app_nil_r. repeat split. constructor.
  - cbn [SchadeAutos.convert] in H.
    destruct (SchadeAutos.parseEnterDate (stockPart.EnterDate sp)) as [enterDate|] eqn:Hd.
    2: { run. inv H. split; [reflexivity|]. now left. }
    run.
    assert (Hnot : ~ undated (partID, sp)).
    { unfold undated. cbn [snd]. congruence. }
    destruct (negb (stockPart.Picture sp =? "")%string).
    1: destruct (SchadeAutos.fetchImageAsBase64 w c (stockPart.Picture sp) h) as [[img|e] h1].
    all: apply IH in H; destruct r as [[parts'|e']|v|]; try contradiction.
    all: try (destruct H as (Hall & ps & -> & Hlen & Hsite); split; [now constructor|];
              eexists (_ :: ps); rewrite <- app_assoc; split; [reflexivity|];
              split; [cbn [List.length]; now rewrite Hlen|]; now constructor).
    all: destruct H as (-> & Hex); split; [reflexivity | now right].
Qed.

Lemma S_FetchParts_answered (params : SearchParams.SearchParams) (h : History)
  (apiResponse : schadeAutosResponse.schadeAutosResponse) :
  answers w c params h apiResponse ->
  exists h1,
    SchadeAutos.FetchParts w c params h
    = SchadeAutos.convert w c (schadeAutosResponse.StockParts apiResponse) [] h1.
Proof.
  intros (resp & Hr & Hs & Hb). unfold SchadeAutos.FetchParts. run.
  rewrite Hr, Hs, Hb, Z.eqb_refl. cbn [negb]. eauto.
Qed.

Lemma S_FetchParts_sites (params : SearchParams.SearchParams) (h h' : History)
  (parts : list Part.Part) :
  SchadeAutos.FetchParts w c params h = (Returns (Ok parts), h') ->
  Forall (fun p => Part.SiteID p = SchadeAutos.siteID c) parts.
Proof.
  unfold SchadeAutos.FetchParts. intros H. run.
  repeat branch; try discriminate.
  apply S_convert_spec in H. destruct H as (_ & ps & -> & _ & Hs). exact Hs.
Qed.

End SchadeAutosFacts.

Section EbayFacts.

Variable w : World.

Lemma search_requests_app (h1 h2 : History) :
  search_requests (h1 ++ h2)%list = (search_requests h1 ++ search_requests h2)%list.
Proof. unfold search_requests. apply flat_map_app. Qed.

Lemma E_fetchImage_history (imageURL : string) (h h' : History) (r : result string) :
  Ebay.fetchImageAsBase64 w imageURL h = (r, h') ->
  exists req, h' = (h ++ [Sent req])%list /\ is_search_request req = false
              /\ http.Method req = "GET"
              /\ http.URL req = imageURL.
Proof.
  unfold Ebay.fetchImageAsBase64. intros H. run.
  eexists; split; [ repeat branch; inv H; reflexivity | repeat split; reflexivity ].
Qed.

Lemma E_GetAccessToken_spec (c c' : Ebay.EbayClient) (h h' : History) (e : option error) :
  Ebay.GetAccessToken w c h = (e, c', h') ->
  search_requests h' = search_requests h
  /\ Ebay.siteID c' = Ebay.siteID c
  /\ (e <> None -> c' = c).
Proof.
  unfold Ebay.GetAccessToken. intros H. run.
  repeat branch; inv H.
  all: rewrite search_requests_app; cbn [search_requests flat_map app];
       change (is_search_request _) with false; cbv iota; rewrite !app_nil_r.
  all: repeat split; try reflexivity.
  intros Hn. now contradiction Hn.
Qed.

Lemma E_convert_spec (c : Ebay.EbayClient) (items : list EbayItem.EbayItem) :
  forall (parts parts' : list Part.Part) (h h' : History),
    Ebay.convert w c items parts h = (parts', h') ->
    search_requests h' = search_requests h
    /\ exists ps, parts' = (parts ++ ps)%list
                  /\ List.length ps = List.length items
                  /\ Forall (fun p => Part.SiteID p = Ebay.siteID c) ps.
Proof.
  induction items as [|item rest IH]; intros parts parts' h h' H.
  - cbn [Ebay.convert] in H. run. inv H. split; [reflexivity|].
    exists []. rewrite app_nil_r. repeat split. constructor.
  - cbn [Ebay.convert] in H. run.
    assert (Hstep : forall part h1,
               Part.SiteID part = Ebay.siteID c ->
               search_requests h1 = search_requests h ->
               Ebay.convert w c rest (parts ++ [part])%list h1 = (parts', h') ->
               search_requests h' = search_requests h
               /\ exists ps, parts' = (parts ++ ps)%list
                             /\ List.length ps = S (List.length rest)
                             /\ Forall (fun p => Part.SiteID p = Ebay.siteID c) ps).
    { intros part h1 Hsite Hh1 Hc. apply IH in Hc.
      destruct Hc as (Hs & ps & -> & Hlen & Hall). split; [congruence|].
      exists (part :: ps). rewrite <- app_assoc. repeat split.
      - cbn [List.length]. now rewrite Hlen.
      - now constructor. }
    destruct (EbayItem.ThumbnailImages item) as [|imageURL others];
      [eapply Hstep; eauto; reflexivity|].
    destruct (negb (imageURL =? "")%string); [|eapply Hstep; eauto; reflexivity].
    destruct (Ebay.fetchImageAsBase64 w imageURL h) as [[img|e] h1] eqn:E;
      apply E_fetchImage_history in E; destruct E as (req & -> & Hreq & _);
      (eapply Hstep; [| |exact H]; [reflexivity|]);
      rewrite search_requests_app; cbn [search_requests flat_map app];
      rewrite Hreq; now rewrite !app_nil_r.
Qed.

Lemma E_searchLoop_sites (c : Ebay.EbayClient) (fuel : nat) :
  forall (offset : Z) (allParts parts : list Part.Part) (h h' : History),
    Ebay.searchLoop w c fuel offset allParts h = (Returns (Ok parts), h') ->
    Forall (fun p => Part.SiteID p = Ebay.siteID c) allParts ->
    Forall (fun p => Part.SiteID p = Ebay.siteID c) parts.
Proof.
  induction fuel as [|fuel IH]; intros offset allParts parts h h' H Hall.
  - cbn [Ebay.searchLoop] in H. run. discriminate.
  - cbn [Ebay.searchLoop] in H. run.
    destruct (roundTrip w h (Ebay.searchRequest c offset)) as [e|e|resp]; try discriminate.
    destruct (negb (http.StatusCode resp =? http.StatusOK)); try discriminate.
    destruct (http.as_EbayBrowseResponse (http.body resp)) as [apiResponse|e]; try discriminate.
    destruct (Ebay.convert w c (EbayBrowseResponse.ItemSummaries apiResponse) []
                (h ++ [Sent (Ebay.searchRequest c offset)])%list) as [pp h1] eqn:E.
    apply E_convert_spec in E. destruct E as (_ & ps & Hpp & _ & Hps).
    cbn [app] in Hpp. subst pp.
    assert (Hboth : Forall (fun p => Part.SiteID p = Ebay.siteID c) (allParts ++ ps)%list).
    { apply Forall_app. now split. }
    destruct (len ps <? Ebay.pageSize).
    + now inv H.
    + eapply IH; eauto.
Qed.

(** One round of the search loop on a page of [n] items. *)
Lemma E_searchLoop_round (c : Ebay.EbayClient) (fuel : nat) (offset : Z)
  (allParts : list Part.Part) (h : History) (n : nat) :
  serves_items w c offset n ->
  exists pageParts h1,
    List.length pageParts = n
    /\ search_requests h1 = (search_requests h ++ [search_url offset])%list
    /\ Ebay.searchLoop w c (S fuel) offset allParts h
       = (if Z.of_nat n <? Ebay.pageSize then (Returns (Ok (allParts ++ pageParts)%list), h1)
          else Ebay.searchLoop w c fuel (offset + Ebay.pageSize) (allParts ++ pageParts)%list h1).
Proof.
  intros Hs. destruct (Hs h) as (resp & apiResponse & Hr & Hst & Hb & Hn).
  cbn [Ebay.searchLoop]. run. rewrite Hr, Hst, Hb, Z.eqb_refl. cbn [negb].
  destruct (Ebay.convert w c (EbayBrowseResponse.ItemSummaries apiResponse) []
              (h ++ [Sent (Ebay.searchRequest c offset)])%list) as [pp h1] eqn:E.
  apply E_convert_spec in E. destruct E as (Hsr & ps & Hpp & Hlen & _).
  cbn [app] in Hpp. subst pp.
  exists ps, h1. split; [congruence|]. split.
  - rewrite Hsr, search_requests_app. cbn [search_requests flat_map app].
    change (is_search_request (Ebay.searchRequest c offset)) with true. cbv iota.
    now rewrite app_nil_r.
  - unfold len. rewrite Hlen, Hn. now destruct (Z.of_nat n <? Ebay.pageSize).
Qed.

End EbayFacts.

(* ================================================================== *)
(** ** The Kleinanzeigen client: limit, empty page, skipped items, parts *)
(* ================================================================== *)

(** The example site shows its pages. *)
Ltac site_serves selection :=
  intros ?; exists selection; split; [|vm_compute; reflexivity];
  eexists {| http.StatusCode := 200; http.body := Example.html_page selection |},
          "<!DOCTYPE html>";
  repeat split; vm_compute; reflexivity.

(** C1. Claimed: a successful fetch with [Limit > 0] returns at most
    [max(1, Limit)] parts. The loop leaves at a short page before it looks
    at the limit: when the first page holds [k] items, [k] below the page
    size of 25, [FetchParts] returns all [k] of them whatever the limit is. *)
Theorem short_page_ignores_limit (w : World) (c : Kleinanzeigen.KleinanzeigenClient)
  (params : SearchParams.SearchParams) (h : History) (k : nat) :
  serves w (page_url c params 1) k ->
  Z.of_nat k < Kleinanzeigen.itemsPerPage ->
  exists parts h',
    Kleinanzeigen.FetchParts w c params h = (Ok parts, h')
    /\ List.length parts = k.
Proof.
  intros Hs Hk. unfold Kleinanzeigen.FetchParts. run.
  change (Z.to_nat Kleinanzeigen.maxPages) with (S 99).
  match goal with
  | |- context [Kleinanzeigen.pageLoop w c params (S 99) 1 [] ?hh] =>
      destruct (K_pageLoop_last w c params 99 1 [] hh k Hs Hk) as (pp & h' & Hl & E & _)
  end.
  rewrite E. exists pp, h'. split; [reflexivity | exact Hl].
Qed.

(** With a limit of 5 and a first page of 10 items, 10 parts come back. *)
Lemma short_page_ignores_limit_witness :
  exists parts h',
    Kleinanzeigen.FetchParts (Example.site [Example.listings 1 10]) Example.client
      (Example.limit 5) [] = (Ok parts, h')
    /\ List.length parts = 10%nat.
Proof.
  apply (short_page_ignores_limit (Example.site [Example.listings 1 10]) Example.client
           (Example.limit 5) [] 10).
  - site_serves (Example.listings 1 10).
  - reflexivity.
Defined.

(** C7. When the first page yields no item, [FetchParts] asks for no
    further page and returns the empty list and no error. *)
Theorem empty_first_page_ends_fetch (w : World) (c : Kleinanzeigen.KleinanzeigenClient)
  (params : SearchParams.SearchParams) (h : History) :
  serves w (page_url c params 1) 0 ->
  exists h',
    Kleinanzeigen.FetchParts w c params h = (Ok [], h')
    /\ page_requests h' = (page_requests h ++ [page_url c params 1])%list.
Proof.
  intros Hs. unfold Kleinanzeigen.FetchParts. run.
  change (Z.to_nat Kleinanzeigen.maxPages) with (S 99).
  match goal with
  | |- context [Kleinanzeigen.pageLoop w c params (S 99) 1 [] ?hh] =>
      destruct (K_pageLoop_last w c params 99 1 [] hh 0 Hs) as (pp & h' & Hl & E & Hp);
        [reflexivity|]
  end.
  destruct pp; [|discriminate].
  rewrite E. exists h'. split; [reflexivity|].
  rewrite Hp, page_requests_app. cbn [page_requests flat_map app]. now rewrite app_nil_r.
Qed.

(** A first page whose only article is broken: one request, no part. *)
Lemma empty_first_page_ends_fetch_witness :
  exists h',
    Kleinanzeigen.FetchParts (Example.site [[Example.broken]; Example.listings 1 3])
      Example.client Example.no_params [] = (Ok [], h')
    /\ page_requests h' = [page_url Example.client Example.no_params 1].
Proof.
  apply (empty_first_page_ends_fetch
           (Example.site [[Example.broken]; Example.listings 1 3])
           Example.client Example.no_params []).
  site_serves [Example.broken].
Defined.

(** C9. An article that fails extraction is left out with a warning in the
    log: the page still gives the parts of its other articles, in order,
    and a fetch whose pages are all shown returns without error. *)
Theorem broken_article_is_skipped (w : World) (c : Kleinanzeigen.KleinanzeigenClient)
  (params : SearchParams.SearchParams) :
  (forall s h, extractable s = false ->
               exists e h', Kleinanzeigen.extractPart w c s h = (Err e, h'))
  /\ (forall searchURL selection h,
        shows w searchURL selection h ->
        exists parts h',
          Kleinanzeigen.fetchSinglePage w c searchURL h = (Ok parts, h')
          /\ Forall2 (extracted_from c) (filter extractable selection) parts
          /\ (forall j s, nth_error selection j = Some s -> extractable s = false ->
                          warned h' (Z.of_nat j)))
  /\ (healthy w c params ->
      forall h, exists parts h', Kleinanzeigen.FetchParts w c params h = (Ok parts, h')).
Proof.
  split; [|split].
  - intros s h Hx.
    destruct (Kleinanzeigen.extractPart w c s h) as [[p|e] h'] eqn:E.
    + apply K_extractPart_spec in E. destruct E as (_ & _ & Hx' & _). congruence.
    + eauto.
  - intros searchURL selection h Hshow.
    destruct (K_fetchSinglePage_shown w c searchURL selection h Hshow)
      as (parts & h' & E & Hps & _ & Hw).
    eauto 10.
  - intros Hw h. unfold Kleinanzeigen.FetchParts. run.
    apply K_pageLoop_healthy. exact Hw.
Qed.

(** A page with a broken article between two listings gives two parts. *)
Lemma broken_article_is_skipped_witness :
  exists parts h',
    Kleinanzeigen.fetchSinglePage
      (Example.site [[Example.listing 1; Example.broken; Example.listing 2]])
      Example.client (page_url Example.client Example.no_params 1) [] = (Ok parts, h')
    /\ Forall2 (extracted_from Example.client) [Example.listing 1; Example.listing 2] parts
    /\ warned h' 1.
Proof.
  pose proof (broken_article_is_skipped
                (Example.site [[Example.listing 1; Example.broken; Example.listing 2]])
                Example.client Example.no_params) as (_ & Hpage & _).
  destruct (Hpage (page_url Example.client Example.no_params 1)
              [Example.listing 1; Example.broken; Example.listing 2] [])
    as (parts & h' & E & Hps & Hw).
  - eexists {| http.StatusCode := 200;
               http.body := Example.html_page
                              [Example.listing 1; Example.broken; Example.listing 2] |},
            "<!DOCTYPE html>".
    repeat split; vm_compute; reflexivity.
  - exists parts, h'. split; [exact E|]. split; [exact Hps|].
    apply (Hw 1%nat Example.broken); reflexivity.
Defined.



(* ================================================================== *)
(** ** The Kleinanzeigen client: dates *)
(* ================================================================== *)

Lemma CreationDate_for_today (now : time.Time) :
  time.IsZero (time.Date (time.Year now) (time.Month now) (time.Day now) 14 5 0 0
                 (time.Loc now)) = false ->
  Kleinanzeigen.CreationDate_for now "Heute, 14:05"
  = time.Date (time.Year now) (time.Month now) (time.Day now) 14 5 0 0 (time.Loc now).
Proof.
  intros Hz. unfold Kleinanzeigen.CreationDate_for.
  replace (strings.TrimSpace "Heute, 14:05") with "Heute, 14:05" by (vm_compute; reflexivity).
  replace (Kleinanzeigen.creationDateOf now "Heute, 14:05")
    with (time.Date (time.Year now) (time.Month now) (time.Day now) 14 5 0 0 (time.Loc now))
    by (vm_compute; reflexivity).
  cbv zeta. rewrite Hz. reflexivity.
Qed.

Lemma CreationDate_for_day_first (now : time.Time) :
  Kleinanzeigen.CreationDate_for now "01.02.2023" = time.Date 2023 2 1 0 0 0 0 time.UTC.
Proof. vm_compute. reflexivity. Qed.

(** C8. The date text "Heute, 14:05" gives the day of the clock reading
    with the time 14:05, in the location of the clock (that reading not
    being Go's zero instant, which [extractPart] takes for no date); the
    text "01.02.2023" gives the first of February 2023. *)
Theorem date_texts_are_parsed (w : World) (c : Kleinanzeigen.KleinanzeigenClient)
  (s : Article.Article) (h h' : History) (p : Part.Part) :
  Kleinanzeigen.extractPart w c s h = (Ok p, h') ->
  let now := clock w h in
  (Article.date_text s = "Heute, 14:05" ->
   time.IsZero (time.Date (time.Year now) (time.Month now) (time.Day now) 14 5 0 0
                  (time.Loc now)) = false ->
   Part.CreationDate p
   = time.Date (time.Year now) (time.Month now) (time.Day now) 14 5 0 0 (time.Loc now))
  /\ (Article.date_text s = "01.02.2023" ->
      Part.CreationDate p = time.Date 2023 2 1 0 0 0 0 time.UTC).
Proof.
  intros E now. apply K_extractPart_spec in E. destruct E as (_ & _ & _ & _ & Hdate).
  rewrite Hdate. fold now. split.
  - intros -> Hz. now apply CreationDate_for_today.
  - intros ->. apply CreationDate_for_day_first.
Qed.

(** Both texts, read on Friday 17 May 2024 in Berlin. *)
Lemma date_texts_are_parsed_witness :
  (exists p h',
      Kleinanzeigen.extractPart (Example.site []) Example.client
        (Example.listing_dated "Heute, 14:05" 1) [] = (Ok p, h')
      /\ Part.CreationDate p = time.Date 2024 5 17 14 5 0 0 Example.berlin)
  /\ (exists p h',
        Kleinanzeigen.extractPart (Example.site []) Example.client
          (Example.listing_dated "01.02.2023" 2) [] = (Ok p, h')
        /\ Part.CreationDate p = time.Date 2023 2 1 0 0 0 0 time.UTC).
Proof.
  split.
  - destruct (Kleinanzeigen.extractPart (Example.site []) Example.client
                (Example.listing_dated "Heute, 14:05" 1) []) as [r h'] eqn:E.
    assert (Hr : exists p, r = Ok p).
    { apply (f_equal fst) in E. cbn [fst] in E. rewrite <- E.
      vm_compute. eexists. reflexivity. }
    destruct Hr as (p & ->). exists p, h'. split; [reflexivity|].
    destruct (date_texts_are_parsed _ _ _ _ _ _ E) as (Htoday & _).
    apply Htoday; vm_compute; reflexivity.
  - destruct (Kleinanzeigen.extractPart (Example.site []) Example.client
                (Example.listing_dated "01.02.2023" 2) []) as [r h'] eqn:E.
    assert (Hr : exists p, r = Ok p).
    { apply (f_equal fst) in E. cbn [fst] in E. rewrite <- E.
      vm_compute. eexists. reflexivity. }
    destruct Hr as (p & ->). exists p, h'. split; [reflexivity|].
    destruct (date_texts_are_parsed _ _ _ _ _ _ E) as (_ & Hday).
    apply Hday. reflexivity.
Defined.

(* ================================================================== *)
(** ** Pagination *)
(* ================================================================== *)

(** Arithmetic on the lengths of the accumulated lists. *)
Ltac sizes :=
  unfold len, Kleinanzeigen.itemsPerPage, Ebay.pageSize in *;
  rewrite ?length_app, ?Nat2Z.inj_add in *; cbn [List.length] in *; lia.

Lemma K_four_pages (w : World) (c : Kleinanzeigen.KleinanzeigenClient)
  (params : SearchParams.SearchParams) (h : History) (k : nat) :
  let P := Z.to_nat Kleinanzeigen.itemsPerPage in
  serves w (page_url c params 1) P ->
  serves w (page_url c params 2) P ->
  serves w (page_url c params 3) P ->
  serves w (page_url c params 4) k ->
  (k < P)%nat ->
  SearchParams.Limit params <= 0 \/ Z.of_nat (3 * P) < SearchParams.Limit params ->
  exists parts h',
    Kleinanzeigen.FetchParts w c params h = (Ok parts, h')
    /\ List.length parts = (3 * P + k)%nat
    /\ page_requests h'
       = (page_requests h
          ++ [page_url c params 1; page_url c params 2;
              page_url c params 3; page_url c params 4])%list.
Proof.
  intros P H1 H2 H3 H4 Hk Hlim. unfold Kleinanzeigen.FetchParts. run.
  change (Z.to_nat Kleinanzeigen.maxPages) with (S (S (S (S 96)))).
  change (Z.of_nat (3 * P)) with 75 in Hlim. change P with 25%nat in *.
  match goal with
  | |- context [Kleinanzeigen.pageLoop w c params _ 1 [] ?hh] =>
      destruct (K_pageLoop_full w c params (S (S (S 96))) 1 [] hh H1)
        as (pp1 & h1 & Hl1 & E1 & Hp1); [sizes|]
  end.
  rewrite E1. change (1 + 1) with 2.
  destruct (K_pageLoop_full w c params (S (S 96)) 2 ([] ++ pp1)%list h1 H2)
    as (pp2 & h2 & Hl2 & E2 & Hp2).
  { sizes. }
  rewrite E2. change (2 + 1) with 3.
  destruct (K_pageLoop_full w c params (S 96) 3 (([] ++ pp1) ++ pp2)%list h2 H3)
    as (pp3 & h3 & Hl3 & E3 & Hp3).
  { sizes. }
  rewrite E3. change (3 + 1) with 4.
  destruct (K_pageLoop_last w c params 96 4 ((([] ++ pp1) ++ pp2) ++ pp3)%list h3 k H4)
    as (pp4 & h4 & Hl4 & E4 & Hp4).
  { sizes. }
  rewrite E4. eexists. eexists. split; [reflexivity|]. split.
  - sizes.
  - rewrite Hp4, Hp3, Hp2, Hp1, page_requests_app. cbn [page_requests flat_map app].
    rewrite app_nil_r, <- !app_assoc. reflexivity.
Qed.

Lemma E_four_pages (w : World) (c : Ebay.EbayClient) (fuel : nat)
  (params : SearchParams.SearchParams) (h : History) (k : nat) :
  let P := Z.to_nat Ebay.pageSize in
  (forall c', serves_items w c' 0 P) ->
  (forall c', serves_items w c' 200 P) ->
  (forall c', serves_items w c' 400 P) ->
  (forall c', serves_items w c' 600 k) ->
  (k < P)%nat ->
  (4 <= fuel)%nat ->
  exists parts c' h',
    Ebay.FetchParts w c fuel params h = (Returns (Ok parts), c', h')
    /\ List.length parts = (3 * P + k)%nat
    /\ search_requests h'
       = (search_requests h
          ++ [search_url 0; search_url 200; search_url 400; search_url 600])%list.
Proof.
  intros P H1 H2 H3 H4 Hk Hfuel. unfold Ebay.FetchParts. run.
  match goal with
  | |- context [Ebay.GetAccessToken w c ?hh] =>
      destruct (Ebay.GetAccessToken w c hh) as [[e c1] h0] eqn:Et
  end.
  apply E_GetAccessToken_spec in Et. destruct Et as (Ht & _ & _).
  rewrite search_requests_app in Ht. cbn [search_requests flat_map app] in Ht.
  rewrite app_nil_r in Ht.
  destruct fuel as [|[|[|[|fuel]]]]; try lia.
  destruct (E_searchLoop_round w c1 (S (S (S fuel))) 0 []
              (h0 ++ [Logged "Access token retrieved"])%list P (H1 c1))
    as (pp1 & h1 & Hl1 & Hs1 & E1).
  rewrite E1. change (Z.of_nat P <? Ebay.pageSize) with false. cbv iota.
  change (0 + Ebay.pageSize) with 200.
  destruct (E_searchLoop_round w c1 (S (S fuel)) 200 ([] ++ pp1)%list h1 P (H2 c1))
    as (pp2 & h2 & Hl2 & Hs2 & E2).
  rewrite E2. change (Z.of_nat P <? Ebay.pageSize) with false. cbv iota.
  change (200 + Ebay.pageSize) with 400.
  destruct (E_searchLoop_round w c1 (S fuel) 400 (([] ++ pp1) ++ pp2)%list h2 P (H3 c1))
    as (pp3 & h3 & Hl3 & Hs3 & E3).
  rewrite E3. change (Z.of_nat P <? Ebay.pageSize) with false. cbv iota.
  change (400 + Ebay.pageSize) with 600.
  destruct (E_searchLoop_round w c1 fuel 600 ((([] ++ pp1) ++ pp2) ++ pp3)%list h3 k (H4 c1))
    as (pp4 & h4 & Hl4 & Hs4 & E4).
  rewrite E4.
  replace (Z.of_nat k <? Ebay.pageSize) with true
    by (symmetry; apply Z.ltb_lt; change Ebay.pageSize with (Z.of_nat P); lia).
  eexists. eexists. eexists. split; [reflexivity|]. split.
  - rewrite !length_app. cbn [List.length]. lia.
  - rewrite Hs4, Hs3, Hs2, Hs1, search_requests_app, Ht.
    cbn [search_requests flat_map app]. rewrite app_nil_r, <- !app_assoc. reflexivity.
Qed.

(** C4. From a source whose pages hold [P], [P], [P] and [k] items, [k]
    below the page size [P], a fetch that no limit cuts short asks for
    exactly the four pages and returns [3P + k] parts: with [P = 25] in the
    Kleinanzeigen client, with [P = 200] in the eBay client. *)
Theorem four_pages_are_fetched :
  (forall (w : World) (c : Kleinanzeigen.KleinanzeigenClient)
          (params : SearchParams.SearchParams) (h : History) (k : nat),
      let P := Z.to_nat Kleinanzeigen.itemsPerPage in
      serves w (page_url c params 1) P ->
      serves w (page_url c params 2) P ->
      serves w (page_url c params 3) P ->
      serves w (page_url c params 4) k ->
      (k < P)%nat ->
      SearchParams.Limit params <= 0 \/ Z.of_nat (3 * P) < SearchParams.Limit params ->
      exists parts h',
        Kleinanzeigen.FetchParts w c params h = (Ok parts, h')
        /\ List.length parts = (3 * P + k)%nat
        /\ page_requests h'
           = (page_requests h
              ++ [page_url c params 1; page_url c params 2;
                  page_url c params 3; page_url c params 4])%list)
  /\ (forall (w : World) (c : Ebay.EbayClient) (fuel : nat)
             (params : SearchParams.SearchParams) (h : History) (k : nat),
        let P := Z.to_nat Ebay.pageSize in
        (forall c', serves_items w c' 0 P) ->
        (forall c', serves_items w c' 200 P) ->
        (forall c', serves_items w c' 400 P) ->
        (forall c', serves_items w c' 600 k) ->
        (k < P)%nat ->
        (4 <= fuel)%nat ->
        exists parts c' h',
          Ebay.FetchParts w c fuel params h = (Returns (Ok parts), c', h')
          /\ List.length parts = (3 * P + k)%nat
          /\ search_requests h'
             = (search_requests h
                ++ [search_url 0; search_url 200; search_url 400; search_url 600])%list).
Proof.
  split.
  - exact K_four_pages.
  - exact E_four_pages.
Qed.

(** The example market serves its pages to every client. *)
Ltac market_serves offset n :=
  intros ? ?;
  exists {| http.StatusCode := 200; http.body := Example.browse offset n |},
         (Example.browse_response offset n);
  repeat split; vm_compute; reflexivity.

(** Pages of 25, 25, 25 and 3 listings; pages of 200, 200, 200 and 7 items. *)
Lemma four_pages_are_fetched_witness :
  (exists parts h',
      Kleinanzeigen.FetchParts
        (Example.site [Example.listings 1 25; Example.listings 26 25;
                       Example.listings 51 25; Example.listings 76 3])
        Example.client Example.no_params [] = (Ok parts, h')
      /\ List.length parts = 78%nat
      /\ List.length (page_requests h') = 4%nat)
  /\ (exists parts c' h',
        Ebay.FetchParts (Example.market [200; 200; 200; 7]%nat)
          Example.returning_client 4 Example.no_params [] = (Returns (Ok parts), c', h')
        /\ List.length parts = 607%nat
        /\ List.length (search_requests h') = 4%nat).
Proof.
  destruct four_pages_are_fetched as (HK & HE). split.
  - destruct (HK (Example.site [Example.listings 1 25; Example.listings 26 25;
                               Example.listings 51 25; Example.listings 76 3])
                Example.client Example.no_params [] 3%nat)
      as (parts & h' & E & Hlen & Hreq).
    + site_serves (Example.listings 1 25).
    + site_serves (Example.listings 26 25).
    + site_serves (Example.listings 51 25).
    + site_serves (Example.listings 76 3).
    + vm_compute. lia.
    + left. vm_compute. discriminate.
    + exists parts, h'. split; [exact E|]. split; [exact Hlen|].
      rewrite Hreq. reflexivity.
  - destruct (HE (Example.market [200; 200; 200; 7]%nat) Example.returning_client 4%nat
                Example.no_params [] 7%nat)
      as (parts & c' & h' & E & Hlen & Hreq).
    + market_serves 0 200%nat.
    + market_serves 200 200%nat.
    + market_serves 400 200%nat.
    + market_serves 600 7%nat.
    + vm_compute. lia.
    + lia.
    + exists parts, c', h'. split; [exact E|]. split; [exact Hlen|].
      rewrite Hreq. reflexivity.
Defined.

(* ================================================================== *)
(** ** Image URLs *)
(* ================================================================== *)

Lemma requested_app (h1 h2 : History) :
  requested (h1 ++ h2)%list = (requested h1 ++ requested h2)%list.
Proof. unfold requested. now rewrite requests_app, map_app. Qed.

Lemma requested_sent (h : History) (req : http.Request) :
  requested (h ++ [Sent req])%list
  = (requested h ++ [(http.Method req, http.URL req)])%list.
Proof. now rewrite requested_app. Qed.



(* ================================================================== *)
(** ** Site IDs *)
(* ================================================================== *)

Lemma from_article_site (c : Kleinanzeigen.KleinanzeigenClient) (p : Part.Part) :
  from_article c p -> Part.SiteID p = Kleinanzeigen.siteID c.
Proof. intros (s & _ & _ & _ & _ & _ & _ & Hsite). exact Hsite. Qed.

(** C6. Every part in the list a successful [FetchParts] returns carries
    the site ID of its client, in each of the three clients. *)
Theorem parts_carry_site_id :
  echoes_site_id Kleinanzeigen.KleinanzeigenClient
  /\ echoes_site_id SchadeAutos.SchadeAutosClient
  /\ echoes_site_id Ebay.EbayClient.
Proof.
  unfold echoes_site_id. split; [|split].
  - intros c c' w fuel params h h' parts H.
    cbn [FetchParts KleinanzeigenSiteClient GetSiteID] in *.
    destruct (Kleinanzeigen.FetchParts w c params h) as [r h1] eqn:E. inv H.
    unfold Kleinanzeigen.FetchParts in E. run.
    apply K_pageLoop_parts in E; [|constructor].
    eapply Forall_impl; [|exact E]. intros p. apply from_article_site.
  - intros c c' w fuel params h h' parts H.
    cbn [FetchParts SchadeAutosSiteClient GetSiteID] in *.
    destruct (SchadeAutos.FetchParts w c params h) as [r h1] eqn:E. inv H.
    apply S_FetchParts_sites in E. exact E.
  - intros c c' w fuel params h h' parts H.
    cbn [FetchParts EbaySiteClient GetSiteID] in *.
    destruct (Ebay.FetchParts w c fuel params h) as [[r c1] h1] eqn:E. inv H.
    unfold Ebay.FetchParts in E. run.
    match type of E with
    | context [Ebay.GetAccessToken w c ?hh] =>
        destruct (Ebay.GetAccessToken w c hh) as [[e c2] h0] eqn:Et
    end.
    apply E_GetAccessToken_spec in Et. destruct Et as (_ & Hsite & _).
    match type of E with
    | context [Ebay.searchLoop w c2 fuel 0 [] ?hh] =>
        destruct (Ebay.searchLoop w c2 fuel 0 [] hh) as [r h2] eqn:El
    end.
    inv E. apply E_searchLoop_sites in El; [|constructor].
    unfold Ebay.GetSiteID. rewrite <- Hsite. exact El.
Qed.

(** One fetch of each client: all parts carry the site ID, 7, 4 and 9. *)
Lemma parts_carry_site_id_witness :
  (exists parts, fst (fst (FetchParts Example.client (Example.site [Example.listings 1 3])
                             0 Example.no_params [])) = Returns (Ok parts)
                 /\ Forall (fun p => Part.SiteID p = 7) parts)
  /\ (exists parts, fst (fst (FetchParts (SchadeAutos.NewSchadeAutosClient 4)
                                (Example.shop [("1", Example.stock "2024-01-05")])
                                0 Example.no_params [])) = Returns (Ok parts)
                    /\ Forall (fun p => Part.SiteID p = 4) parts)
  /\ (exists parts, fst (fst (FetchParts Example.returning_client (Example.market [2%nat])
                                1 Example.no_params [])) = Returns (Ok parts)
                    /\ Forall (fun p => Part.SiteID p = 9) parts).
Proof.
  destruct parts_carry_site_id as (HK & HS & HE).
  split; [|split].
  - destruct (FetchParts Example.client (Example.site [Example.listings 1 3])
                0 Example.no_params []) as [[r h'] c'] eqn:E.
    assert (Hr : exists parts, r = Returns (Ok parts)).
    { apply (f_equal (fun x => fst (fst x))) in E. cbn [fst] in E. rewrite <- E.
      vm_compute. eexists. reflexivity. }
    destruct Hr as (parts & ->). exists parts. split; [reflexivity|].
    exact (HK _ _ _ _ _ _ _ _ E).
  - destruct (FetchParts (SchadeAutos.NewSchadeAutosClient 4)
                (Example.shop [("1", Example.stock "2024-01-05")])
                0 Example.no_params []) as [[r h'] c'] eqn:E.
    assert (Hr : exists parts, r = Returns (Ok parts)).
    { apply (f_equal (fun x => fst (fst x))) in E. cbn [fst] in E. rewrite <- E.
      vm_compute. eexists. reflexivity. }
    destruct Hr as (parts & ->). exists parts. split; [reflexivity|].
    exact (HS _ _ _ _ _ _ _ _ E).
  - destruct (FetchParts Example.returning_client (Example.market [2%nat])
                1 Example.no_params []) as [[r h'] c'] eqn:E.
    assert (Hr : exists parts, r = Returns (Ok parts)).
    { apply (f_equal (fun x => fst (fst x))) in E. cbn [fst] in E. rewrite <- E.
      vm_compute. eexists. reflexivity. }
    destruct Hr as (parts & ->). exists parts. split; [reflexivity|].
    exact (HE _ _ _ _ _ _ _ _ E).
Defined.

(* ================================================================== *)
(** ** Failures: a part without a date, a token that is not issued *)
(* ================================================================== *)

(** An empty date and a date in none of the layouts are not parsed. *)
Lemma parseEnterDate_examples :
  SchadeAutos.parseEnterDate "" = None
  /\ SchadeAutos.parseEnterDate "05.01.2024" = None
  /\ SchadeAutos.parseEnterDate "2024-01-05"
     = Some (time.Date 2024 1 5 0 0 0 0 time.UTC).
Proof. repeat split; vm_compute; reflexivity. Qed.

(** C2. Claimed: when an item of the response has an enter date that is
    empty or in none of the layouts, [FetchParts] returns an error and no
    list. The call returns nothing: [parseEnterDate] gives the nil pointer,
    the part literal dereferences it, and the call panics. *)
Theorem undated_part_panics (w : World) (c : SchadeAutos.SchadeAutosClient)
  (params : SearchParams.SearchParams) (h : History)
  (apiResponse : schadeAutosResponse.schadeAutosResponse) :
  answers w c params h apiResponse ->
  Exists undated (schadeAutosResponse.StockParts apiResponse) ->
  exists h',
    SchadeAutos.FetchParts w c params h = (Panics SchadeAutos.nil_dereference, h').
Proof.
  intros Ha Hex.
  destruct (S_FetchParts_answered w c params h apiResponse Ha) as (h1 & ->).
  destruct (SchadeAutos.convert w c (schadeAutosResponse.StockParts apiResponse) [] h1)
    as [r h'] eqn:E.
  apply S_convert_spec in E. destruct r as [[parts|e]|v|]; try contradiction.
  - destruct E as (Hall & _). exfalso.
    apply Exists_exists in Hex. destruct Hex as (entry & Hin & Hun).
    rewrite Forall_forall in Hall. exact (Hall entry Hin Hun).
  - destruct E as (-> & _). eauto.
Qed.

(** Two parts, the second with an empty enter date. *)
Lemma undated_part_panics_witness :
  exists h',
    SchadeAutos.FetchParts
      (Example.shop [("1", Example.stock "2024-01-05"); ("2", Example.stock "")])
      (SchadeAutos.NewSchadeAutosClient 4) Example.no_params []
    = (Panics SchadeAutos.nil_dereference, h').
Proof.
  apply (undated_part_panics
           (Example.shop [("1", Example.stock "2024-01-05"); ("2", Example.stock "")])
           (SchadeAutos.NewSchadeAutosClient 4) Example.no_params []
           {| schadeAutosResponse.Limited := false;
              schadeAutosResponse.Descr := "";
              schadeAutosResponse.StockParts :=
                [("1", Example.stock "2024-01-05"); ("2", Example.stock "")] |}).
  - eexists. repeat split; reflexivity.
  - right. left. vm_compute. reflexivity.
Defined.

(** C3. Claimed: when the token acquisition fails, [FetchParts] aborts with
    an error. [FetchParts] drops what [GetAccessToken] returns and goes on
    with the token the client holds: when the search then answers, the
    fetch returns the parts and no error. *)
Theorem token_failure_is_ignored (w : World) (c c1 : Ebay.EbayClient) (fuel : nat)
  (params : SearchParams.SearchParams) (h h1 : History) (e : error) (k : nat) :
  Ebay.GetAccessToken w c (h ++ [Logged "Fetching parts from eBay"])%list
  = (Some e, c1, h1) ->
  serves_items w c 0 k ->
  Z.of_nat k < Ebay.pageSize ->
  exists parts h',
    Ebay.FetchParts w c (S fuel) params h = (Returns (Ok parts), c, h')
    /\ List.length parts = k.
Proof.
  intros Et Hs Hk. unfold Ebay.FetchParts. run. rewrite Et.
  apply E_GetAccessToken_spec in Et. destruct Et as (_ & _ & Hc).
  rewrite (Hc ltac:(discriminate)).
  destruct (E_searchLoop_round w c fuel 0 [] (h1 ++ [Logged "Access token retrieved"])%list
              k Hs) as (pp & h2 & Hl & _ & E).
  rewrite E. apply Z.ltb_lt in Hk. rewrite Hk.
  exists pp, h2. split; [reflexivity | exact Hl].
Qed.

(** The token endpoint is down, the client holds an earlier token, the
    search honours it: two parts come back. *)
Lemma token_failure_is_ignored_witness :
  exists parts h',
    Ebay.FetchParts Example.token_outage Example.returning_client 1 Example.no_params []
    = (Returns (Ok parts), Example.returning_client, h')
    /\ List.length parts = 2%nat.
Proof.
  destruct (Ebay.GetAccessToken Example.token_outage Example.returning_client
              ([] ++ [Logged "Fetching parts from eBay"])%list) as [[e c1] h1] eqn:Et.
  assert (He : exists msg, e = Some msg).
  { apply (f_equal (fun x => fst (fst x))) in Et. cbn [fst] in Et. rewrite <- Et.
    vm_compute. eexists. reflexivity. }
  destruct He as (msg & ->).
  apply (token_failure_is_ignored Example.token_outage Example.returning_client c1 0
           Example.no_params [] h1 msg 2 Et).
  - intros h. exists {| http.StatusCode := 200; http.body := Example.browse 0 2 |},
                     (Example.browse_response 0 2).
    repeat split; vm_compute; reflexivity.
  - reflexivity.
Defined.

(* ================================================================== *)
(** ** Further properties of the Kleinanzeigen loop *)
(* ================================================================== *)

Lemma page_numbers_S (first : Z) (n : nat) :
  page_numbers first (S n) = first :: page_numbers (first + 1) n.
Proof.
  unfold page_numbers. cbn [seq map]. rewrite Z.add_0_r. f_equal.
  rewrite <- seq_shift, map_map. apply map_ext. intros i. lia.
Qed.

Section KleinanzeigenLoop.

Variable w : World.
Variable c : Kleinanzeigen.KleinanzeigenClient.
Variable params : SearchParams.SearchParams.

(** One round of the loop of [FetchParts], up to the result of
    [fetchSinglePage]. *)
Ltac round :=
  cbn [Kleinanzeigen.pageLoop]; rewrite K_build_ok;
  unfold Kleinanzeigen.finish;
  cbv beta iota zeta delta [bind ret log_Printf emit fst snd].

(** Drops the log lines from the page requests of a history. *)
Ltac logs := rewrite ?page_requests_app; cbn [page_requests flat_map app]; rewrite ?app_nil_r.

Lemma K_pageLoop_requests (left : nat) :
  forall (page : Z) (allParts : list Part.Part) (h h' : History) (r : result (list Part.Part)),
    Kleinanzeigen.pageLoop w c params left page allParts h = (r, h') ->
    exists n, (n <= left)%nat /\ (left <> 0%nat -> n <> 0%nat)
              /\ page_requests h'
                 = (page_requests h ++ map (page_url c params) (page_numbers page n))%list
              /\ match r with
                 | Ok _ => True
                 | Err e => exists msg,
                     e = "failed to fetch page "
                         ++ fmt.itoa (page + Z.of_nat n - 1) ++ ": " ++ msg
                 end.
Proof.
  induction left as [|left IH]; intros page allParts h h' r H.
  - cbn [Kleinanzeigen.pageLoop] in H. unfold Kleinanzeigen.finish in H. run. inv H.
    exists 0%nat. repeat split; try lia. logs. cbn. now rewrite ?app_nil_r.
  - revert H. round.
    match goal with
    | |- context [Kleinanzeigen.fetchSinglePage w c ?u ?hh] =>
        destruct (Kleinanzeigen.fetchSinglePage w c u hh) as [[pp|e] h2] eqn:E
    end; apply K_fetchSinglePage_spec in E; destruct E as (Hp & _ & _);
      revert Hp; logs; intros Hp.
    2: { intros H. inv H. exists 1%nat. repeat split; try lia.
         - rewrite Hp. cbn. now rewrite Z.add_0_r.
         - exists e. now replace (page + Z.of_nat 1 - 1) with page by lia. }
    assert (Hone : forall l (hh : History),
               page_requests hh = page_requests h2 ->
               exists n, (n <= S left)%nat /\ (S left <> 0%nat -> n <> 0%nat)
                         /\ page_requests hh
                            = (page_requests h
                               ++ map (page_url c params) (page_numbers page n))%list
                         /\ match @Ok (list Part.Part) l with
                            | Ok _ => True
                            | Err e => exists msg,
                                e = "failed to fetch page "
                                    ++ fmt.itoa (page + Z.of_nat n - 1) ++ ": " ++ msg
                            end).
    { intros l hh Hh. exists 1%nat. repeat split; try lia.
      rewrite Hh, Hp. cbn. now rewrite Z.add_0_r. }
    destruct (len pp =? 0); [intros H; inv H; apply Hone; now logs|].
    destruct (len pp <? Kleinanzeigen.itemsPerPage); [intros H; inv H; apply Hone; now logs|].
    destruct ((0 <? SearchParams.Limit params)
              && (SearchParams.Limit params <=? len (allParts ++ pp)%list));
      [intros H; inv H; apply Hone; now logs|].
    intros H. apply IH in H. destruct H as (n & Hn & _ & Hreq & Hr).
    exists (S n). repeat split; try lia.
    + rewrite Hreq. logs. rewrite Hp, page_numbers_S, <- app_assoc. reflexivity.
    + destruct r as [parts|e]; [exact I|].
      destruct Hr as (msg & ->). exists msg.
      now replace (page + Z.of_nat (S n) - 1) with (page + 1 + Z.of_nat n - 1) by lia.
Qed.

Lemma K_pageLoop_bound (left : nat) :
  forall (page : Z) (allParts parts : list Part.Part) (h h' : History),
    Kleinanzeigen.pageLoop w c params left page allParts h = (Ok parts, h') ->
    0 < SearchParams.Limit params ->
    len allParts < SearchParams.Limit params ->
    len parts < SearchParams.Limit params + Kleinanzeigen.itemsPerPage.
Proof.
  induction left as [|left IH]; intros page allParts parts h h' H Hlim Hall.
  - cbn [Kleinanzeigen.pageLoop] in H. unfold Kleinanzeigen.finish in H. run. inv H.
    unfold Kleinanzeigen.itemsPerPage. lia.
  - revert H. round.
    match goal with
    | |- context [Kleinanzeigen.fetchSinglePage w c ?u ?hh] =>
        destruct (Kleinanzeigen.fetchSinglePage w c u hh) as [[pp|e] h2]
    end; [|discriminate].
    destruct (len pp =? 0);
      [intros H; inv H; unfold Kleinanzeigen.itemsPerPage; lia|].
    destruct (len pp <? Kleinanzeigen.itemsPerPage) eqn:Hshort.
    { intros H. inv H. apply Z.ltb_lt in Hshort.
      unfold len in *. rewrite length_app, Nat2Z.inj_add. lia. }
    destruct ((0 <? SearchParams.Limit params)
              && (SearchParams.Limit params <=? len (allParts ++ pp)%list)) eqn:Hreach.
    { intros H. inv H. unfold len, Kleinanzeigen.itemsPerPage.
      pose proof (firstn_le_length (Z.to_nat (SearchParams.Limit params))
                    (allParts ++ pp)%list). lia. }
    intros H. eapply IH; eauto.
    apply andb_false_iff in Hreach. destruct Hreach as [Hr|Hr].
    + apply Z.ltb_ge in Hr. lia.
    + apply Z.leb_gt in Hr. exact Hr.
Qed.

(** A page of at least a full page's items that reaches the limit ends the
    fetch with exactly [Limit] parts. *)
Lemma K_pageLoop_truncates (left : nat) (page : Z) (allParts : list Part.Part)
  (h : History) (n : nat) :
  serves w (page_url c params page) n ->
  Kleinanzeigen.itemsPerPage <= Z.of_nat n ->
  0 < SearchParams.Limit params <= len allParts + Z.of_nat n ->
  exists pageParts h',
    List.length pageParts = n
    /\ Kleinanzeigen.pageLoop w c params (S left) page allParts h
       = (Ok (firstn (Z.to_nat (SearchParams.Limit params)) (allParts ++ pageParts)%list), h')
    /\ page_requests h' = (page_requests h ++ [page_url c params page])%list.
Proof.
  intros Hs Hn Hlim. round.
  match goal with
  | |- context [Kleinanzeigen.fetchSinglePage w c ?u ?hh] =>
      destruct (K_fetchSinglePage_serves w c u n hh Hs) as (pp & h2 & E & Hl & Hp)
  end.
  rewrite E. revert Hp. logs. intros Hp. exists pp.
  assert (Hlen : len pp = Z.of_nat n) by (unfold len; now rewrite Hl).
  rewrite Hlen.
  replace (Z.of_nat n =? 0) with false
    by (symmetry; apply Z.eqb_neq; unfold Kleinanzeigen.itemsPerPage in Hn; lia).
  replace (Z.of_nat n <? Kleinanzeigen.itemsPerPage) with false
    by (symmetry; apply Z.ltb_ge; exact Hn).
  replace ((0 <? SearchParams.Limit params)
           && (SearchParams.Limit params <=? len (allParts ++ pp)%list)) with true.
  2: { symmetry. apply andb_true_iff. split; [apply Z.ltb_lt; lia|].
       apply Z.leb_le. unfold len in *. rewrite length_app, Nat2Z.inj_add. lia. }
  eexists. split; [exact Hl|]. split; [reflexivity|]. now logs.
Qed.

(** With every page full and no limit, the loop runs all its rounds. *)
Lemma K_pageLoop_ceiling (left : nat) :
  (forall page, serves w (page_url c params page) (Z.to_nat Kleinanzeigen.itemsPerPage)) ->
  SearchParams.Limit params <= 0 ->
  forall (page : Z) (allParts : list Part.Part) (h : History),
  exists parts h',
    Kleinanzeigen.pageLoop w c params left page allParts h = (Ok parts, h')
    /\ List.length parts
       = (List.length allParts + left * Z.to_nat Kleinanzeigen.itemsPerPage)%nat
    /\ page_requests h'
       = (page_requests h ++ map (page_url c params) (page_numbers page left))%list.
Proof.
  intros Hs Hlim. induction left as [|left IH]; intros page allParts h.
  - cbn [Kleinanzeigen.pageLoop]. unfold Kleinanzeigen.finish. run.
    eexists. eexists. split; [reflexivity|]. split; [cbn; lia|].
    logs. cbn. now rewrite ?app_nil_r.
  - destruct (K_pageLoop_full w c params left page allParts h (Hs page) (or_introl Hlim))
      as (pp & h1 & Hl & E & Hp).
    rewrite E. destruct (IH (page + 1) (allParts ++ pp)%list h1) as (parts & h' & E' & Hlen & Hreq).
    exists parts, h'. split; [exact E'|]. split.
    + rewrite Hlen, length_app. unfold len in Hl.
      change Kleinanzeigen.itemsPerPage with (Z.of_nat 25) in Hl.
      apply Nat2Z.inj in Hl. rewrite Hl. cbn. lia.
    + rewrite Hreq, Hp, page_numbers_S, <- app_assoc. reflexivity.
Qed.

End KleinanzeigenLoop.

(* ================================================================== *)
(** ** Further properties of the Kleinanzeigen client *)
(* ================================================================== *)

(** X1. Whatever the source answers, [FetchParts] asks for the result pages
    1, 2, ..., [n] in this order, for some [n] from 1 to 100, and for no
    other page. *)
Theorem pages_are_requested_in_order (w : World) (c : Kleinanzeigen.KleinanzeigenClient)
  (params : SearchParams.SearchParams) (h : History) :
  exists n, (1 <= n <= Z.to_nat Kleinanzeigen.maxPages)%nat
            /\ page_requests (snd (Kleinanzeigen.FetchParts w c params h))
               = (page_requests h ++ map (page_url c params) (page_numbers 1 n))%list.
Proof.
  unfold Kleinanzeigen.FetchParts. run.
  match goal with
  | |- context [Kleinanzeigen.pageLoop w c params ?l 1 [] ?hh] =>
      destruct (Kleinanzeigen.pageLoop w c params l 1 [] hh) as [r h'] eqn:E
  end.
  apply K_pageLoop_requests in E. destruct E as (n & Hn & Hpos & Hreq & _).
  exists n. split.
  - assert (n <> 0%nat) by (apply Hpos; discriminate). lia.
  - cbn [snd]. rewrite Hreq, page_requests_app. cbn [page_requests flat_map app].
    now rewrite app_nil_r.
Qed.

(** X2. With a limit above zero, a successful [FetchParts] returns fewer
    than [Limit + 25] parts. *)
Theorem limit_bounds_result (w : World) (c : Kleinanzeigen.KleinanzeigenClient)
  (params : SearchParams.SearchParams) (h h' : History) (parts : list Part.Part) :
  0 < SearchParams.Limit params ->
  Kleinanzeigen.FetchParts w c params h = (Ok parts, h') ->
  len parts < SearchParams.Limit params + Kleinanzeigen.itemsPerPage.
Proof.
  intros Hlim H. unfold Kleinanzeigen.FetchParts in H. run.
  eapply K_pageLoop_bound; eauto.
Qed.

(** A limit of 30 and pages of 25 and 10 listings: 35 parts. *)
Lemma limit_bounds_result_witness :
  exists parts,
    fst (Kleinanzeigen.FetchParts (Example.site [Example.listings 1 25; Example.listings 26 10])
           Example.client (Example.limit 30) []) = Ok parts
    /\ List.length parts = 35%nat
    /\ len parts < 30 + 25.
Proof.
  destruct (Kleinanzeigen.FetchParts
              (Example.site [Example.listings 1 25; Example.listings 26 10])
              Example.client (Example.limit 30) []) as [r h'] eqn:E.
  assert (Hr : exists parts, r = Ok parts /\ List.length parts = 35%nat).
  { apply (f_equal fst) in E. cbn [fst] in E. rewrite <- E.
    vm_compute. eexists. split; reflexivity. }
  destruct Hr as (parts & -> & Hlen). exists parts.
  split; [reflexivity|]. split; [exact Hlen|].
  apply (limit_bounds_result
           (Example.site [Example.listings 1 25; Example.listings 26 10])
           Example.client (Example.limit 30) [] h' parts); [reflexivity | exact E].
Defined.

(** X3. When the first page holds at least 25 items and the limit is above
    zero and not above their number, [FetchParts] returns exactly [Limit]
    parts after this one page request. *)
Theorem full_page_is_cut_to_limit (w : World) (c : Kleinanzeigen.KleinanzeigenClient)
  (params : SearchParams.SearchParams) (h : History) (n : nat) :
  serves w (page_url c params 1) n ->
  Kleinanzeigen.itemsPerPage <= Z.of_nat n ->
  0 < SearchParams.Limit params <= Z.of_nat n ->
  exists parts h',
    Kleinanzeigen.FetchParts w c params h = (Ok parts, h')
    /\ len parts = SearchParams.Limit params
    /\ page_requests h' = (page_requests h ++ [page_url c params 1])%list.
Proof.
  intros Hs Hn Hlim. unfold Kleinanzeigen.FetchParts. run.
  change (Z.to_nat Kleinanzeigen.maxPages) with (S 99).
  match goal with
  | |- context [Kleinanzeigen.pageLoop w c params (S 99) 1 [] ?hh] =>
      destruct (K_pageLoop_truncates w c params 99 1 [] hh n Hs Hn)
        as (pp & h' & Hl & E & Hp); [cbn; lia|]
  end.
  rewrite E. eexists. eexists. split; [reflexivity|]. split.
  - unfold len. cbn [app]. rewrite length_firstn, Hl. lia.
  - rewrite Hp, page_requests_app. cbn [page_requests flat_map app]. now rewrite app_nil_r.
Qed.

(** A limit of 5 and a first page of 25 listings: 5 parts. *)
Lemma full_page_is_cut_to_limit_witness :
  exists parts h',
    Kleinanzeigen.FetchParts (Example.site [Example.listings 1 25; Example.listings 26 25])
      Example.client (Example.limit 5) [] = (Ok parts, h')
    /\ len parts = 5
    /\ page_requests h' = [page_url Example.client (Example.limit 5) 1].
Proof.
  apply (full_page_is_cut_to_limit
           (Example.site [Example.listings 1 25; Example.listings 26 25])
           Example.client (Example.limit 5) [] 25).
  - site_serves (Example.listings 1 25).
  - vm_compute. discriminate.
  - split; vm_compute; [reflexivity | discriminate].
Defined.

(** X4. An error of [FetchParts] names the page whose fetch failed, and
    that page is the last one asked for: the parts of the pages before it
    are not returned. *)
Theorem error_names_failed_page (w : World) (c : Kleinanzeigen.KleinanzeigenClient)
  (params : SearchParams.SearchParams) (h h' : History) (e : error) :
  Kleinanzeigen.FetchParts w c params h = (Err e, h') ->
  exists n msg,
    (1 <= n <= Z.to_nat Kleinanzeigen.maxPages)%nat
    /\ page_requests h'
       = (page_requests h ++ map (page_url c params) (page_numbers 1 n))%list
    /\ e = "failed to fetch page " ++ fmt.itoa (Z.of_nat n) ++ ": " ++ msg.
Proof.
  intros H. unfold Kleinanzeigen.FetchParts in H. run.
  apply K_pageLoop_requests in H. destruct H as (n & Hn & Hpos & Hreq & msg & He).
  exists n, msg. split; [|split].
  - assert (n <> 0%nat) by (apply Hpos; discriminate). lia.
  - rewrite Hreq, page_requests_app. cbn [page_requests flat_map app]. now rewrite app_nil_r.
  - rewrite He. now replace (1 + Z.of_nat n - 1) with (Z.of_nat n) by lia.
Qed.

(** A full first page, then a second page that answers 503. *)
Lemma error_names_failed_page_witness :
  fst (Kleinanzeigen.FetchParts (Example.failing_after [Example.listings 1 25])
         Example.client Example.no_params [])
  = Err "failed to fetch page 2: unexpected status code: 503"
  /\ exists n msg,
      (1 <= n <= 100)%nat
      /\ page_requests (snd (Kleinanzeigen.FetchParts
                               (Example.failing_after [Example.listings 1 25])
                               Example.client Example.no_params []))
         = map (page_url Example.client Example.no_params) (page_numbers 1 n)
      /\ "failed to fetch page 2: unexpected status code: 503"
         = "failed to fetch page " ++ fmt.itoa (Z.of_nat n) ++ ": " ++ msg.
Proof.
  destruct (Kleinanzeigen.FetchParts (Example.failing_after [Example.listings 1 25])
              Example.client Example.no_params []) as [r h'] eqn:E.
  assert (Hr : r = Err "failed to fetch page 2: unexpected status code: 503").
  { apply (f_equal fst) in E. cbn [fst] in E. rewrite <- E. vm_compute. reflexivity. }
  subst r. split; [reflexivity|].
  exact (error_names_failed_page _ _ _ _ _ _ E).
Defined.

(** X5. From a source whose every page is full, and without a limit,
    [FetchParts] stops at its ceiling: it asks for the pages 1 to 100 and
    returns their 2500 parts, with no error. *)
Theorem page_ceiling_ends_fetch (w : World) (c : Kleinanzeigen.KleinanzeigenClient)
  (params : SearchParams.SearchParams) (h : History) :
  (forall page, serves w (page_url c params page) (Z.to_nat Kleinanzeigen.itemsPerPage)) ->
  SearchParams.Limit params <= 0 ->
  exists parts h',
    Kleinanzeigen.FetchParts w c params h = (Ok parts, h')
    /\ List.length parts = 2500%nat
    /\ page_requests h'
       = (page_requests h ++ map (page_url c params) (page_numbers 1 100))%list.
Proof.
  intros Hs Hlim. unfold Kleinanzeigen.FetchParts. run.
  match goal with
  | |- context [Kleinanzeigen.pageLoop w c params ?l 1 [] ?hh] =>
      destruct (K_pageLoop_ceiling w c params l Hs Hlim 1 [] hh)
        as (parts & h' & E & Hlen & Hreq)
  end.
  rewrite E. exists parts, h'. split; [reflexivity|]. split.
  - rewrite Hlen. reflexivity.
  - rewrite Hreq, page_requests_app. cbn [page_requests flat_map app].
    now rewrite app_nil_r.
Qed.

Lemma page_ceiling_ends_fetch_witness :
  exists parts h',
    Kleinanzeigen.FetchParts Example.endless Example.client Example.no_params []
    = (Ok parts, h')
    /\ List.length parts = 2500%nat
    /\ List.length (page_requests h') = 100%nat.
Proof.
  destruct (page_ceiling_ends_fetch Example.endless Example.client Example.no_params [])
    as (parts & h' & E & Hlen & Hreq).
  - intros page h. exists (Example.listings 1 25). split; [|vm_compute; reflexivity].
    eexists {| http.StatusCode := 200;
               http.body := Example.html_page (Example.listings 1 25) |}, "<!DOCTYPE html>".
    repeat split; reflexivity.
  - vm_compute. discriminate.
  - exists parts, h'. split; [exact E|]. split; [exact Hlen|].
    rewrite Hreq. vm_compute. reflexivity.
Defined.

Section KleinanzeigenItems.

Variable w : World.
Variable c : Kleinanzeigen.KleinanzeigenClient.

Lemma K_fetchImage_result (imageURL : string) (h h' : History) (r : result string) :
  Kleinanzeigen.fetchImageAsBase64 w imageURL h = (r, h') ->
  match r with
  | Ok b => image_of (roundTrip w h (Kleinanzeigen_image_request imageURL)) = Some b
  | Err _ => image_of (roundTrip w h (Kleinanzeigen_image_request imageURL)) = None
  end.
Proof.
  unfold Kleinanzeigen.fetchImageAsBase64, image_of, Kleinanzeigen_image_request.
  intros H. run. repeat branch; inv H; bools; reflexivity.
Qed.

Lemma K_extractPart_image (s : Article.Article) (h h' : History) (p : Part.Part) :
  Kleinanzeigen.extractPart w c s h = (Ok p, h') ->
  match Article.img_src s with
  | Some imgSrc =>
      if String.eqb imgSrc "" then Part.ImageBase64 p = ""
      else exists h1,
          Part.ImageBase64 p
          = match image_of (roundTrip w h1 (Kleinanzeigen_image_request imgSrc)) with
            | Some b => b
            | None => ""
            end
  | None => Part.ImageBase64 p = ""
  end.
Proof.
  unfold Kleinanzeigen.extractPart. intros H. run.
  repeat branch; inv H.
  all: try reflexivity.
  all: match goal with
       | E : Kleinanzeigen.fetchImageAsBase64 _ _ ?hh = _ |- _ =>
           apply K_fetchImage_result in E; exists hh; rewrite E; reflexivity
       end.
Qed.

(** The warning [extractPart] logs for a date text it cannot use. *)
Lemma K_extractPart_date_warning (s : Article.Article) (h h' : History) (r : result Part.Part) :
  Kleinanzeigen.extractPart w c s h = (r, h') ->
  let dateText := strings.TrimSpace (Article.date_text s) in
  (dateText = "" -> In (Logged "[KleinanzeigenClient] WARNING: No date text found") h')
  /\ (dateText <> "" ->
      time.IsZero (Kleinanzeigen.creationDateOf (clock w h) dateText) = true ->
      In (Logged ("[KleinanzeigenClient] WARNING: Could not parse date text '"
                  ++ dateText ++ "'")) h').
Proof.
  intros H. cbv zeta. unfold Kleinanzeigen.extractPart in H. run.
  destruct (negb (strings.TrimSpace (Article.date_text s) =? "")%string) eqn:Hd.
  - apply negb_true_iff, String.eqb_neq in Hd. split; [contradiction|]. intros _ Hz.
    rewrite Hz in H. cbn [negb] in H.
    repeat branch; inv H.
    all: repeat match goal with
           | E : Kleinanzeigen.fetchImageAsBase64 _ _ _ = _ |- _ =>
               apply K_fetchImage_history in E; destruct E as (req & -> & _)
           end.
    all: rewrite ?in_app_iff; cbn [In]; auto 10.
  - apply negb_false_iff, String.eqb_eq in Hd. split; [|contradiction]. intros _.
    repeat branch; inv H.
    all: repeat match goal with
           | E : Kleinanzeigen.fetchImageAsBase64 _ _ _ = _ |- _ =>
               apply K_fetchImage_history in E; destruct E as (req & -> & _)
           end.
    all: rewrite ?in_app_iff; cbn [In]; auto 10.
Qed.

End KleinanzeigenItems.

Transparent Kleinanzeigen.creationDateOf.

(** A date text with neither of the two words nor a dot is no date. *)
Lemma creationDateOf_unrecognized (now : time.Time) (dateText : string) :
  strings.HasPrefix dateText "Heute, " = false ->
  strings.HasPrefix dateText "Gestern, " = false ->
  strings.Contains dateText "." = false ->
  Kleinanzeigen.creationDateOf now dateText = time.zero.
Proof.
  intros H1 H2 H3. unfold Kleinanzeigen.creationDateOf. now rewrite H1, H2, H3.
Qed.

Opaque Kleinanzeigen.creationDateOf.

(** X6. An article with identity, link and title is extracted whatever its
    date text says. A text that is empty, or that has neither "Heute, " nor
    "Gestern, " in front nor a dot in it, leaves the creation date at the
    zero time, and a warning is logged. *)
Theorem unreadable_date_is_left_zero (w : World) (c : Kleinanzeigen.KleinanzeigenClient)
  (s : Article.Article) (h : History) :
  extractable s = true ->
  let dateText := strings.TrimSpace (Article.date_text s) in
  strings.HasPrefix dateText "Heute, " = false ->
  strings.HasPrefix dateText "Gestern, " = false ->
  strings.Contains dateText "." = false ->
  exists p h',
    Kleinanzeigen.extractPart w c s h = (Ok p, h')
    /\ extracted_from c s p
    /\ Part.CreationDate p = time.zero
    /\ exists line,
        In (Logged line) h'
        /\ strings.HasPrefix line "[KleinanzeigenClient] WARNING: " = true.
Proof.
  intros Hx dateText H1 H2 H3.
  pose proof (creationDateOf_unrecognized (clock w h) dateText H1 H2 H3) as Hzero.
  destruct (Kleinanzeigen.extractPart w c s h) as [[p|e] h'] eqn:E.
  2: { apply K_extractPart_spec in E. destruct E as (_ & _ & Hx' & _). congruence. }
  exists p, h'. split; [reflexivity|].
  pose proof (K_extractPart_date_warning w c s h h' (Ok p) E) as (Hw0 & Hw1).
  apply K_extractPart_spec in E. destruct E as (_ & _ & _ & Hfrom & Hdate).
  split; [exact Hfrom|]. split.
  - rewrite Hdate. unfold Kleinanzeigen.CreationDate_for. fold dateText.
    destruct (dateText =? "")%string; [reflexivity|].
    cbv zeta. rewrite Hzero. reflexivity.
  - destruct (String.eqb_spec dateText "") as [He|Hne].
    + eexists. split; [apply Hw0; exact He|]. vm_compute. reflexivity.
    + eexists. split.
      * apply Hw1; [exact Hne|]. fold dateText. rewrite Hzero. vm_compute. reflexivity.
      * apply (HasPrefix_append "[KleinanzeigenClient] WARNING: "
                 ("Could not parse date text '" ++ dateText ++ "'")).
Qed.

(** The date text "gerade eben". *)
Lemma unreadable_date_is_left_zero_witness :
  exists p h',
    Kleinanzeigen.extractPart Example.offline Example.client
      (Example.listing_dated "gerade eben" 4) [] = (Ok p, h')
    /\ Part.ID p = "4"
    /\ Part.CreationDate p = time.zero.
Proof.
  destruct (unreadable_date_is_left_zero Example.offline Example.client
              (Example.listing_dated "gerade eben" 4) [])
    as (p & h' & E & (Hid & _) & Hdate & _); try (vm_compute; reflexivity).
  exists p, h'. split; [exact E|]. split; [|exact Hdate].
  vm_compute in Hid. injection Hid as Hid. symmetry. exact Hid.
Defined.

(** X7. When the article has a picture, [extractPart] still returns the
    part if the picture cannot be had; the part then has no image. When the
    answer has status 200 and a readable body, the part holds the base64
    text of that body. *)
Theorem image_is_inlined_or_left_out (w : World) (c : Kleinanzeigen.KleinanzeigenClient)
  (s : Article.Article) (h : History) (imgSrc : string) (answer : option string) :
  extractable s = true ->
  Article.img_src s = Some imgSrc ->
  imgSrc <> "" ->
  (forall h1, image_of (roundTrip w h1 (Kleinanzeigen_image_request imgSrc)) = answer) ->
  exists p h',
    Kleinanzeigen.extractPart w c s h = (Ok p, h')
    /\ Part.ImageBase64 p = match answer with Some b => b | None => "" end.
Proof.
  intros Hx Himg Hne Hans.
  destruct (Kleinanzeigen.extractPart w c s h) as [[p|e] h'] eqn:E.
  2: { apply K_extractPart_spec in E. destruct E as (_ & _ & Hx' & _). congruence. }
  exists p, h'. split; [reflexivity|].
  apply K_extractPart_image in E. rewrite Himg in E.
  apply String.eqb_neq in Hne. rewrite Hne in E.
  destruct E as (h1 & ->). now rewrite Hans.
Qed.

(** A picture of the three bytes "Man", and a picture that is out of reach. *)
Lemma image_is_inlined_or_left_out_witness :
  (exists p h',
      Kleinanzeigen.extractPart Example.gallery Example.client (Example.pictured 1) []
      = (Ok p, h')
      /\ Part.ImageBase64 p = "TWFu")
  /\ (exists p h',
        Kleinanzeigen.extractPart Example.offline Example.client (Example.pictured 1) []
        = (Ok p, h')
        /\ Part.ImageBase64 p = "").
Proof.
  split.
  - apply (image_is_inlined_or_left_out Example.gallery Example.client (Example.pictured 1) []
             "//img.example/x.jpg" (Some "TWFu")).
    + vm_compute. reflexivity.
    + reflexivity.
    + discriminate.
    + intros h1. vm_compute. reflexivity.
  - apply (image_is_inlined_or_left_out Example.offline Example.client (Example.pictured 1) []
             "//img.example/x.jpg" None).
    + vm_compute. reflexivity.
    + reflexivity.
    + discriminate.
    + intros h1. vm_compute. reflexivity.
Defined.

(* ================================================================== *)
(** ** Further properties of the SchadeAutos client *)
(* ================================================================== *)

Section SchadeAutosMore.

Variable w : World.
Variable c : SchadeAutos.SchadeAutosClient.

Lemma S_convert_stocked (entries : list (string * stockPart.stockPart)) :
  forall (parts parts' : list Part.Part) (h h' : History),
    SchadeAutos.convert w c entries parts h = (Returns (Ok parts'), h') ->
    exists ps, parts' = (parts ++ ps)%list /\ Forall2 (stocked c) entries ps.
Proof.
  induction entries as [|[partID sp] rest IH]; intros parts parts' h h' H.
  - cbn [SchadeAutos.convert] in H. run. inv H.
    exists []. rewrite app_nil_r. split; [reflexivity | constructor].
  - cbn [SchadeAutos.convert] in H.
    destruct (SchadeAutos.parseEnterDate (stockPart.EnterDate sp)) as [enterDate|] eqn:Hd;
      [|run; discriminate].
    run.
    destruct (negb (stockPart.Picture sp =? "")%string) eqn:Hpic.
    1: destruct (SchadeAutos.fetchImageAsBase64 w c (stockPart.Picture sp) h) as [[img|e] h1].
    all: apply IH in H; destruct H as (ps & -> & Hps).
    all: eexists (_ :: ps); rewrite <- app_assoc; split; [reflexivity|].
    all: constructor; [|exact Hps].
    all: unfold stocked, SchadeAutos.buildPartURL; cbn; repeat split; trivial.
    all: try (apply negb_true_iff, String.eqb_neq in Hpic; intros; contradiction).
Qed.

Lemma S_convert_requests (entries : list (string * stockPart.stockPart)) :
  forall (parts : list Part.Part) (h h' : History) (r : outcome (list Part.Part)),
    SchadeAutos.convert w c entries parts h = (r, h') ->
    exists images, requested h' = (requested h ++ images)%list
                   /\ Forall (fun mu => fst mu = "GET") images
                   /\ (List.length images <= List.length entries)%nat.
Proof.
  induction entries as [|[partID sp] rest IH]; intros parts h h' r H.
  - cbn [SchadeAutos.convert] in H. run. inv H.
    exists []. rewrite app_nil_r. repeat split; [constructor | cbn; lia].
  - cbn [SchadeAutos.convert] in H.
    destruct (SchadeAutos.parseEnterDate (stockPart.EnterDate sp)) as [enterDate|].
    2: { run. inv H. exists []. rewrite app_nil_r. repeat split; [constructor | cbn; lia]. }
    run.
    destruct (negb (stockPart.Picture sp =? "")%string).
    + destruct (SchadeAutos.fetchImageAsBase64 w c (stockPart.Picture sp) h)
        as [[img|e] h1] eqn:E;
        apply S_fetchImage_history in E; destruct E as (req & -> & Hm & _);
        apply IH in H; destruct H as (images & Hreq & Hget & Hlen);
        exists ((http.Method req, http.URL req) :: images);
        (split; [|split; [constructor; [exact Hm | exact Hget] | cbn; lia]]);
        rewrite Hreq, ?requested_app; cbn; rewrite <- ?app_assoc; reflexivity.
    + apply IH in H. destruct H as (images & Hreq & Hget & Hlen).
      exists images. repeat split; trivial. cbn [List.length]. lia.
Qed.

End SchadeAutosMore.

Lemma stocked_ids (c : SchadeAutos.SchadeAutosClient)
  (entries : list (string * stockPart.stockPart)) (parts : list Part.Part) :
  Forall2 (stocked c) entries parts -> map Part.ID parts = map fst entries.
Proof.
  induction 1 as [|entry p entries parts (Hid & _) _ IH]; cbn [map]; [reflexivity|].
  now rewrite Hid, IH.
Qed.

(** X8. When the search is answered with status 200 and stock parts that
    all carry a date [parseEnterDate] reads, [FetchParts] returns one part
    per entry, in the order the entries are visited, with the fields of
    its entry; no outcome of an image request changes that. *)
Theorem dated_stock_is_converted (w : World) (c : SchadeAutos.SchadeAutosClient)
  (params : SearchParams.SearchParams) (h : History)
  (apiResponse : schadeAutosResponse.schadeAutosResponse) :
  answers w c params h apiResponse ->
  Forall (fun entry => ~ undated entry) (schadeAutosResponse.StockParts apiResponse) ->
  exists parts h',
    SchadeAutos.FetchParts w c params h = (Returns (Ok parts), h')
    /\ Forall2 (stocked c) (schadeAutosResponse.StockParts apiResponse) parts.
Proof.
  intros Ha Hall.
  destruct (S_FetchParts_answered w c params h apiResponse Ha) as (h1 & ->).
  destruct (SchadeAutos.convert w c (schadeAutosResponse.StockParts apiResponse) [] h1)
    as [r h'] eqn:E.
  pose proof (S_convert_spec w c _ _ _ _ _ E) as Hspec.
  destruct r as [[parts|e]|v|]; try contradiction.
  - apply S_convert_stocked in E. destruct E as (ps & -> & Hps). eauto.
  - destruct Hspec as (_ & Hex). exfalso.
    apply Exists_exists in Hex. destruct Hex as (entry & Hin & Hun).
    rewrite Forall_forall in Hall. exact (Hall entry Hin Hun).
Qed.

(** Two dated parts, in a world that answers every request alike. *)
Lemma dated_stock_is_converted_witness :
  exists parts h',
    SchadeAutos.FetchParts
      (Example.shop [("71", Example.stock "2024-01-05"); ("12", Example.stock "05/01/2024")])
      (SchadeAutos.NewSchadeAutosClient 4) Example.no_params []
    = (Returns (Ok parts), h')
    /\ map Part.ID parts = ["71"; "12"].
Proof.
  destruct (dated_stock_is_converted
              (Example.shop [("71", Example.stock "2024-01-05");
                             ("12", Example.stock "05/01/2024")])
              (SchadeAutos.NewSchadeAutosClient 4) Example.no_params []
              {| schadeAutosResponse.Limited := false;
                 schadeAutosResponse.Descr := "";
                 schadeAutosResponse.StockParts :=
                   [("71", Example.stock "2024-01-05");
                    ("12", Example.stock "05/01/2024")] |})
    as (parts & h' & E & Hps).
  - eexists. repeat split; reflexivity.
  - repeat constructor; vm_compute; discriminate.
  - exists parts, h'. split; [exact E|].
    rewrite (stocked_ids _ _ _ Hps). reflexivity.
Defined.

(** X9. [FetchParts] sends one POST, to the search endpoint, before
    anything else; every other request it sends is a GET for a picture,
    at most one per entry of the response. *)
Theorem one_post_then_pictures (w : World) (c : SchadeAutos.SchadeAutosClient)
  (params : SearchParams.SearchParams) (h : History) :
  exists images,
    requested (snd (SchadeAutos.FetchParts w c params h))
    = (requested h
       ++ ("POST", (SchadeAutos.baseURL c ++ "/parts/eng/search.json")%string) :: images)%list
    /\ Forall (fun mu => fst mu = "GET") images
    /\ forall apiResponse,
        answers w c params h apiResponse ->
        (List.length images <= List.length (schadeAutosResponse.StockParts apiResponse))%nat.
Proof.
  unfold SchadeAutos.FetchParts, answers. run.
  destruct (roundTrip w h (SchadeAutos.searchRequest c params)) as [e|e|resp] eqn:Hr.
  1, 2: exists []; cbn [snd]; rewrite requested_sent; repeat split;
        [constructor | intros a (resp' & Hr' & _); discriminate].
  destruct (negb (http.StatusCode resp =? http.StatusOK)) eqn:Hst.
  { exists []. cbn [snd]. rewrite requested_sent. repeat split; [constructor|].
    intros a (resp' & Hr' & Hs & _). inv Hr'. rewrite Hs in Hst. discriminate. }
  destruct (http.as_schadeAutosResponse (http.body resp)) as [apiResponse|e] eqn:Hb.
  2: { exists []. cbn [snd]. rewrite requested_sent. repeat split; [constructor|].
       intros a (resp' & Hr' & _ & Hb'). inv Hr'. congruence. }
  match goal with
  | |- context [SchadeAutos.convert w c ?es [] ?hh] =>
      destruct (SchadeAutos.convert w c es [] hh) as [r h'] eqn:E
  end.
  apply S_convert_requests in E. destruct E as (images & Hreq & Hget & Hlen).
  exists images. cbn [snd]. split; [|split; [exact Hget|]].
  - rewrite Hreq, requested_app, requested_sent. cbn [requested requests flat_map map app].
    rewrite <- !app_assoc. reflexivity.
  - intros a (resp' & Hr' & _ & Hb'). inv Hr'. congruence.
Qed.

(** X10. The form of the SchadeAutos search does not read the vehicle
    fields of the parameters, and a zero year or limit is the same request
    as the default (1995, 2000, 3000); the result pages of the Kleinanzeigen
    client do not depend on the parameters at all. *)
Theorem search_target_is_fixed (params params' : SearchParams.SearchParams) :
  (forall c, SchadeAutos.searchRequest c params
             = SchadeAutos.searchRequest c (with_defaults params))
  /\ (forall c page, page_url c params page = page_url c params' page).
Proof.
  split.
  - intros c. unfold SchadeAutos.searchRequest, SchadeAutos.formData, with_defaults.
    cbn [SearchParams.YearFrom SearchParams.YearTo SearchParams.Offset SearchParams.Limit].
    destruct (SearchParams.YearFrom params =? 0) eqn:H1;
      destruct (SearchParams.YearTo params =? 0) eqn:H2;
      destruct (SearchParams.Limit params =? 0) eqn:H3;
      rewrite ?H1, ?H2, ?H3; reflexivity.
  - reflexivity.
Qed.

(* ================================================================== *)
(** ** Further properties of the eBay client *)
(* ================================================================== *)

Lemma searches_app (h1 h2 : History) :
  searches (h1 ++ h2)%list = (searches h1 ++ searches h2)%list.
Proof. unfold searches. now rewrite requests_app, filter_app. Qed.

Lemma offsets_S (first : Z) (n : nat) :
  offsets first (S n) = first :: offsets (first + Ebay.pageSize) n.
Proof.
  unfold offsets. cbn [seq map]. rewrite Z.mul_0_r, Z.add_0_r. f_equal.
  rewrite <- seq_shift, map_map. apply map_ext. intros i. lia.
Qed.

Section EbayMore.

Variable w : World.

Lemma E_GetAccessToken_result (c : Ebay.EbayClient) (h : History) :
  snd (Ebay.GetAccessToken w c h) = (h ++ [Sent (Ebay_token_request c)])%list
  /\ match fst (Ebay.GetAccessToken w c h) with
     | (None, c') =>
         exists tokenResp,
           issues (roundTrip w h (Ebay_token_request c)) tokenResp
           /\ c' = Ebay.set_accessToken c (TokenResponse.AccessToken tokenResp)
     | (Some e, c') =>
         c' = c /\ forall tokenResp, ~ issues (roundTrip w h (Ebay_token_request c)) tokenResp
     end.
Proof.
  unfold Ebay.GetAccessToken, issues. fold (Ebay_token_request c). run.
  destruct (roundTrip w h (Ebay_token_request c)) as [e|e|resp] eqn:Hr; cbn [fst snd].
  1, 2: split; [reflexivity|]; split; [reflexivity|];
        intros t (resp' & b & Hr' & _); discriminate.
  destruct (http.ReadAll (http.body resp)) as [body|e] eqn:Hread; cbn [fst snd].
  2: { split; [reflexivity|]. split; [reflexivity|].
       intros t (resp' & b & Hr' & _ & Hb & _). inv Hr'. congruence. }
  destruct (negb (http.StatusCode resp =? http.StatusOK)) eqn:Hst; cbn [fst snd].
  { split; [reflexivity|]. split; [reflexivity|].
    intros t (resp' & b & Hr' & Hs & _). inv Hr'. rewrite Hs in Hst. discriminate. }
  apply negb_false_iff, Z.eqb_eq in Hst.
  destruct (http.as_TokenResponse (http.body resp)) as [tokenResp|e] eqn:Htok; cbn [fst snd].
  - split; [reflexivity|]. exists tokenResp. split; [|reflexivity]. eauto 10.
  - split; [reflexivity|]. split; [reflexivity|].
    intros t (resp' & b & Hr' & _ & _ & Ht). inv Hr'. congruence.
Qed.

Lemma E_convert_listed (c : Ebay.EbayClient) (items : list EbayItem.EbayItem) :
  forall (parts parts' : list Part.Part) (h h' : History),
    Ebay.convert w c items parts h = (parts', h') ->
    searches h' = searches h
    /\ exists ps, parts' = (parts ++ ps)%list /\ Forall2 (listed c) items ps.
Proof.
  induction items as [|item rest IH]; intros parts parts' h h' H.
  - cbn [Ebay.convert] in H. run. inv H. split; [reflexivity|].
    exists []. rewrite app_nil_r. split; [reflexivity | constructor].
  - cbn [Ebay.convert] in H. run.
    assert (Hstep : forall part h1,
               listed c item part ->
               searches h1 = searches h ->
               Ebay.convert w c rest (parts ++ [part])%list h1 = (parts', h') ->
               searches h' = searches h
               /\ exists ps, parts' = (parts ++ ps)%list
                             /\ Forall2 (listed c) (item :: rest) ps).
    { intros part h1 Hl Hh1 Hc. apply IH in Hc.
      destruct Hc as (Hs & ps & -> & Hps). split; [congruence|].
      exists (part :: ps). rewrite <- app_assoc. split; [reflexivity|]. now constructor. }
    destruct (EbayItem.ThumbnailImages item) as [|imageURL others] eqn:Hth.
    { eapply Hstep; [| |exact H]; [|reflexivity].
      unfold listed. cbn. repeat split; trivial. }
    destruct (negb (imageURL =? "")%string).
    2: { eapply Hstep; [| |exact H]; [|reflexivity].
         unfold listed. cbn. repeat split; trivial. }
    destruct (Ebay.fetchImageAsBase64 w imageURL h) as [[img|e] h1] eqn:E;
      apply E_fetchImage_history in E; destruct E as (req & -> & Hreq & _);
      (eapply Hstep; [| |exact H];
       [unfold listed; cbn; repeat split; trivial; intros; congruence|]);
      rewrite searches_app; unfold searches at 2; cbn [requests flat_map app filter];
      rewrite Hreq; now rewrite app_nil_r.
Qed.

Lemma E_searchLoop_searches (c : Ebay.EbayClient) (fuel : nat) :
  forall (offset : Z) (allParts : list Part.Part) (h h' : History)
         (r : outcome (list Part.Part)),
    Ebay.searchLoop w c fuel offset allParts h = (r, h') ->
    exists n, (n <= fuel)%nat
              /\ searches h' = (searches h ++ map (Ebay.searchRequest c) (offsets offset n))%list
              /\ (r = OutOfFuel -> n = fuel).
Proof.
  induction fuel as [|fuel IH]; intros offset allParts h h' r H.
  - cbn [Ebay.searchLoop] in H. run. inv H. exists 0%nat.
    repeat split; trivial. cbn. now rewrite app_nil_r.
  - cbn [Ebay.searchLoop] in H. run.
    assert (Hsent : searches (h ++ [Sent (Ebay.searchRequest c offset)])%list
                    = (searches h ++ [Ebay.searchRequest c offset])%list).
    { rewrite searches_app. reflexivity. }
    assert (Hone : forall (hh : History) r0,
               searches hh = (searches h ++ [Ebay.searchRequest c offset])%list ->
               r0 <> OutOfFuel ->
               exists n, (n <= S fuel)%nat
                         /\ searches hh
                            = (searches h
                               ++ map (Ebay.searchRequest c) (offsets offset n))%list
                         /\ (r0 = @OutOfFuel (list Part.Part) -> n = S fuel)).
    { intros hh r0 Hh Hr0. exists 1%nat. repeat split; try lia; [|contradiction].
      rewrite Hh. cbn. now rewrite ?Z.mul_0_r, ?Z.add_0_r. }
    destruct (roundTrip w h (Ebay.searchRequest c offset)) as [e|e|resp];
      [inv H; apply Hone; [exact Hsent | discriminate] ..|].
    destruct (negb (http.StatusCode resp =? http.StatusOK));
      [inv H; apply Hone; [exact Hsent | discriminate]|].
    destruct (http.as_EbayBrowseResponse (http.body resp)) as [apiResponse|e];
      [|inv H; apply Hone; [exact Hsent | discriminate]].
    destruct (Ebay.convert w c (EbayBrowseResponse.ItemSummaries apiResponse) []
                (h ++ [Sent (Ebay.searchRequest c offset)])%list) as [pp h1] eqn:E.
    apply E_convert_listed in E. destruct E as (Hs & _).
    destruct (len pp <? Ebay.pageSize).
    + inv H. apply Hone; [congruence | discriminate].
    + apply IH in H. destruct H as (n & Hn & Hreq & Hout).
      exists (S n). repeat split; try lia.
      * rewrite Hreq, Hs, Hsent, offsets_S, <- app_assoc. reflexivity.
      * intros Hr. rewrite (Hout Hr). reflexivity.
Qed.

End EbayMore.

(** X11. [GetAccessToken] sends one request, a POST with the client
    credentials in a Basic authorization header, to the sandbox or the
    production token endpoint as the client says. It returns nil and
    stores the token exactly when the answer has status 200 and a readable
    body that decodes; otherwise it returns an error and leaves the client
    as it was. *)
Theorem token_is_stored_on_success (w : World) (c : Ebay.EbayClient) (h : History) :
  snd (Ebay.GetAccessToken w c h) = (h ++ [Sent (Ebay_token_request c)])%list
  /\ match fst (Ebay.GetAccessToken w c h) with
     | (None, c') =>
         exists tokenResp,
           issues (roundTrip w h (Ebay_token_request c)) tokenResp
           /\ c' = Ebay.set_accessToken c (TokenResponse.AccessToken tokenResp)
     | (Some e, c') =>
         c' = c /\ forall tokenResp, ~ issues (roundTrip w h (Ebay_token_request c)) tokenResp
     end.
Proof. apply E_GetAccessToken_result. Qed.

(** X12. [FetchParts] first asks for a token, then searches at the offsets
    0, 200, 400, ... in this order, never more often than its rounds; each
    search carries the token the client holds after the token request, and
    goes to the production search endpoint whether the client is for the
    sandbox or not. *)
Theorem searches_follow_token (w : World) (c : Ebay.EbayClient) (fuel : nat)
  (params : SearchParams.SearchParams) (h : History) :
  let '(r, c1, h') := Ebay.FetchParts w c fuel params h in
  c1 = snd (fst (Ebay.GetAccessToken w c (h ++ [Logged "Fetching parts from eBay"])%list))
  /\ exists n rest,
      (n <= fuel)%nat
      /\ searches h' = (searches h ++ map (Ebay.searchRequest c1) (offsets 0 n))%list
      /\ requests h' = (requests h ++ Ebay_token_request c :: rest)%list
      /\ Forall (fun req =>
                   http.Header req = [("Authorization", "Bearer " ++ Ebay.accessToken c1)]
                   /\ strings.HasPrefix (http.URL req) Ebay.prodSearchURL = true)
           (map (Ebay.searchRequest c1) (offsets 0 n)).
Proof.
  unfold Ebay.FetchParts. run.
  pose proof (E_GetAccessToken_result w c (h ++ [Logged "Fetching parts from eBay"])%list)
    as (Hh & _).
  destruct (Ebay.GetAccessToken w c (h ++ [Logged "Fetching parts from eBay"])%list)
    as [[e c1] h0] eqn:Et.
  cbn [fst snd] in *. subst h0.
  match goal with
  | |- context [Ebay.searchLoop w c1 fuel 0 [] ?hh] =>
      destruct (Ebay.searchLoop w c1 fuel 0 [] hh) as [r h'] eqn:El
  end.
  split; [reflexivity|].
  pose proof El as Hreqs.
  apply E_searchLoop_searches in El. destruct El as (n & Hn & Hs & _).
  assert (Hext : exists rest,
             requests h' = (requests h ++ Ebay_token_request c :: rest)%list).
  { clear Hs. revert Hreqs. generalize (@nil Part.Part). generalize 0.
    match goal with
    | |- forall z l, Ebay.searchLoop w c1 fuel z l ?hh = _ -> _ =>
        assert (Hh0 : exists rest0,
                   requests hh = (requests h ++ Ebay_token_request c :: rest0)%list)
    end.
    { exists []. rewrite !requests_app. cbn [requests flat_map app].
      now rewrite !app_nil_r. }
    match goal with
    | |- forall z l, Ebay.searchLoop w c1 fuel z l ?hh = _ -> _ => generalize dependent hh
    end.
    clear Hn. revert r h'.
    induction fuel as [|fuel IH]; intros r h' hh Hh0 z l H.
    - cbn [Ebay.searchLoop] in H. run. inv H. exact Hh0.
    - cbn [Ebay.searchLoop] in H. run.
      destruct Hh0 as (rest0 & Hh0).
      assert (Hsent : exists rest1,
                 requests (hh ++ [Sent (Ebay.searchRequest c1 z)])%list
                 = (requests h ++ Ebay_token_request c :: rest1)%list).
      { exists (rest0 ++ [Ebay.searchRequest c1 z])%list.
        rewrite requests_app, Hh0, <- app_assoc. reflexivity. }
      destruct (roundTrip w hh (Ebay.searchRequest c1 z)) as [e0|e0|resp];
        [inv H; exact Hsent ..|].
      destruct (negb (http.StatusCode resp =? http.StatusOK)); [inv H; exact Hsent|].
      destruct (http.as_EbayBrowseResponse (http.body resp)) as [apiResponse|e0];
        [|inv H; exact Hsent].
      destruct (Ebay.convert w c1 (EbayBrowseResponse.ItemSummaries apiResponse) []
                  (hh ++ [Sent (Ebay.searchRequest c1 z)])%list) as [pp h1] eqn:E.
      assert (Hconv : exists rest2,
                 requests h1 = (requests h ++ Ebay_token_request c :: rest2)%list).
      { clear H. destruct Hsent as (rest1 & Hsent). revert E Hsent.
        generalize (hh ++ [Sent (Ebay.searchRequest c1 z)])%list.
        generalize (@nil Part.Part). revert pp h1 rest1.
        induction (EbayBrowseResponse.ItemSummaries apiResponse) as [|item items IHi];
          intros pp h1 rest1 l0 h2 E Hsent.
        - cbn [Ebay.convert] in E. run. inv E. eauto.
        - cbn [Ebay.convert] in E. run.
          destruct (EbayItem.ThumbnailImages item) as [|imageURL others];
            [eapply IHi; eauto|].
          destruct (negb (imageURL =? "")%string); [|eapply IHi; eauto].
          destruct (Ebay.fetchImageAsBase64 w imageURL h2) as [[img|e1] h3] eqn:Ei;
            apply E_fetchImage_history in Ei; destruct Ei as (req & -> & _);
            (eapply IHi; [exact E|]);
            rewrite requests_app, Hsent, <- app_assoc; reflexivity. }
      destruct (len pp <? Ebay.pageSize); [inv H; exact Hconv|].
      eapply IH; eauto. }
  destruct Hext as (rest & Hext).
  exists n, rest. split; [exact Hn|]. split.
  - rewrite Hs, !searches_app. unfold searches at 2 3. cbn [requests flat_map app filter].
    change (is_search_request (Ebay_token_request c)) with false.
    cbv iota. now rewrite !app_nil_r.
  - split; [exact Hext|].
    apply Forall_forall. intros req Hin. apply in_map_iff in Hin.
    destruct Hin as (z & <- & _). split; [reflexivity|].
    apply (HasPrefix_append Ebay.prodSearchURL ("?" ++ url.Encode (Ebay.searchQuery z))).
Qed.





Lemma E_searchLoop_endless (w : World) (c : Ebay.EbayClient) (fuel : nat) :
  (forall offset, serves_items w c offset (Z.to_nat Ebay.pageSize)) ->
  forall (offset : Z) (allParts : list Part.Part) (h : History),
    fst (Ebay.searchLoop w c fuel offset allParts h) = OutOfFuel.
Proof.
  intros Hs. induction fuel as [|fuel IH]; intros offset allParts h.
  - reflexivity.
  - destruct (E_searchLoop_round w c fuel offset allParts h _ (Hs offset))
      as (pp & h1 & _ & _ & E).
    rewrite E. change (Z.of_nat (Z.to_nat Ebay.pageSize) <? Ebay.pageSize) with false.
    cbv iota. apply IH.
Qed.

Lemma E_FetchParts_searches (w : World) (c : Ebay.EbayClient) (fuel : nat)
  (params : SearchParams.SearchParams) (h h' : History) (r : outcome (list Part.Part))
  (c1 : Ebay.EbayClient) :
  Ebay.FetchParts w c fuel params h = (r, c1, h') ->
  exists n, (n <= fuel)%nat /\ (r = OutOfFuel -> n = fuel)
            /\ searches h' = (searches h ++ map (Ebay.searchRequest c1) (offsets 0 n))%list.
Proof.
  unfold Ebay.FetchParts. run. intros H.
  pose proof (E_GetAccessToken_result w c (h ++ [Logged "Fetching parts from eBay"])%list)
    as (Hh & _).
  destruct (Ebay.GetAccessToken w c (h ++ [Logged "Fetching parts from eBay"])%list)
    as [[e c2] h0].
  cbn [fst snd] in *. subst h0.
  match type of H with
  | context [Ebay.searchLoop w c2 fuel 0 [] ?hh] =>
      destruct (Ebay.searchLoop w c2 fuel 0 [] hh) as [r0 h1] eqn:El
  end.
  inv H. apply E_searchLoop_searches in El. destruct El as (n & Hn & Hs & Hout).
  exists n. split; [exact Hn|]. split; [exact Hout|].
  rewrite Hs, !searches_app. unfold searches at 2 3. cbn [requests flat_map app filter].
  change (is_search_request (Ebay_token_request c)) with false.
  cbv iota. now rewrite !app_nil_r.
Qed.

Lemma E_FetchParts_endless (w : World) (c : Ebay.EbayClient) (fuel : nat)
  (params : SearchParams.SearchParams) (h : History) :
  (forall c' offset, serves_items w c' offset (Z.to_nat Ebay.pageSize)) ->
  fst (fst (Ebay.FetchParts w c fuel params h)) = OutOfFuel.
Proof.
  intros Hs. unfold Ebay.FetchParts. run.
  match goal with
  | |- context [Ebay.GetAccessToken w c ?hh] =>
      destruct (Ebay.GetAccessToken w c hh) as [[e c1] h0]
  end.
  cbn [snd fst].
  pose proof (E_searchLoop_endless w c1 fuel (Hs c1) 0 []
                (h0 ++ [Logged "Access token retrieved"])%list) as Hout.
  destruct (Ebay.searchLoop w c1 fuel 0 [] (h0 ++ [Logged "Access token retrieved"])%list)
    as [r h'].
  exact Hout.
Qed.

(** X14. The search loop has no ceiling: from a source whose every page is
    full, [FetchParts] has not returned after any number of rounds, and it
    has sent one search per round. *)
Theorem full_pages_never_end (w : World) (c : Ebay.EbayClient)
  (params : SearchParams.SearchParams) (h : History) :
  (forall c' offset, serves_items w c' offset (Z.to_nat Ebay.pageSize)) ->
  forall fuel,
    fst (fst (Ebay.FetchParts w c fuel params h)) = OutOfFuel
    /\ List.length (searches (snd (Ebay.FetchParts w c fuel params h)))
       = (List.length (searches h) + fuel)%nat.
Proof.
  intros Hs fuel.
  pose proof (E_FetchParts_endless w c fuel params h Hs) as Hout.
  destruct (Ebay.FetchParts w c fuel params h) as [[r c1] h'] eqn:E.
  cbn [fst snd] in *. subst r. split; [reflexivity|].
  apply E_FetchParts_searches in E. destruct E as (n & _ & Hn & Hreq).
  rewrite (Hn eq_refl) in Hreq.
  rewrite Hreq, length_app, length_map. unfold offsets. now rewrite length_map, length_seq.
Qed.

(** Seven rounds against a source of full pages. *)
Lemma full_pages_never_end_witness :
  fst (fst (Ebay.FetchParts Example.bottomless Example.returning_client 7
              Example.no_params [])) = OutOfFuel
  /\ List.length (searches (snd (Ebay.FetchParts Example.bottomless Example.returning_client 7
                                   Example.no_params []))) = 7%nat.
Proof.
  apply (full_pages_never_end Example.bottomless Example.returning_client
           Example.no_params []).
  intros c' offset h.
  exists {| http.StatusCode := 200; http.body := Example.browse 0 200 |},
         (Example.browse_response 0 200).
  repeat split; vm_compute; reflexivity.
Defined.



(* ================================================================== *)
(** ** Parsed dates *)
(* ================================================================== *)

Transparent time.Parse time.first_parse.

Lemma parse_std_in_range (e : time.std) (value v : string) (f f' : time.fields) :
  time.parse_std e value f = Some (f', v) ->
  fields_in_range f -> fields_in_range f'.
Proof.
  unfold fields_in_range. intros H (Hm & Hh & Hmi & Hs).
  destruct e; cbn [time.parse_std] in H;
    repeat match type of H with
      | match ?x with _ => _ end = _ => destruct x eqn:?; try discriminate
      | (let '(_, _) := ?x in _) = _ => destruct x eqn:?
      end;
    inv H; cbn;
    repeat match goal with
      | E : (_ || _) = false |- _ => apply orb_false_iff in E; destruct E
      | E : (_ <? _) = false |- _ => apply Z.ltb_ge in E
      | E : (_ <=? _) = false |- _ => apply Z.leb_gt in E
      end;
    repeat split; try lia.
Qed.

Lemma parse_loop_in_range (fuel : nat) :
  forall (layout value : string) (f f' : time.fields),
    time.parse_loop fuel layout value f = Some f' ->
    fields_in_range f -> fields_in_range f'.
Proof.
  induction fuel as [|fuel IH]; intros layout value f f' H Hf; [discriminate|].
  cbn [time.parse_loop] in H.
  destruct (time.nextStdChunk layout) as [[prefix e] suffix].
  destruct (time.skip (String.length prefix) value prefix) as [value1|]; [|discriminate].
  destruct e as [e|].
  - destruct (time.parse_std e value1 f) as [[f1 value2]|] eqn:Hstd; [|discriminate].
    eapply IH; [exact H|]. eapply parse_std_in_range; eauto.
  - destruct (value1 =? "")%string; [|discriminate]. now inv H.
Qed.

Lemma Parse_is_calendar (layout value : string) (t : time.Time) :
  time.Parse layout value = Some t ->
  calendar_time t /\ time.Loc t = time.UTC.
Proof.
  unfold time.Parse. intros H.
  destruct (time.parse_loop (S (String.length layout)) layout value time.no_fields)
    as [f|] eqn:Hloop; [|discriminate].
  apply parse_loop_in_range in Hloop.
  2: { unfold fields_in_range. cbn. lia. }
  destruct Hloop as (Hm & Hh & Hmi & Hs).
  cbv zeta in H.
  match type of H with
  | (if ?b then _ else _) = _ => destruct b eqn:Hday; [discriminate|]
  end.
  inv H. apply orb_false_iff in Hday. destruct Hday as (Hd1 & Hd2).
  apply Z.ltb_ge in Hd1, Hd2.
  unfold calendar_time. cbn. split; [|reflexivity].
  destruct (time.f_month f <? 0) eqn:Hneg;
    [apply Z.ltb_lt in Hneg | apply Z.ltb_ge in Hneg];
    destruct (time.f_day f <? 0); repeat split; lia.
Qed.

Lemma first_parse_is_calendar (layouts : list string) (value : string) (t : time.Time) :
  time.first_parse layouts value = Some t ->
  calendar_time t /\ time.Loc t = time.UTC.
Proof.
  induction layouts as [|layout rest IH]; cbn [time.first_parse]; [discriminate|].
  destruct (time.Parse layout value) as [t'|] eqn:Hp; [|exact IH].
  intros H. inv H. eapply Parse_is_calendar; eauto.
Qed.

Opaque time.Parse time.first_parse.

(** X16. A date [parseEnterDate] reads is a day of the calendar with a
    clock reading, in UTC, and its text is not empty; every part of a
    successful [FetchParts] of the SchadeAutos client has such a creation
    date. *)
Theorem enter_dates_are_calendar_dates (w : World) (c : SchadeAutos.SchadeAutosClient)
  (params : SearchParams.SearchParams) (h : History) :
  (forall dateStr t,
      SchadeAutos.parseEnterDate dateStr = Some t ->
      dateStr <> "" /\ calendar_time t /\ time.Loc t = time.UTC)
  /\ (forall parts,
        fst (SchadeAutos.FetchParts w c params h) = Returns (Ok parts) ->
        Forall (fun p => calendar_time (Part.CreationDate p)
                         /\ time.Loc (Part.CreationDate p) = time.UTC) parts).
Proof.
  assert (Hparse : forall dateStr t,
             SchadeAutos.parseEnterDate dateStr = Some t ->
             dateStr <> "" /\ calendar_time t /\ time.Loc t = time.UTC).
  { unfold SchadeAutos.parseEnterDate. intros dateStr t H.
    destruct (String.eqb_spec dateStr ""); [discriminate|].
    split; [assumption|]. eapply first_parse_is_calendar; eauto. }
  split; [exact Hparse|].
  intros parts H. unfold SchadeAutos.FetchParts in H. run.
  destruct (roundTrip w h (SchadeAutos.searchRequest c params)) as [e|e|resp];
    try discriminate.
  destruct (negb (http.StatusCode resp =? http.StatusOK)); try discriminate.
  destruct (http.as_schadeAutosResponse (http.body resp)) as [apiResponse|e];
    try discriminate.
  match type of H with
  | context [SchadeAutos.convert w c ?es [] ?hh] =>
      destruct (SchadeAutos.convert w c es [] hh) as [r h'] eqn:E
  end.
  cbn [fst] in H. subst r. apply S_convert_stocked in E.
  destruct E as (ps & -> & Hps). cbn [app].
  clear - Hps Hparse. induction Hps as [|entry p entries ps Hst _ IH]; constructor; trivial.
  destruct Hst as (_ & _ & _ & _ & _ & _ & _ & Hdate & _).
  apply Hparse in Hdate. tauto.
Qed.

(** The fifth of January 2024, in two of the layouts; the thirtieth of
    February is no date. *)
Lemma enter_dates_are_calendar_dates_witness :
  (SchadeAutos.parseEnterDate "2024-01-05" = Some (time.Date 2024 1 5 0 0 0 0 time.UTC)
   /\ calendar_time (time.Date 2024 1 5 0 0 0 0 time.UTC))
  /\ SchadeAutos.parseEnterDate "05/01/2024" = Some (time.Date 2024 1 5 0 0 0 0 time.UTC)
  /\ SchadeAutos.parseEnterDate "2024-02-30" = None.
Proof.
  split; [|split; vm_compute; reflexivity].
  split; [vm_compute; reflexivity|].
  apply (proj1 (enter_dates_are_calendar_dates Example.offline
                  (SchadeAutos.NewSchadeAutosClient 4) Example.no_params [])
           "2024-01-05").
  vm_compute. reflexivity.
Defined.
